(** * FocusTimer v9 (application.py): the adaptive floating display subsystem

    A shallow embedding of the average-colour sampler, the wallpaper
    compositor's bounding box, the minimal-panel font fit, the timer's
    stop path, the minimal panel's event handlers and the notes save
    action, followed by the properties proved about them.

    Python integers are [Z]; Python floats are IEEE binary64 values of
    [SpecFloat]; a Python string is held as its UTF-8 bytes (the texts
    that are measured or sliced are ASCII); the configuration dictionary
    [data] is a record whose optional fields are [None] when the key is
    absent (for [minimal_pos]
    and [notes_save_path], which the code tests for truth, also when the
    key holds [None]);
    a handler that mutates [self] is a function from state to state, and
    side effects a property talks about (image decodes, alarms, message
    boxes, geometry requests, composites) are counted or logged in the
    state. *)

From Stdlib Require Import ZArith List String Ascii Bool Lia Strings.Byte.
From Stdlib Require Import Floats.SpecFloat.
From Stdlib Require DecimalString.
From stdpp Require Import base gmap strings list.

Local Open Scope Z_scope.

(** ** Python runtime: exceptions and outcomes *)

Module Py.

Inductive exn : Type :=
| OSError
| ValueError
| TypeError
| ZeroDivisionError
| OverflowError.

(** What a call does: it returns a value or raises. *)
Inductive outcome (A : Type) : Type :=
| Returned (a : A)
| Raised (e : exn).

Arguments Returned {A} a.
Arguments Raised {A} e.

Definition bind {A B : Type} (o : outcome A) (k : A -> outcome B) : outcome B :=
  match o with
  | Returned a => k a
  | Raised e => Raised e
  end.

Definition is_returned {A : Type} (o : outcome A) : bool :=
  match o with
  | Returned _ => true
  | Raised _ => false
  end.

(** Truthiness of an optional string: [None] and [""] are falsy. *)
Definition truthy_str (p : option string) : bool :=
  match p with
  | Some s => negb (String.eqb s "")
  | None => false
  end.

(** Text is held as its UTF-8 bytes. [str.isspace] holds of U+0009 to
    U+000D, U+001C to U+0020, U+0085, U+00A0, U+1680, U+2000 to U+200A,
    U+2028, U+2029, U+202F, U+205F and U+3000: [is_space] is the
    one-byte part of that set, [is_space2] and [is_space3] are the
    two- and three-byte encodings of the rest. *)
Definition is_space (c : ascii) : bool :=
  let n := N_of_ascii c in
  ((9 <=? n) && (n <=? 13) || (28 <=? n) && (n <=? 32))%N.

Definition is_space2 (a b : ascii) : bool :=
  let x := N_of_ascii a in
  let y := N_of_ascii b in
  ((x =? 0xC2) && ((y =? 0x85) || (y =? 0xA0)))%N.

Definition is_space3 (a b c : ascii) : bool :=
  let x := N_of_ascii a in
  let y := N_of_ascii b in
  let z := N_of_ascii c in
  ((x =? 0xE1) && (y =? 0x9A) && (z =? 0x80)
   || (x =? 0xE2) && (y =? 0x80)
      && ((0x80 <=? z) && (z <=? 0x8A) || (z =? 0xA8) || (z =? 0xA9) || (z =? 0xAF))
   || (x =? 0xE2) && (y =? 0x81) && (z =? 0x9F)
   || (x =? 0xE3) && (y =? 0x80) && (z =? 0x80))%N.

(** Leading white space removed; [one] tells which one-byte characters
    count as white space. *)
Fixpoint lstrip_with (one : ascii -> bool) (s : string) : string :=
  match s with
  | EmptyString => EmptyString
  | String a r =>
      if one a then lstrip_with one r
      else
        match r with
        | EmptyString => s
        | String b r2 =>
            if is_space2 a b then lstrip_with one r2
            else
              match r2 with
              | EmptyString => s
              | String c r3 => if is_space3 a b c then lstrip_with one r3 else s
              end
        end
  end.

(** Trailing white space removed: the longest suffix that is white
    space throughout. *)
Fixpoint rstrip_with (one : ascii -> bool) (s : string) : string :=
  match s with
  | EmptyString => EmptyString
  | String a r =>
      if String.eqb (lstrip_with one s) "" then EmptyString
      else String a (rstrip_with one r)
  end.

Definition lstrip (s : string) : string := lstrip_with is_space s.

Definition rstrip (s : string) : string := rstrip_with is_space s.

(** [s.strip()]. *)
Definition strip (s : string) : string := rstrip (lstrip s).

(** The white space [int] skips around a literal: of the one-byte
    characters those of C's [isspace] (U+001C to U+001F are not among
    them), and every wider character of [str.isspace]. *)
Definition is_c_space (c : ascii) : bool :=
  let n := N_of_ascii c in
  ((9 <=? n) && (n <=? 13) || (n =? 32))%N.

Definition int_strip (s : string) : string :=
  rstrip_with is_c_space (lstrip_with is_c_space s).

Definition NL : string := String (ascii_of_nat 10) EmptyString.

(** A text given by its UTF-8 bytes. *)
Definition of_utf8 (bs : list N) : string :=
  fold_right (fun b s => String (ascii_of_N b) s) EmptyString bs.

(** [s.split(sep)] for a one-character separator. *)
Fixpoint split (sep : ascii) (s : string) : list string :=
  match s with
  | EmptyString => [EmptyString]
  | String c r =>
      if Ascii.eqb c sep then EmptyString :: split sep r
      else match split sep r with
           | x :: xs => String c x :: xs
           | [] => [String c EmptyString]
           end
  end.

Definition digit_val (c : ascii) : option Z :=
  let n := N_of_ascii c in
  if ((48 <=? n) && (n <=? 57))%N then Some (Z.of_N n - 48) else None.

Fixpoint digits_val (s : string) (acc : Z) : option Z :=
  match s with
  | EmptyString => Some acc
  | String c r =>
      match digit_val c with
      | Some d => digits_val r (10 * acc + d)
      | None => None
      end
  end.

Definition unsigned_int (s : string) : outcome Z :=
  match s with
  | EmptyString => Raised ValueError
  | _ => match digits_val s 0 with
         | Some v => Returned v
         | None => Raised ValueError
         end
  end.

(** [int(s)] for a decimal literal: surrounding white space, an optional
    sign, then digits (digit-group underscores and the decimal digits of
    other scripts are not modelled). *)
Definition int_of_str (s : string) : outcome Z :=
  match int_strip s with
  | String "-" r => bind (unsigned_int r) (fun v => Returned (- v))
  | String "+" r => unsigned_int r
  | t => unsigned_int t
  end.

End Py.

Export Py.

(** ** The configuration dictionary and the file system *)

Module Config.

(** A JSON value as far as [isinstance(c, str)] can tell them apart. *)
Inductive pyval : Type :=
| PyNone
| PyInt (z : Z)
| PyStr (s : string).

Record task : Type := {
  total : option Z;
  target : option Z
}.

(** A completed-session record; times are seconds since the epoch. *)
Record session : Type := {
  s_task : string;
  s_seconds : Z;
  s_start : Z;
  s_end : Z
}.

(** The keys of [DEFAULT_DATA] the display subsystem reads or writes.
    [tasks] is an association list: dictionary order decides
    [next(iter(...))]. *)
Record data : Type := {
  wallpaper_color_cache : option (gmap string pyval);
  wallpaper_fit_pct : option Z;
  wallpaper_min_fit_pct : option Z;
  minimal_pos : option (Z * Z);
  minimal_size : option (Z * Z);
  minimal_notes_memory : option string;
  notes_save_path : option string;
  beep : option bool;
  tasks : option (list (string * task));
  sessions : option (list session)
}.

(** The two stock tasks are 高等数学 and 数学建模. *)
Definition DEFAULT_DATA : data := {|
  wallpaper_color_cache := Some ∅;
  wallpaper_fit_pct := Some 92;
  wallpaper_min_fit_pct := Some 92;
  minimal_pos := None;
  minimal_size := Some (560, 260);
  minimal_notes_memory := Some ""%string;
  notes_save_path := None;
  beep := Some true;
  tasks := Some [
    (of_utf8 [0xE9; 0xAB; 0x98; 0xE7; 0xAD; 0x89; 0xE6; 0x95; 0xB0; 0xE5; 0xAD; 0xA6]%N,
     {| total := Some 0; target := Some (25 * 60) |});
    (of_utf8 [0xE6; 0x95; 0xB0; 0xE5; 0xAD; 0xA6; 0xE5; 0xBB; 0xBA; 0xE6; 0xA8; 0xA1]%N,
     {| total := Some 0; target := None |})];
  sessions := Some []
|}.

Definition set_wallpaper_color_cache (c : gmap string pyval) (d : data) : data := {|
  wallpaper_color_cache := Some c;
  wallpaper_fit_pct := wallpaper_fit_pct d;
  wallpaper_min_fit_pct := wallpaper_min_fit_pct d;
  minimal_pos := minimal_pos d;
  minimal_size := minimal_size d;
  minimal_notes_memory := minimal_notes_memory d;
  notes_save_path := notes_save_path d;
  beep := beep d;
  tasks := tasks d;
  sessions := sessions d
|}.

Definition set_minimal_pos (p : Z * Z) (d : data) : data := {|
  wallpaper_color_cache := wallpaper_color_cache d;
  wallpaper_fit_pct := wallpaper_fit_pct d;
  wallpaper_min_fit_pct := wallpaper_min_fit_pct d;
  minimal_pos := Some p;
  minimal_size := minimal_size d;
  minimal_notes_memory := minimal_notes_memory d;
  notes_save_path := notes_save_path d;
  beep := beep d;
  tasks := tasks d;
  sessions := sessions d
|}.

Definition set_minimal_size (sz : Z * Z) (d : data) : data := {|
  wallpaper_color_cache := wallpaper_color_cache d;
  wallpaper_fit_pct := wallpaper_fit_pct d;
  wallpaper_min_fit_pct := wallpaper_min_fit_pct d;
  minimal_pos := minimal_pos d;
  minimal_size := Some sz;
  minimal_notes_memory := minimal_notes_memory d;
  notes_save_path := notes_save_path d;
  beep := beep d;
  tasks := tasks d;
  sessions := sessions d
|}.

Definition set_minimal_notes_memory (txt : string) (d : data) : data := {|
  wallpaper_color_cache := wallpaper_color_cache d;
  wallpaper_fit_pct := wallpaper_fit_pct d;
  wallpaper_min_fit_pct := wallpaper_min_fit_pct d;
  minimal_pos := minimal_pos d;
  minimal_size := minimal_size d;
  minimal_notes_memory := Some txt;
  notes_save_path := notes_save_path d;
  beep := beep d;
  tasks := tasks d;
  sessions := sessions d
|}.

Definition set_tasks_sessions (ts : list (string * task)) (ss : list session)
    (d : data) : data := {|
  wallpaper_color_cache := wallpaper_color_cache d;
  wallpaper_fit_pct := wallpaper_fit_pct d;
  wallpaper_min_fit_pct := wallpaper_min_fit_pct d;
  minimal_pos := minimal_pos d;
  minimal_size := minimal_size d;
  minimal_notes_memory := minimal_notes_memory d;
  notes_save_path := notes_save_path d;
  beep := beep d;
  tasks := Some ts;
  sessions := Some ss
|}.

(** One RGB pixel of [im.getdata()]: three 8-bit channels. *)
Record pixel : Type := {
  px_r : byte;
  px_g : byte;
  px_b : byte
}.

(** The part of the outside world the subsystem touches: which paths
    exist, what decoding an image file yields ([Image.open] through
    [getdata], which may raise), whether [DATA_FILE] can be written and
    what it holds, and the text files notes are appended to. *)
Record fsys : Type := {
  fs_exists : string -> bool;
  fs_pixels : string -> outcome (list pixel);
  fs_writable : bool;
  fs_saved : option data;
  fs_appendable : string -> bool;
  fs_files : gmap string string
}.

Definition with_saved (d : data) (fs : fsys) : fsys := {|
  fs_exists := fs_exists fs;
  fs_pixels := fs_pixels fs;
  fs_writable := fs_writable fs;
  fs_saved := Some d;
  fs_appendable := fs_appendable fs;
  fs_files := fs_files fs
|}.

Definition with_files (files : gmap string string) (fs : fsys) : fsys := {|
  fs_exists := fs_exists fs;
  fs_pixels := fs_pixels fs;
  fs_writable := fs_writable fs;
  fs_saved := fs_saved fs;
  fs_appendable := fs_appendable fs;
  fs_files := files
|}.

(** [save_data]: a full-document rewrite of [DATA_FILE], or [OSError]
    from [open], which leaves the file as it was (a failure in the
    middle of the write is not modelled). *)
Definition save_data (d : data) (fs : fsys) : outcome fsys :=
  if fs_writable fs then Returned (with_saved d fs) else Raised OSError.

End Config.

Export Config.

(** ** Average-colour sampler *)

Module Sampler.

Definition FALLBACK : string := "#f0f0f3".

Definition hex_digit (n : N) : ascii :=
  match n with
  | 0%N => "0" | 1%N => "1" | 2%N => "2" | 3%N => "3"
  | 4%N => "4" | 5%N => "5" | 6%N => "6" | 7%N => "7"
  | 8%N => "8" | 9%N => "9" | 10%N => "a" | 11%N => "b"
  | 12%N => "c" | 13%N => "d" | 14%N => "e" | _ => "f"
  end%char.

Fixpoint hex_digits (fuel : nat) (n : N) (acc : string) : string :=
  match fuel with
  | O => acc
  | S fuel' =>
      let acc' := String (hex_digit (n mod 16)) acc in
      if (n / 16 =? 0)%N then acc' else hex_digits fuel' (n / 16) acc'
  end.

(** [format(n, "x")] for a non-negative integer. *)
Definition format_x (n : N) : string := hex_digits (S (N.size_nat n)) n "".

Fixpoint zeros (k : nat) : string :=
  match k with
  | O => ""
  | S k' => String "0" (zeros k')
  end.

(** [f"{n:02x}"]: lower-case hexadecimal, zero-padded to width 2. *)
Definition format_02x (n : N) : string :=
  let s := format_x n in
  (zeros (2 - String.length s) ++ s)%string.

Definition sum_channel (ch : pixel -> byte) (px : list pixel) : N :=
  fold_right (fun p acc => (Byte.to_N (ch p) + acc)%N) 0%N px.

(** The body of the [with Image.open(path)] block once the pixels are
    read: the mean of each channel with floor division by [len(px)]
    (which raises on an empty list), formatted as [#rrggbb]. *)
Definition mean_hex (px : list pixel) : outcome string :=
  let n := N.of_nat (length px) in
  if (n =? 0)%N then Raised ZeroDivisionError
  else
    let r := (sum_channel px_r px / n)%N in
    let g := (sum_channel px_g px / n)%N in
    let b := (sum_channel px_b px / n)%N in
    Returned ("#" ++ format_02x r ++ format_02x g ++ format_02x b)%string.

(** What one call did, besides returning: the dictionary it was handed
    (mutated in place), the file system, and how many times it opened
    the image for decoding. *)
Record result : Type := {
  returned : outcome string;
  data_after : option data;
  fs_after : fsys;
  decodes : nat
}.

(** [data.setdefault("wallpaper_color_cache", {})]. *)
Definition setdefault_cache (d : data) : data * gmap string pyval :=
  match wallpaper_color_cache d with
  | Some c => (d, c)
  | None => (set_wallpaper_color_cache ∅ d, ∅)
  end.

(** [avg_color_hex(path, fallback, data)]; [pil] says whether the
    [Image] module was imported. *)
Definition avg_color_hex (pil : bool) (path : option string) (fallback : string)
    (data : option data) (fs : fsys) : result :=
  match path with
  | Some p =>
      if negb pil || negb (truthy_str path) || negb (fs_exists fs p)
      then {| returned := Returned fallback; data_after := data;
              fs_after := fs; decodes := 0 |}
      else
        let data1 := option_map (fun d => fst (setdefault_cache d)) data in
        let hit :=
          match data with
          | Some d => snd (setdefault_cache d) !! p
          | None => None
          end in
        match hit with
        | Some (PyStr c) =>
            {| returned := Returned c; data_after := data1;
               fs_after := fs; decodes := 0 |}
        | _ =>
            (* try: *)
            match Py.bind (fs_pixels fs p) mean_hex with
            | Returned hexv =>
                match data1 with
                | Some d1 =>
                    let d2 :=
                      set_wallpaper_color_cache
                        (<[p := PyStr hexv]> (snd (setdefault_cache d1))) d1 in
                    match save_data d2 fs with
                    | Returned fs' =>
                        {| returned := Returned hexv; data_after := Some d2;
                           fs_after := fs'; decodes := 1 |}
                    | Raised _ =>
                        (* except Exception: *)
                        {| returned := Returned fallback; data_after := Some d2;
                           fs_after := fs; decodes := 1 |}
                    end
                | None =>
                    {| returned := Returned hexv; data_after := None;
                       fs_after := fs; decodes := 1 |}
                end
            | Raised _ =>
                (* except Exception: *)
                {| returned := Returned fallback; data_after := data1;
                   fs_after := fs; decodes := 1 |}
            end
        end
  | None =>
      {| returned := Returned fallback; data_after := data;
         fs_after := fs; decodes := 0 |}
  end.

(** The cache as a mapping: an absent key reads as the empty cache. *)
Definition cache_of (d : option data) : gmap string pyval :=
  match d with
  | Some d' => default ∅ (wallpaper_color_cache d')
  | None => ∅
  end.

Definition is_hex_digit (c : ascii) : bool :=
  let n := N_of_ascii c in
  ((48 <=? n) && (n <=? 57) || (97 <=? n) && (n <=? 102))%N.

(** A [#rrggbb] string: [#] followed by exactly six hexadecimal digits. *)
Definition is_hex_color (s : string) : bool :=
  match s with
  | String "#" rest =>
      (String.length rest =? 6)%nat && forallb is_hex_digit (list_ascii_of_string rest)
  | _ => false
  end.

End Sampler.

(** ** Python floats: IEEE 754 binary64 *)

Module Float64.

Definition prec : Z := 53.
Definition emax : Z := 1024.

(** Conversion of an [int] operand of a float operation: correctly
    rounded (ties to even), [OverflowError] when the integer is too
    large for a double. *)
Definition of_int (z : Z) : outcome spec_float :=
  match binary_normalize prec emax z 0 false with
  | S754_infinity _ => Raised OverflowError
  | f => Returned f
  end.

Definition mul (x y : spec_float) : spec_float := SFmul prec emax x y.

(** [x / y]: [ZeroDivisionError] on a zero divisor, IEEE division
    otherwise. *)
Definition truediv (x y : spec_float) : outcome spec_float :=
  match y with
  | S754_zero _ => Raised ZeroDivisionError
  | _ => Returned (SFdiv prec emax x y)
  end.

(** The builtin [min(a, b)]: [b] when [b < a], else [a]. *)
Definition min (a b : spec_float) : spec_float :=
  if SFltb b a then b else a.

(** [int(x)]: truncation toward zero; infinities and NaN raise. *)
Definition to_int (x : spec_float) : outcome Z :=
  match x with
  | S754_zero _ => Returned 0
  | S754_finite s m e =>
      let v := Z.shiftl (Zpos m) e in
      Returned (if s then - v else v)
  | S754_infinity _ => Raised OverflowError
  | S754_nan => Raised ValueError
  end.

(** The doubles the literals [0.45], [0.80] and [0.5] denote. *)
Definition lit_0_45 : spec_float := S754_finite false 8106479329266893 (-54).
Definition lit_0_80 : spec_float := S754_finite false 7205759403792794 (-53).
Definition lit_0_5 : spec_float := S754_finite false 4503599627370496 (-53).

(** [z * c] for an integer [z] and a float [c]. *)
Definition int_mul (z : Z) (c : spec_float) : outcome spec_float :=
  Py.bind (of_int z) (fun fz => Returned (mul fz c)).

End Float64.

(** ** Adaptive typography *)

Module Typography.

(** [_auto_font_minimal_by_wh(w, h, text)]. Strings hold one character
    per code point, so [String.length] is [len]. *)
Definition _auto_font_minimal_by_wh (w h : Z) (text : string) : outcome Z :=
  let text' := if String.eqb text "" then "00:00:00"%string else text in
  let n := Z.max 1 (Z.of_nat (String.length text')) in
  Py.bind (Float64.int_mul h Float64.lit_0_45) (fun by_h =>
  Py.bind (Float64.int_mul w Float64.lit_0_80) (fun num =>
  Py.bind (Float64.of_int n) (fun fn =>
  Py.bind (Float64.truediv num fn) (fun by_w =>
  Py.bind (Float64.to_int (Float64.min by_h by_w)) (fun size =>
  Returned (Z.max 24 (Z.min 280 size))))))).

(** [_auto_font_minimal(h)], used when the panel is opened. *)
Definition _auto_font_minimal (h : Z) : outcome Z :=
  Py.bind (Float64.int_mul h Float64.lit_0_45) (fun by_h =>
  Py.bind (Float64.to_int by_h) (fun size =>
  Returned (Z.max 24 (Z.min 200 size)))).

End Typography.

(** ** Wallpaper compositor: the bounding box *)

Module Compositor.

(** [min(w, h) * max(10, min(fit_pct, 100)) // 100]. *)
Definition short_side (w h fit_pct : Z) : Z :=
  Z.min w h * Z.max 10 (Z.min fit_pct 100) / 100.

(** What one composite of a surface produced: the background colour
    and, when an image source resolved, the side of the square box
    handed to [ImageOps.contain]. *)
Record drawn : Type := {
  d_bg : string;
  d_short : option Z
}.

(** [_draw_timer_wallpaper], main stage. [picked] is what [_pick_main]
    returned, [ww] and [wh] what [winfo_width] and [winfo_height] report.
    The result is [None] when PIL is missing (the stage is only filled
    with the fallback colour). *)
Definition _draw_timer_wallpaper (pil : bool) (picked : option string)
    (ww wh : Z) (d : data) (fs : fsys) : option drawn * data * fsys :=
  if negb pil then (None, d, fs)
  else if negb (truthy_str picked)
  then (Some {| d_bg := "#f0f0f3"; d_short := None |}, d, fs)
  else
    let r := Sampler.avg_color_hex pil picked "#f0f0f3" (Some d) fs in
    let avg := match Sampler.returned r with
               | Returned c => c
               | Raised _ => "#f0f0f3"%string
               end in
    let d' := default d (Sampler.data_after r) in
    let fit_pct := default 92 (wallpaper_fit_pct d') in
    let w := Z.max 1 ww in
    let h := Z.max 1 wh in
    let short := short_side w h fit_pct in
    (Some {| d_bg := avg; d_short := Some short |}, d', Sampler.fs_after r).

End Compositor.


(** ** Timer engine: the stop path *)

Module Timer.

Inductive timer_mode : Type := Countdown | CountUp.
Inductive widget_state : Type := NORMAL | DISABLED.
(** The two captions of the pause button. *)
Inductive pause_caption : Type := CaptionPause | CaptionResume.

Record timer : Type := {
  t_data : data;
  t_fs : fsys;
  _timer_running : bool;
  _timer_paused : bool;
  _mode : timer_mode;
  _countdown_seconds : Z;
  timer_label : string;
  task_var : option string;
  btn_start : widget_state;
  btn_pause : widget_state;
  btn_pause_text : pause_caption;
  btn_stop : widget_state;
  alarms : nat
}.

Definition digit_char (n : Z) : ascii := ascii_of_N (48 + Z.to_N n).

Definition two_digits (n : Z) : string :=
  String (digit_char (n / 10)) (String (digit_char (n mod 10)) EmptyString).

(** [time.strftime("%H:%M:%S", time.gmtime(sec))] for [sec >= 0]. *)
Definition strftime_hms (sec : Z) : string :=
  (two_digits ((sec mod 86400) / 3600) ++ ":" ++
   two_digits ((sec mod 3600) / 60) ++ ":" ++
   two_digits (sec mod 60))%string.

(** [h, m, s = map(int, shown.split(":"))]. *)
Definition parse_hms (shown : string) : outcome (Z * Z * Z) :=
  match split ":" shown with
  | [a; b; c] =>
      Py.bind (int_of_str a) (fun h =>
      Py.bind (int_of_str b) (fun m =>
      Py.bind (int_of_str c) (fun s => Returned (h, m, s))))
  | _ => Raised ValueError
  end.

Definition has_key (k : string) (ts : list (string * task)) : bool :=
  existsb (fun kv => String.eqb (fst kv) k) ts.

(** [tasks[k]["total"] = int(tasks[k].get("total", 0)) + used]. *)
Fixpoint add_total (k : string) (used : Z) (ts : list (string * task))
    : list (string * task) :=
  match ts with
  | [] => []
  | (k', t) :: rest =>
      if String.eqb k' k
      then (k', {| total := Some (default 0 (total t) + used);
                   target := target t |}) :: rest
      else (k', t) :: add_total k used rest
  end.

(** The state after the three flag and button resets and the alarm. *)
Definition finished (t : timer) (d : data) (fs : fsys) (lbl : string) : timer := {|
  t_data := d;
  t_fs := fs;
  _timer_running := false;
  _timer_paused := false;
  _mode := _mode t;
  _countdown_seconds := _countdown_seconds t;
  timer_label := lbl;
  task_var := task_var t;
  btn_start := NORMAL;
  btn_pause := DISABLED;
  btn_pause_text := CaptionPause;
  btn_stop := DISABLED;
  alarms := if default true (beep (t_data t)) then S (alarms t) else alarms t
|}.

(** [_finish_session(used_seconds)]; [now] is [datetime.now()]. When
    [save_data] raises, the handler stops there: the label is not reset. *)
Definition _finish_session (now used_seconds : Z) (t : timer) : timer :=
  let d := t_data t in
  match tasks d with
  | Some ((k0, t0) :: rest) =>
      if 0 <? used_seconds then
        let ts := (k0, t0) :: rest in
        let k := match task_var t with
                 | Some v => if has_key v ts then v else k0
                 | None => k0
                 end in
        let rec := {| s_task := k; s_seconds := used_seconds;
                      s_start := now - used_seconds; s_end := now |} in
        let d' := set_tasks_sessions (add_total k used_seconds ts)
                    (default [] (sessions d) ++ [rec]) d in
        match save_data d' (t_fs t) with
        | Returned fs' => finished t d' fs' (strftime_hms (Z.max 0 0))
        | Raised _ => finished t d' (t_fs t) (timer_label t)
        end
      else finished t d (t_fs t) (strftime_hms (Z.max 0 0))
  | _ => finished t d (t_fs t) (strftime_hms (Z.max 0 0))
  end.

(** The seconds [stop_timer] hands to [_finish_session]. *)
Definition used_of (t : timer) (hms : Z * Z * Z) : Z :=
  let '(h, m, s) := hms in
  let used := h * 3600 + m * 60 + s in
  let used := match _mode t with
              | Countdown => _countdown_seconds t - used
              | CountUp => used
              end in
  Z.max 0 used.

Definition stop_timer (now : Z) (t : timer) : timer :=
  if negb (_timer_running t) then t
  else match parse_hms (timer_label t) with
       | Returned hms => _finish_session now (used_of t hms) t
       | Raised _ => t
       end.

End Timer.

(** ** Floating panel controller *)

Module Panel.

(** What [winfo_x], [winfo_y], [winfo_width] and [winfo_height] report.
    A geometry request is taken to be applied at once. *)
Record window : Type := {
  winfo_x : Z;
  winfo_y : Z;
  winfo_width : Z;
  winfo_height : Z
}.

Record label : Type := {
  text : string;
  font_size : Z
}.

Inductive handler : Type :=
| HClose
| HStartDrag
| HDragSmooth
| HSaveMinimalPos
| HRecalcFont
| HCtrlWheel
| HConfigure.

(** A Tk event as the handlers read it, with [ev_pick] the path
    [_pick_min] returns while it is handled (the file system and the
    random choice are the environment's). *)
Record event : Type := {
  ev_x : Z;
  ev_y : Z;
  ev_width : Z;
  ev_height : Z;
  ev_delta : Z;
  ev_pick : option string
}.

(** One pass of [_draw_min_wallpaper] beyond its size gate. *)
Record composite : Type := {
  c_size : Z * Z;
  c_bg : string;
  c_short : option Z
}.

Record panel : Type := {
  p_data : data;
  p_fs : fsys;
  p_pil : bool;
  minimal_win : option window;
  minimal_label : option label;
  minimal_bg : bool;
  bindings : gmap string (list handler);
  _drag_off : Z * Z;
  _last_min_h : option Z;
  _last_min_wallpaper_size : Z * Z;
  composites : list composite;
  applied : list (Z * Z)
}.

Definition set_store (d : data) (fs : fsys) (s : panel) : panel := {|
  p_data := d; p_fs := fs; p_pil := p_pil s;
  minimal_win := minimal_win s; minimal_label := minimal_label s;
  minimal_bg := minimal_bg s; bindings := bindings s;
  _drag_off := _drag_off s; _last_min_h := _last_min_h s;
  _last_min_wallpaper_size := _last_min_wallpaper_size s;
  composites := composites s; applied := applied s
|}.

Definition set_win (w : option window) (s : panel) : panel := {|
  p_data := p_data s; p_fs := p_fs s; p_pil := p_pil s;
  minimal_win := w; minimal_label := minimal_label s;
  minimal_bg := minimal_bg s; bindings := bindings s;
  _drag_off := _drag_off s; _last_min_h := _last_min_h s;
  _last_min_wallpaper_size := _last_min_wallpaper_size s;
  composites := composites s; applied := applied s
|}.

Definition set_label (l : option label) (s : panel) : panel := {|
  p_data := p_data s; p_fs := p_fs s; p_pil := p_pil s;
  minimal_win := minimal_win s; minimal_label := l;
  minimal_bg := minimal_bg s; bindings := bindings s;
  _drag_off := _drag_off s; _last_min_h := _last_min_h s;
  _last_min_wallpaper_size := _last_min_wallpaper_size s;
  composites := composites s; applied := applied s
|}.

Definition set_bg (b : bool) (s : panel) : panel := {|
  p_data := p_data s; p_fs := p_fs s; p_pil := p_pil s;
  minimal_win := minimal_win s; minimal_label := minimal_label s;
  minimal_bg := b; bindings := bindings s;
  _drag_off := _drag_off s; _last_min_h := _last_min_h s;
  _last_min_wallpaper_size := _last_min_wallpaper_size s;
  composites := composites s; applied := applied s
|}.

Definition set_bindings (b : gmap string (list handler)) (s : panel) : panel := {|
  p_data := p_data s; p_fs := p_fs s; p_pil := p_pil s;
  minimal_win := minimal_win s; minimal_label := minimal_label s;
  minimal_bg := minimal_bg s; bindings := b;
  _drag_off := _drag_off s; _last_min_h := _last_min_h s;
  _last_min_wallpaper_size := _last_min_wallpaper_size s;
  composites := composites s; applied := applied s
|}.

Definition set_drag_off (o : Z * Z) (s : panel) : panel := {|
  p_data := p_data s; p_fs := p_fs s; p_pil := p_pil s;
  minimal_win := minimal_win s; minimal_label := minimal_label s;
  minimal_bg := minimal_bg s; bindings := bindings s;
  _drag_off := o; _last_min_h := _last_min_h s;
  _last_min_wallpaper_size := _last_min_wallpaper_size s;
  composites := composites s; applied := applied s
|}.

Definition set_last_min_h (h : Z) (s : panel) : panel := {|
  p_data := p_data s; p_fs := p_fs s; p_pil := p_pil s;
  minimal_win := minimal_win s; minimal_label := minimal_label s;
  minimal_bg := minimal_bg s; bindings := bindings s;
  _drag_off := _drag_off s; _last_min_h := Some h;
  _last_min_wallpaper_size := _last_min_wallpaper_size s;
  composites := composites s; applied := applied s
|}.

(** The size gate is passed: remember the size and log the composite. *)
Definition set_composited (sz : Z * Z) (c : composite) (s : panel) : panel := {|
  p_data := p_data s; p_fs := p_fs s; p_pil := p_pil s;
  minimal_win := minimal_win s; minimal_label := minimal_label s;
  minimal_bg := minimal_bg s; bindings := bindings s;
  _drag_off := _drag_off s; _last_min_h := _last_min_h s;
  _last_min_wallpaper_size := sz;
  composites := composites s ++ [c]; applied := applied s
|}.

Definition set_applied (sz : Z * Z) (s : panel) : panel := {|
  p_data := p_data s; p_fs := p_fs s; p_pil := p_pil s;
  minimal_win := minimal_win s; minimal_label := minimal_label s;
  minimal_bg := minimal_bg s; bindings := bindings s;
  _drag_off := _drag_off s; _last_min_h := _last_min_h s;
  _last_min_wallpaper_size := _last_min_wallpaper_size s;
  composites := composites s; applied := applied s ++ [sz]
|}.

Definition set_font (f : Z) (s : panel) : panel :=
  match minimal_label s with
  | Some l => set_label (Some {| text := text l; font_size := f |}) s
  | None => s
  end.

Definition size_eqb (a b : Z * Z) : bool :=
  (fst a =? fst b) && (snd a =? snd b).

(** [_draw_min_wallpaper(force)]. *)
Definition _draw_min_wallpaper (force : bool) (pick : option string)
    (s : panel) : panel :=
  if negb (minimal_bg s) || negb (p_pil s) then s
  else match minimal_win s with
  | None => s
  | Some win =>
      let w := Z.max 1 (winfo_width win) in
      let h := Z.max 1 (winfo_height win) in
      if negb force && size_eqb (w, h) (_last_min_wallpaper_size s) then s
      else if negb (truthy_str pick)
      then set_composited (w, h)
             {| c_size := (w, h); c_bg := "#ffffff"; c_short := None |} s
      else
        let r := Sampler.avg_color_hex (p_pil s) pick "#f0f0f3"
                   (Some (p_data s)) (p_fs s) in
        let avg := match Sampler.returned r with
                   | Returned c => c
                   | Raised _ => "#f0f0f3"%string
                   end in
        let d' := default (p_data s) (Sampler.data_after r) in
        let fit_pct := default 92 (wallpaper_min_fit_pct d') in
        let short := Compositor.short_side w h fit_pct in
        set_composited (w, h)
          {| c_size := (w, h); c_bg := avg; c_short := Some short |}
          (set_store d' (Sampler.fs_after r) s)
  end.

(** [_on_minimal_configure(e)]. *)
Definition _on_minimal_configure (e : event) (s : panel) : panel :=
  let last := default 0 (_last_min_h s) in
  if ev_height e =? last then set_last_min_h last s
  else
    let s1 := set_last_min_h (ev_height e) s in
    match minimal_label s1 with
    | None => s1
    | Some lb =>
        match Typography._auto_font_minimal_by_wh (ev_width e) (ev_height e) (text lb) with
        | Returned fs => _draw_min_wallpaper false (ev_pick e) (set_font fs s1)
        | Raised _ => s1
        end
    end.

Definition _start_drag (e : event) (s : panel) : panel :=
  set_drag_off (ev_x e, ev_y e) s.

Definition _on_drag_smooth (e : event) (s : panel) : panel :=
  match minimal_win s with
  | None => s
  | Some win =>
      let nx := winfo_x win + (ev_x e - fst (_drag_off s)) in
      let ny := winfo_y win + (ev_y e - snd (_drag_off s)) in
      set_win (Some {| winfo_x := nx; winfo_y := ny;
                       winfo_width := winfo_width win;
                       winfo_height := winfo_height win |}) s
  end.

(** [_save_minimal_pos]: the position is stored and persisted, then the
    font is refitted inside a [try] that swallows every exception. *)
Definition _save_minimal_pos (s : panel) : panel :=
  match minimal_win s with
  | None => s
  | Some win =>
      let d' := set_minimal_pos (winfo_x win, winfo_y win) (p_data s) in
      match save_data d' (p_fs s) with
      | Raised _ => set_store d' (p_fs s) s
      | Returned fs' =>
          let s1 := set_store d' fs' s in
          match minimal_label s1 with
          | None => s1
          | Some lb =>
              match Typography._auto_font_minimal_by_wh
                      (winfo_width win) (winfo_height win) (text lb) with
              | Returned f => set_font f s1
              | Raised _ => s1
              end
          end
      end
  end.

Definition _recalc_font_after_move (s : panel) : panel :=
  match minimal_win s, minimal_label s with
  | Some win, Some lb =>
      let w := Z.max 1 (winfo_width win) in
      let h := Z.max 1 (winfo_height win) in
      match Typography._auto_font_minimal_by_wh w h (text lb) with
      | Returned f => set_font f s
      | Raised _ => s
      end
  | _, _ => s
  end.

(** [_ctrl_wheel_resize_min(e)]. *)
Definition _ctrl_wheel_resize_min (e : event) (s : panel) : panel :=
  let step := if 0 <? ev_delta e then 20 else -20 in
  let '(mw, mh) := default (560, 260) (minimal_size (p_data s)) in
  let mw' := Z.max 280 (mw + step) in
  match Py.bind (Float64.int_mul step Float64.lit_0_5) Float64.to_int with
  | Raised _ => s
  | Returned half =>
      let mh' := Z.max 160 (mh + half) in
      let d' := set_minimal_size (mw', mh') (p_data s) in
      match save_data d' (p_fs s) with
      | Raised _ => set_store d' (p_fs s) s
      | Returned fs' =>
          let s1 := set_store d' fs' s in
          match minimal_win s1 with
          | None => s1
          | Some win =>
              set_applied (mw', mh')
                (set_win (Some {| winfo_x := winfo_x win; winfo_y := winfo_y win;
                                  winfo_width := mw'; winfo_height := mh' |}) s1)
          end
      end
  end.

Definition _close_minimal (s : panel) : panel :=
  let s1 := match minimal_win s with
            | Some _ => _save_minimal_pos s
            | None => s
            end in
  set_bindings ∅ (set_bg false (set_label None (set_win None s1))).

(** [widget.bind(sequence, func)]: without [add="+"] the new function
    replaces whatever was bound to the sequence. *)
Definition bind (seq : string) (h : handler) (s : panel) : panel :=
  set_bindings (<[seq := [h]]> (bindings s)) s.

(** [_open_minimal]; [sw], [sh] are the screen size, [shown] the timer
    label's text, [pick] what [_pick_min] returns for the first draw. *)
Definition _open_minimal (sw sh : Z) (shown : string) (pick : option string)
    (s : panel) : panel :=
  match minimal_win s with
  | Some _ => s
  | None =>
      let '(mw, mh) := default (560, 260) (minimal_size (p_data s)) in
      let pos := default ((sw - mw) / 2, (sh - mh) / 2) (minimal_pos (p_data s)) in
      let win := {| winfo_x := fst pos; winfo_y := snd pos;
                    winfo_width := mw; winfo_height := mh |} in
      let s1 := set_bg true (set_win (Some win) s) in
      match Typography._auto_font_minimal mh with
      | Raised _ => s1
      | Returned f =>
          let s2 := set_label (Some {| text := shown; font_size := f |}) s1 in
          let s3 := bind "<Double-1>" HClose s2 in
          let s4 := bind "<Button-1>" HStartDrag s3 in
          let s5 := bind "<B1-Motion>" HDragSmooth s4 in
          let s6 := bind "<ButtonRelease-1>" HSaveMinimalPos s5 in
          let s7 := bind "<ButtonRelease-1>" HRecalcFont s6 in
          let s8 := bind "<Control-MouseWheel>" HCtrlWheel s7 in
          let s9 := bind "<Configure>" HConfigure s8 in
          _draw_min_wallpaper true pick s9
      end
  end.

Definition run_handler (h : handler) (e : event) (s : panel) : panel :=
  match h with
  | HClose => _close_minimal s
  | HStartDrag => _start_drag e s
  | HDragSmooth => _on_drag_smooth e s
  | HSaveMinimalPos => _save_minimal_pos s
  | HRecalcFont => _recalc_font_after_move s
  | HCtrlWheel => _ctrl_wheel_resize_min e s
  | HConfigure => _on_minimal_configure e s
  end.

(** Delivery of one event: every function bound to its sequence runs. *)
Definition dispatch (seq : string) (e : event) (s : panel) : panel :=
  fold_left (fun st h => run_handler h e st) (default [] (bindings s !! seq)) s.

Fixpoint dispatch_all (evs : list (string * event)) (s : panel) : panel :=
  match evs with
  | [] => s
  | (seq, e) :: rest => dispatch_all rest (dispatch seq e s)
  end.

End Panel.

(** ** Notes save *)

Module Notes.

Inductive msgbox : Type := ShowError | ShowWarning.

Record notes_ui : Type := {
  n_data : data;
  n_fs : fsys;
  minimal_notes : option string;
  boxes : list msgbox
}.

(** [open(p, "a")] followed by one [write]. *)
Definition append_file (p block : string) (fs : fsys) : outcome fsys :=
  if fs_appendable fs p
  then Returned (with_files
                   (<[p := (default EmptyString (fs_files fs !! p) ++ block)%string]>
                      (fs_files fs)) fs)
  else Raised OSError.

(** [_save_notes_to_file]; [ts] is the formatted time stamp. The edit
    region holds [content]; [Text.get("1.0", tk.END)] returns it with the
    widget's final newline. *)
Definition _save_notes_to_file (ts : string) (s : notes_ui) : notes_ui :=
  match minimal_notes s with
  | None => s
  | Some content =>
      let txt := strip (content ++ NL) in
      let d' := set_minimal_notes_memory txt (n_data s) in
      match save_data d' (n_fs s) with
      | Raised _ =>
          {| n_data := d'; n_fs := n_fs s;
             minimal_notes := minimal_notes s; boxes := boxes s |}
      | Returned fs' =>
          if truthy_str (notes_save_path d') then
            let p := default EmptyString (notes_save_path d') in
            let block := ("[" ++ ts ++ "]" ++ NL ++ txt ++ NL ++ NL)%string in
            match append_file p block fs' with
            | Returned fs'' =>
                {| n_data := d'; n_fs := fs'';
                   minimal_notes := Some EmptyString; boxes := boxes s |}
            | Raised _ =>
                {| n_data := d'; n_fs := fs';
                   minimal_notes := minimal_notes s;
                   boxes := boxes s ++ [ShowError] |}
            end
          else
            {| n_data := d'; n_fs := fs';
               minimal_notes := minimal_notes s;
               boxes := boxes s ++ [ShowWarning] |}
      end
  end.

End Notes.

(** ** Timer controls and the countdown worker *)

Module TimerControls.
Import Timer.

Definition caption_of (paused : bool) : pause_caption :=
  if paused then CaptionResume else CaptionPause.

(** [pause_timer]. *)
Definition pause_timer (t : timer) : timer :=
  if negb (_timer_running t) then t
  else {|
    t_data := t_data t;
    t_fs := t_fs t;
    _timer_running := _timer_running t;
    _timer_paused := negb (_timer_paused t);
    _mode := _mode t;
    _countdown_seconds := _countdown_seconds t;
    timer_label := timer_label t;
    task_var := task_var t;
    btn_start := btn_start t;
    btn_pause := btn_pause t;
    btn_pause_text := caption_of (negb (_timer_paused t));
    btn_stop := btn_stop t;
    alarms := alarms t
  |}.

(** [_render_time(sec)], as far as the main label goes. *)
Definition _render_time (sec : Z) (t : timer) : timer := {|
  t_data := t_data t;
  t_fs := t_fs t;
  _timer_running := _timer_running t;
  _timer_paused := _timer_paused t;
  _mode := _mode t;
  _countdown_seconds := _countdown_seconds t;
  timer_label := strftime_hms (Z.max 0 sec);
  task_var := task_var t;
  btn_start := btn_start t;
  btn_pause := btn_pause t;
  btn_pause_text := btn_pause_text t;
  btn_stop := btn_stop t;
  alarms := alarms t
|}.

(** The worker thread [start_timer] spawns. *)
Inductive worker : Type :=
| CountdownWorker (total : Z)
| CountUpWorker.

(** [start_timer], on the UI thread: the flags, the buttons, the first
    render of a countdown, and which worker is started. *)
Definition start_timer (t : timer) : timer * option worker :=
  if _timer_running t then (t, None)
  else
    let t1 := {|
      t_data := t_data t;
      t_fs := t_fs t;
      _timer_running := true;
      _timer_paused := false;
      _mode := _mode t;
      _countdown_seconds := _countdown_seconds t;
      timer_label := timer_label t;
      task_var := task_var t;
      btn_start := DISABLED;
      btn_pause := NORMAL;
      btn_pause_text := btn_pause_text t;
      btn_stop := NORMAL;
      alarms := alarms t
    |} in
    match _mode t with
    | Countdown =>
        (_render_time (_countdown_seconds t) t1,
         Some (CountdownWorker (_countdown_seconds t)))
    | CountUp => (t1, Some CountUpWorker)
    end.

(** What the countdown worker hands to the UI thread with [after(0, ...)]. *)
Inductive posted : Type :=
| PostRender (remain : Z)
| PostFinish (used : Z).

(** The loop of the countdown worker. Each turn of the loop reads the
    two flags once; [obs] lists what it reads, turn by turn, as
    [(running, paused)]. The result is what it posts, in order, and
    whether the loop has ended within [obs]. *)
Fixpoint countdown_loop (total remain : Z) (obs : list (bool * bool))
    : list posted * bool :=
  match obs with
  | [] => ([], false)
  | (running, paused) :: rest =>
      if running && (0 <? remain) then
        if negb paused then
          let remain' := remain - 1 in
          let '(ps, ended) := countdown_loop total remain' rest in
          (PostRender remain' :: ps, ended)
        else countdown_loop total remain rest
      else ([PostFinish (total - remain)], true)
  end.

Definition countdown_run (total : Z) (obs : list (bool * bool)) : list posted * bool :=
  countdown_loop total total obs.

(** The UI thread running one posted callback at time [now]. *)
Definition run_posted (now : Z) (p : posted) (t : timer) : timer :=
  match p with
  | PostRender r => _render_time r t
  | PostFinish used => _finish_session now used t
  end.

End TimerControls.

(** ** Tint helper *)

Module Tint.

Definition hex_val (c : ascii) : option Z :=
  let n := N_of_ascii c in
  if ((48 <=? n) && (n <=? 57))%N then Some (Z.of_N n - 48)
  else if ((97 <=? n) && (n <=? 102))%N then Some (Z.of_N n - 87)
  else if ((65 <=? n) && (n <=? 70))%N then Some (Z.of_N n - 55)
  else None.

Fixpoint hex_digits_val (s : string) (acc : Z) : option Z :=
  match s with
  | EmptyString => Some acc
  | String c r =>
      match hex_val c with
      | Some d => hex_digits_val r (16 * acc + d)
      | None => None
      end
  end.

Definition drop_0x (s : string) : string :=
  match s with
  | String "0" (String "x" r) => r
  | String "0" (String "X" r) => r
  | _ => s
  end.

Definition unsigned_hex (s : string) : outcome Z :=
  match drop_0x s with
  | EmptyString => Raised ValueError
  | t => match hex_digits_val t 0 with
         | Some v => Returned v
         | None => Raised ValueError
         end
  end.

(** [int(s, 16)]: surrounding white space, an optional sign, an optional
    [0x] prefix, then hexadecimal digits (digit-group underscores are not
    modelled; no string of at most two characters has any). *)
Definition int_base16 (s : string) : outcome Z :=
  match int_strip s with
  | String "-" r => Py.bind (unsigned_hex r) (fun v => Returned (- v))
  | String "+" r => unsigned_hex r
  | t => unsigned_hex t
  end.

(** [hx.lstrip("#")]. *)
Fixpoint lstrip_hash (s : string) : string :=
  match s with
  | String "#" r => lstrip_hash r
  | _ => s
  end.

(** [_hex_to_rgb(hx)]: [hx[i:i+2]] is [substring i 2 hx]. *)
Definition _hex_to_rgb (hx : string) : Z * Z * Z :=
  let hx' := lstrip_hash hx in
  match int_base16 (substring 0 2 hx'),
        int_base16 (substring 2 2 hx'),
        int_base16 (substring 4 2 hx') with
  | Returned r, Returned g, Returned b => (r, g, b)
  | _, _, _ => (240, 240, 243)
  end.

End Tint.

(** ** Fit percent setting *)

Module Settings.

Definition set_wallpaper_fit_pct (v : Z) (d : data) : data := {|
  wallpaper_color_cache := wallpaper_color_cache d;
  wallpaper_fit_pct := Some v;
  wallpaper_min_fit_pct := wallpaper_min_fit_pct d;
  minimal_pos := minimal_pos d;
  minimal_size := minimal_size d;
  minimal_notes_memory := minimal_notes_memory d;
  notes_save_path := notes_save_path d;
  beep := beep d;
  tasks := tasks d;
  sessions := sessions d
|}.

Definition set_wallpaper_min_fit_pct (v : Z) (d : data) : data := {|
  wallpaper_color_cache := wallpaper_color_cache d;
  wallpaper_fit_pct := wallpaper_fit_pct d;
  wallpaper_min_fit_pct := Some v;
  minimal_pos := minimal_pos d;
  minimal_size := minimal_size d;
  minimal_notes_memory := minimal_notes_memory d;
  notes_save_path := notes_save_path d;
  beep := beep d;
  tasks := tasks d;
  sessions := sessions d
|}.

(** How a settings handler ends: it runs to its end, [save_data]
    raises, or it calls a method the class does not define. *)
Inductive ending : Type :=
| Completed
| SaveFailed
| NoSuchMethod.

Record fit_applied : Type := {
  fa_data : data;
  fa_fs : fsys;
  fa_drawn : option Compositor.drawn;
  fa_ending : ending
}.

(** [_apply_fit_pct(which, val)]. For the main stage the redraw is
    [_apply_main_wallpaper], that is [_draw_timer_wallpaper]; for the
    minimal panel the handler calls [_apply_min_wallpaper], which the
    class does not define. *)
Definition _apply_fit_pct (which : string) (val : Z)
    (pil : bool) (picked : option string) (ww wh : Z)
    (d : data) (fs : fsys) : fit_applied :=
  let val := Z.max 50 (Z.min 100 val) in
  if String.eqb which "main" then
    let d1 := set_wallpaper_fit_pct val d in
    match save_data d1 fs with
    | Raised _ => {| fa_data := d1; fa_fs := fs; fa_drawn := None;
                     fa_ending := SaveFailed |}
    | Returned fs1 =>
        let '(dr, d2, fs2) := Compositor._draw_timer_wallpaper pil picked ww wh d1 fs1 in
        {| fa_data := d2; fa_fs := fs2; fa_drawn := dr; fa_ending := Completed |}
    end
  else
    let d1 := set_wallpaper_min_fit_pct val d in
    match save_data d1 fs with
    | Raised _ => {| fa_data := d1; fa_fs := fs; fa_drawn := None;
                     fa_ending := SaveFailed |}
    | Returned fs1 => {| fa_data := d1; fa_fs := fs1; fa_drawn := None;
                         fa_ending := NoSuchMethod |}
    end.

End Settings.

(** ** Main stage repaint *)

Module Stage.

(** The repaint throttle of the main window's layer. *)
Record layer : Type := {
  _repaint_scheduled : bool;
  scheduled : nat
}.

(** [_on_layer_configure(e)]: [after(50, self._apply_main_wallpaper)] is
    counted in [scheduled]. *)
Definition _on_layer_configure (l : layer) : layer :=
  if negb (_repaint_scheduled l)
  then {| _repaint_scheduled := true; scheduled := S (scheduled l) |}
  else l.

(** [_apply_main_wallpaper], run when the timer fires: it redraws and
    leaves the flag alone. *)
Definition _apply_main_wallpaper (pil : bool) (picked : option string) (ww wh : Z)
    (l : layer) (d : data) (fs : fsys)
    : layer * (option Compositor.drawn * data * fsys) :=
  (l, Compositor._draw_timer_wallpaper pil picked ww wh d fs).

End Stage.

(** ** Image sources *)

Module Images.

Definition IMAGE_EXTS : list string :=
  [".jpg"; ".jpeg"; ".png"; ".webp"; ".bmp"; ".gif"]%string.

Definition lower_char (c : ascii) : ascii :=
  let n := N_of_ascii c in
  if ((65 <=? n) && (n <=? 90))%N then ascii_of_N (n + 32) else c.

(** [s.lower()] on ASCII letters; no other character lower-cases to a
    letter of the six extensions. *)
Fixpoint lower (s : string) : string :=
  match s with
  | EmptyString => EmptyString
  | String c r => String (lower_char c) (lower r)
  end.

Fixpoint all_dots (s : string) : bool :=
  match s with
  | EmptyString => true
  | String c r => Ascii.eqb c "." && all_dots r
  end.

(** The name cut at its last dot, if it has one. *)
Fixpoint rsplit_dot (s : string) : option (string * string) :=
  match s with
  | EmptyString => None
  | String c r =>
      match rsplit_dot r with
      | Some (a, b) => Some (String c a, b)
      | None => if Ascii.eqb c "." then Some (EmptyString, s) else None
      end
  end.

(** [os.path.splitext(fn)] for a directory entry (a name without path
    separators): the extension starts at the last dot, unless only dots
    come before it. *)
Definition splitext (fn : string) : string * string :=
  match rsplit_dot fn with
  | Some (root, ext) => if all_dots root then (fn, EmptyString) else (root, ext)
  | None => (fn, EmptyString)
  end.

Definition in_exts (e : string) : bool := existsb (String.eqb e) IMAGE_EXTS.

Section Listing.

(** The file system calls the helpers make: [os.listdir] (which may
    raise), [os.path.join], [os.path.isfile] and [os.path.exists]. *)
Variable listdir : string -> outcome (list string).
Variable join : string -> string -> string.
Variable isfile : string -> bool.
Variable path_exists : string -> bool.

(** [list_images(dir_or_none)]. *)
Definition list_images (dir_or_none : option string) : list string :=
  if negb (truthy_str dir_or_none) then []
  else
    let d := default EmptyString dir_or_none in
    match listdir d with
    | Raised _ => []
    | Returned names =>
        fold_left
          (fun items fn =>
             let p := join d fn in
             if in_exts (lower (snd (splitext fn))) && isfile p
             then items ++ [p] else items)
          names []
    end.

(** [_pick_min] and [_pick_main]: [file] and [dir] are the two settings
    of the surface, [r] the index [random.choice] draws. *)
Definition _pick (file dir : option string) (r : nat) : option string :=
  if truthy_str file && path_exists (default EmptyString file) then file
  else
    let files := list_images dir in
    match files with
    | [] => None
    | _ => nth_error files (r mod length files)
    end.

End Listing.

End Images.

(** ** Durations *)

Module Durations.

(** A text given by its UTF-8 bytes. *)
Definition utf8 (bs : list N) : string :=
  fold_right (fun b s => String (ascii_of_N b) s) EmptyString bs.

(** The unit words and prefixes of the two helpers (小时, 分, 秒, 月, 天,
    分钟, 剩余, 已过). *)
Definition HOUR : string := utf8 [0xE5; 0xB0; 0x8F; 0xE6; 0x97; 0xB6]%N.
Definition MINUTE : string := utf8 [0xE5; 0x88; 0x86]%N.
Definition SECOND : string := utf8 [0xE7; 0xA7; 0x92]%N.
Definition MONTH : string := utf8 [0xE6; 0x9C; 0x88]%N.
Definition DAY : string := utf8 [0xE5; 0xA4; 0xA9]%N.
Definition MINUTES : string := utf8 [0xE5; 0x88; 0x86; 0xE9; 0x92; 0x9F]%N.
Definition REMAINING : string := utf8 [0xE5; 0x89; 0xA9; 0xE4; 0xBD; 0x99]%N.
Definition PASSED : string := utf8 [0xE5; 0xB7; 0xB2; 0xE8; 0xBF; 0x87]%N.

(** An f-string is a sequence of literal texts and formatted integers. *)
Inductive piece : Type :=
| Num (n : Z)
| Txt (s : string).

Definition decimal (z : Z) : string :=
  DecimalString.NilZero.string_of_int (Z.to_int z).

Definition fstring (ps : list piece) : string :=
  fold_right
    (fun p s => ((match p with Num n => decimal n | Txt t => t end) ++ s)%string)
    EmptyString ps.

(** [human_hms(sec)], before the pieces are joined. *)
Definition human_hms_pieces (sec : Z) : list piece :=
  let h := sec / 3600 in
  let m := (sec mod 3600) / 60 in
  let s := sec mod 60 in
  if negb (h =? 0) then [Num h; Txt HOUR; Num m; Txt MINUTE; Num s; Txt SECOND]
  else if negb (m =? 0) then [Num m; Txt MINUTE; Num s; Txt SECOND]
  else [Num s; Txt SECOND].

Definition human_hms (sec : Z) : string := fstring (human_hms_pieces sec).

(** [fmt_future_delta(d, unit)], before the pieces are joined. [sec] is
    the value of [int((tgt_dt - now).total_seconds())], the one place
    where the function reads the clock; [unit] is [None] when the
    setting holds no text. *)
Definition fmt_future_delta_pieces (sec : Z) (unit : option string) : list piece :=
  let prefix := if 0 <=? sec then REMAINING else PASSED in
  let asec := Z.abs sec in
  let months := asec / (30 * 86400) in
  let days := (asec mod (30 * 86400)) / 86400 in
  let hours := (asec mod 86400) / 3600 in
  let mins := (asec mod 3600) / 60 in
  let secs := asec mod 60 in
  let unit_is u := match unit with Some v => String.eqb v u | None => false end in
  if unit_is MONTH then [Txt prefix; Txt " "; Num (asec / (30 * 86400)); Txt " "; Txt MONTH]
  else if unit_is DAY then [Txt prefix; Txt " "; Num (asec / 86400); Txt " "; Txt DAY]
  else if unit_is HOUR then [Txt prefix; Txt " "; Num (asec / 3600); Txt " "; Txt HOUR]
  else if unit_is MINUTES then [Txt prefix; Txt " "; Num (asec / 60); Txt " "; Txt MINUTES]
  else if unit_is SECOND then [Txt prefix; Txt " "; Num asec; Txt " "; Txt SECOND]
  else
    let parts := [] in
    let parts := if negb (months =? 0) then parts ++ [Num months; Txt MONTH] else parts in
    let parts := if negb (days =? 0) then parts ++ [Num days; Txt DAY] else parts in
    let parts := if negb (hours =? 0) then parts ++ [Num hours; Txt HOUR] else parts in
    let parts := if negb (mins =? 0) then parts ++ [Num mins; Txt MINUTE] else parts in
    let parts :=
      if negb (secs =? 0) || match parts with [] => true | _ => false end
      then parts ++ [Num secs; Txt SECOND] else parts in
    [Txt prefix; Txt " "] ++ parts.

Definition fmt_future_delta (sec : Z) (unit : option string) : string :=
  fstring (fmt_future_delta_pieces sec unit).

End Durations.

(** ** The event line of the minimal panel *)

Module Future.
Import Durations.

(** A future event as stored: a dictionary read with [.get], so each
    key may be missing. *)
Record future_event : Type := {
  title : option string;
  date : option string
}.

(** The keys of the configuration the event line reads. *)
Record settings : Type := {
  future_events : option (list future_event);
  future_unit : option string;
  minimal_future_choice : option string
}.

(** 混合, 未来事件 and the separator " · ". *)
Definition MIXED : string := utf8 [0xE6; 0xB7; 0xB7; 0xE5; 0x90; 0x88]%N.
Definition DEFAULT_TITLE : string :=
  utf8 [0xE6; 0x9C; 0xAA; 0xE6; 0x9D; 0xA5; 0xE4; 0xBA; 0x8B; 0xE4; 0xBB; 0xB6]%N.
Definition SEPARATOR : string := utf8 [0x20; 0xC2; 0xB7; 0x20]%N.

(** [sorted(..., key=lambda x: x[0])]: stable, ascending by date. *)
Fixpoint insert (x : Z * future_event) (l : list (Z * future_event)) : list (Z * future_event) :=
  match l with
  | [] => [x]
  | y :: r => if fst x <=? fst y then x :: l else y :: insert x r
  end.

Definition sorted (l : list (Z * future_event)) : list (Z * future_event) :=
  fold_right insert [] l.

Section Clock.

(** [datetime.strptime(s, "%Y-%m-%d").date()] as a day number, raising
    on a text that is not a date; today's day number; and the signed
    whole seconds from now to the midnight that starts a day. *)
Variable strptime : string -> outcome Z.
Variable today : Z.
Variable seconds_until : Z -> Z.

Definition parsed (evs : list future_event) : list (Z * future_event) :=
  fold_left
    (fun events ev =>
       match strptime (default EmptyString (date ev)) with
       | Returned d => events ++ [(d, ev)]
       | Raised _ => events
       end)
    evs [].

Definition upcoming (s : settings) : list (Z * future_event) :=
  sorted (List.filter (fun x => today <=? fst x)
            (parsed (default [] (future_events s)))).

Definition titled (pref : string) (x : Z * future_event) : bool :=
  match title (snd x) with
  | Some t => String.eqb t pref
  | None => false
  end.

(** The event the line shows, if any. *)
Definition chosen (s : settings) : option (Z * future_event) :=
  match upcoming s with
  | [] => None
  | first :: _ =>
      let pref := default "nearest"%string (minimal_future_choice s) in
      let chosen :=
        if negb (String.eqb pref "") && negb (String.eqb pref "nearest")
        then List.find (titled pref) (upcoming s) else None in
      Some (match chosen with Some c => c | None => first end)
  end.

(** [_update_minimal_nearest_future]: [minimal_info] is the text of the
    info label, [None] when the panel has no such label. *)
Definition _update_minimal_nearest_future
    (s : settings) (minimal_info : option string) : option string :=
  match minimal_info with
  | None => None
  | Some _ =>
      match chosen s with
      | None => Some EmptyString
      | Some (d, ev) =>
          Some (fstring ([Txt (default DEFAULT_TITLE (title ev)); Txt SEPARATOR]
                         ++ fmt_future_delta_pieces (seconds_until d)
                              (Some (default MIXED (future_unit s)))))
      end
  end.

End Clock.

End Future.

(** * Properties *)

(** ** Average-colour sampler *)

Module SamplerFacts.
Import Sampler.

Definition two_hex_digits (s : string) : bool :=
  match s with
  | String c1 (String c2 EmptyString) => is_hex_digit c1 && is_hex_digit c2
  | _ => false
  end.

Lemma format_02x_byte (n : N) : (n <= 255)%N -> two_hex_digits (format_02x n) = true.
Proof.
  intros Hn.
  assert (All : forallb (fun k => two_hex_digits (format_02x (N.of_nat k)))
                  (seq 0 256) = true) by (vm_compute; reflexivity).
  rewrite forallb_forall in All.
  specialize (All (N.to_nat n)). rewrite N2Nat.id in All.
  apply All, in_seq. lia.
Qed.

Lemma sum_channel_bound (ch : pixel -> byte) (px : list pixel) :
  (sum_channel ch px <= 255 * N.of_nat (length px))%N.
Proof.
  induction px as [|p px IH]; cbn [sum_channel fold_right length].
  - lia.
  - fold (sum_channel ch px). pose proof (Byte.to_N_bounded (ch p)). lia.
Qed.

Lemma mean_channel_byte (ch : pixel -> byte) (px : list pixel) :
  px <> [] -> (sum_channel ch px / N.of_nat (length px) <= 255)%N.
Proof.
  intros Hne. pose proof (sum_channel_bound ch px) as B.
  assert (Hn : (N.of_nat (length px) <> 0)%N) by (destruct px; [congruence | cbn; lia]).
  apply N.lt_succ_r, N.Div0.div_lt_upper_bound. lia.
Qed.

Lemma mean_hex_returns (px : list pixel) :
  px <> [] -> exists hexv, mean_hex px = Returned hexv /\ is_hex_color hexv = true.
Proof.
  intros Hne. unfold mean_hex.
  assert (Hn : (N.of_nat (length px) =? 0)%N = false).
  { apply N.eqb_neq. destruct px; [congruence | cbn; lia]. }
  rewrite Hn. eexists. split; [reflexivity|].
  pose proof (format_02x_byte _ (mean_channel_byte px_r px Hne)) as Hr.
  pose proof (format_02x_byte _ (mean_channel_byte px_g px Hne)) as Hg.
  pose proof (format_02x_byte _ (mean_channel_byte px_b px Hne)) as Hb.
  destruct (format_02x (sum_channel px_r px / N.of_nat (length px)))
    as [|r1 [|r2 [|]]]; try discriminate.
  destruct (format_02x (sum_channel px_g px / N.of_nat (length px)))
    as [|g1 [|g2 [|]]]; try discriminate.
  destruct (format_02x (sum_channel px_b px / N.of_nat (length px)))
    as [|b1 [|b2 [|]]]; try discriminate.
  cbn [two_hex_digits] in Hr, Hg, Hb.
  apply andb_prop in Hr as [Hr1 Hr2]. apply andb_prop in Hg as [Hg1 Hg2].
  apply andb_prop in Hb as [Hb1 Hb2].
  cbv -[is_hex_digit]. rewrite Hr1, Hr2, Hg1, Hg2, Hb1, Hb2. reflexivity.
Qed.

Lemma mean_hex_nonempty (px : list pixel) (hexv : string) :
  mean_hex px = Returned hexv -> px <> [].
Proof. intros H ->. discriminate. Qed.

(** The sampler never raises: every path through it returns. *)
Lemma avg_color_hex_returns pil path fallback data fs :
  exists c, returned (avg_color_hex pil path fallback data fs) = Returned c.
Proof.
  unfold avg_color_hex.
  repeat (match goal with
          | |- context [match ?x with _ => _ end] => destruct x
          end; cbn [returned]); eauto.
Qed.

Lemma cache_of_set c d : cache_of (Some (set_wallpaper_color_cache c d)) = c.
Proof. reflexivity. Qed.

Lemma setdefault_cache_view d :
  snd (setdefault_cache d) = cache_of (Some d)
  /\ cache_of (Some (fst (setdefault_cache d))) = cache_of (Some d).
Proof.
  unfold setdefault_cache, cache_of.
  destruct (wallpaper_color_cache d) eqn:E; cbn [fst snd]; rewrite ?E; split; reflexivity.
Qed.


(** The other keys of the dictionary are not the sampler's business. *)
Lemma avg_color_hex_frame pil path fallback d fs :
  exists d', data_after (avg_color_hex pil path fallback (Some d) fs) = Some d'
    /\ wallpaper_fit_pct d' = wallpaper_fit_pct d
    /\ wallpaper_min_fit_pct d' = wallpaper_min_fit_pct d.
Proof.
  unfold avg_color_hex, setdefault_cache.
  repeat (match goal with
          | |- context [match ?x with _ => _ end] => destruct x
          end; cbn [data_after option_map fst snd]); eauto.
Qed.

Lemma hit_returns pil p fallback d fs c :
  pil = true -> truthy_str (Some p) = true -> fs_exists fs p = true ->
  cache_of (Some d) !! p = Some (PyStr c) ->
  avg_color_hex pil (Some p) fallback (Some d) fs
  = {| returned := Returned c; data_after := Some (fst (setdefault_cache d));
       fs_after := fs; decodes := 0 |}.
Proof.
  intros -> Ht He Hc. unfold avg_color_hex. rewrite Ht, He. cbn [negb orb option_map].
  destruct (setdefault_cache_view d) as [-> _]. rewrite Hc. reflexivity.
Qed.

Lemma cached_or_not d p :
  (exists c, cache_of (Some d) !! p = Some (PyStr c))
  \/ (forall c, cache_of (Some d) !! p <> Some (PyStr c)).
Proof.
  destruct (cache_of (Some d) !! p) as [[| |c]|]; eauto; right; intros c'; discriminate.
Qed.

(** A call that finds no colour string in the cache opens the image. *)
Lemma miss_decodes pil p fallback d fs px hexv :
  pil = true -> truthy_str (Some p) = true -> fs_exists fs p = true ->
  (forall c, cache_of (Some d) !! p <> Some (PyStr c)) ->
  fs_pixels fs p = Returned px -> mean_hex px = Returned hexv ->
  avg_color_hex pil (Some p) fallback (Some d) fs
  = let d2 := set_wallpaper_color_cache (<[p := PyStr hexv]> (cache_of (Some d)))
                (fst (setdefault_cache d)) in
    if fs_writable fs
    then {| returned := Returned hexv; data_after := Some d2;
            fs_after := with_saved d2 fs; decodes := 1 |}
    else {| returned := Returned fallback; data_after := Some d2;
            fs_after := fs; decodes := 1 |}.
Proof.
  intros -> Ht He Hno Hpx Hm. unfold avg_color_hex. rewrite Ht, He.
  cbn [negb orb option_map].
  destruct (setdefault_cache_view d) as [Hv Hv'].
  destruct (setdefault_cache_view (fst (setdefault_cache d))) as [Hw _].
  rewrite Hw, Hv', Hv, Hpx. cbn [Py.bind]. rewrite Hm. unfold save_data.
  destruct (cache_of (Some d) !! p) as [[| |c]|] eqn:Hc;
    try (destruct (fs_writable fs); reflexivity).
  exfalso. eapply Hno. reflexivity.
Qed.

Lemma miss_fails pil p fallback d fs e :
  pil = true -> truthy_str (Some p) = true -> fs_exists fs p = true ->
  (forall c, cache_of (Some d) !! p <> Some (PyStr c)) ->
  Py.bind (fs_pixels fs p) mean_hex = Raised e ->
  avg_color_hex pil (Some p) fallback (Some d) fs
  = {| returned := Returned fallback; data_after := Some (fst (setdefault_cache d));
       fs_after := fs; decodes := 1 |}.
Proof.
  intros -> Ht He Hno Hpx. unfold avg_color_hex. rewrite Ht, He.
  cbn [negb orb option_map].
  destruct (setdefault_cache_view d) as [Hv Hv']. rewrite Hv, Hpx.
  destruct (cache_of (Some d) !! p) as [[| |c]|] eqn:Hc; try reflexivity.
  exfalso. eapply Hno. reflexivity.
Qed.

Definition one_pixel : list pixel := [ {| px_r := x01; px_g := x02; px_b := x03 |} ].

(** A world in which every path exists and decodes to [one_pixel]. *)
Definition fs_images (writable : bool) : fsys := {|
  fs_exists := fun _ => true;
  fs_pixels := fun _ => Returned one_pixel;
  fs_writable := writable;
  fs_saved := None;
  fs_appendable := fun _ => true;
  fs_files := ∅
|}.

(** A world in which every path exists and none can be decoded. *)
Definition fs_unreadable : fsys := {|
  fs_exists := fun _ => true;
  fs_pixels := fun _ => Raised OSError;
  fs_writable := true;
  fs_saved := None;
  fs_appendable := fun _ => true;
  fs_files := ∅
|}.

Definition data_cached : data :=
  set_wallpaper_color_cache (<["a.png" := PyStr "#112233"]> ∅) DEFAULT_DATA.

(** C3, as stated, fails: when the cache cannot be persisted the first
    call answers the fallback colour although it has already stored the
    decoded one, which the second call then returns. *)
Lemma sampler_twice_differs_when_save_fails :
  let r1 := avg_color_hex true (Some "a.png") FALLBACK (Some DEFAULT_DATA)
              (fs_images false) in
  let r2 := avg_color_hex true (Some "a.png") FALLBACK (data_after r1) (fs_after r1) in
  fs_exists (fs_images false) "a.png" = true
  /\ fs_pixels (fs_images false) "a.png" = Returned one_pixel
  /\ returned r1 = Returned "#f0f0f3"
  /\ returned r2 = Returned "#010203"
  /\ returned r1 <> returned r2.
Proof. vm_compute. repeat split; try reflexivity. discriminate. Qed.

(** C3 (amended): for a valid image path and a dictionary passed in, the
    second of two calls performs no decode and returns the cached colour;
    both calls return the same colour as soon as the first one could
    persist the cache or found the colour already cached. *)
Theorem sampler_cache_coherent (p : string) (px : list pixel) (d : data)
    (fs : fsys) (fallback : string) :
  truthy_str (Some p) = true ->
  fs_exists fs p = true ->
  fs_pixels fs p = Returned px ->
  px <> [] ->
  let r1 := avg_color_hex true (Some p) fallback (Some d) fs in
  let r2 := avg_color_hex true (Some p) fallback (data_after r1) (fs_after r1) in
  decodes r2 = O
  /\ (exists c, returned r2 = Returned c
                /\ cache_of (data_after r1) !! p = Some (PyStr c))
  /\ (fs_writable fs = true \/ (exists c, cache_of (Some d) !! p = Some (PyStr c)) ->
      returned r1 = returned r2).
Proof.
  intros Ht He Hpx Hne r1 r2.
  assert (Hit : exists d1 c, data_after r1 = Some d1
                  /\ fs_exists (fs_after r1) p = true
                  /\ cache_of (Some d1) !! p = Some (PyStr c)
                  /\ (fs_writable fs = true
                      \/ (exists c', cache_of (Some d) !! p = Some (PyStr c')) ->
                      returned r1 = Returned c)).
  { subst r1 r2. destruct (cached_or_not d p) as [[c Hc]|Hno].
    - rewrite (hit_returns true p fallback d fs c) by auto.
      cbn [data_after fs_after returned]. exists (fst (setdefault_cache d)), c.
      destruct (setdefault_cache_view d) as [_ Hv]. rewrite Hv. auto.
    - destruct (mean_hex_returns px Hne) as (hexv & Hm & _).
      rewrite (miss_decodes true p fallback d fs px hexv) by auto.
      cbn zeta. eexists _, hexv.
      destruct (fs_writable fs); cbn [data_after fs_after returned with_saved fs_exists];
        (split; [reflexivity|]); (split; [assumption|]);
        (split; [rewrite cache_of_set; apply lookup_insert_eq|]).
      + intros _. reflexivity.
      + intros [Hw|[c' Hc']]; [discriminate|]. exfalso. eapply Hno, Hc'. }
  destruct Hit as (d1 & c & Hd1 & He1 & Hc1 & Hsame).
  assert (Hr2 : r2 = {| returned := Returned c;
                        data_after := Some (fst (setdefault_cache d1));
                        fs_after := fs_after r1; decodes := 0 |}).
  { subst r2. rewrite Hd1. apply hit_returns; auto. }
  rewrite Hr2. cbn [decodes returned]. split; [reflexivity|]. split.
  - exists c. rewrite Hd1. auto.
  - intros H. apply Hsame, H.
Qed.

Lemma sampler_cache_coherent_witness :
  let r1 := avg_color_hex true (Some "a.png") FALLBACK (Some DEFAULT_DATA)
              (fs_images true) in
  let r2 := avg_color_hex true (Some "a.png") FALLBACK (data_after r1) (fs_after r1) in
  decodes r2 = O
  /\ (exists c, returned r2 = Returned c
                /\ cache_of (data_after r1) !! "a.png" = Some (PyStr c))
  /\ (fs_writable (fs_images true) = true
      \/ (exists c, cache_of (Some DEFAULT_DATA) !! "a.png" = Some (PyStr c)) ->
      returned r1 = returned r2).
Proof.
  apply (sampler_cache_coherent "a.png" one_pixel DEFAULT_DATA (fs_images true) FALLBACK);
    [reflexivity | reflexivity | reflexivity | discriminate].
Defined.


(** C4, as stated, fails: a path that can no longer be read but whose
    colour was cached earlier is answered from the cache, not with the
    fallback colour. *)
Lemma unreadable_cached_path_not_fallback :
  fs_pixels fs_unreadable "a.png" = Raised OSError
  /\ returned (avg_color_hex true (Some "a.png") FALLBACK (Some data_cached)
                 fs_unreadable) = Returned "#112233"
  /\ returned (avg_color_hex true (Some "a.png") FALLBACK (Some data_cached)
                 fs_unreadable) <> Returned "#f0f0f3".
Proof. vm_compute. repeat split; try reflexivity. discriminate. Qed.

Lemma early_return pil p fallback data fs :
  negb pil || negb (truthy_str (Some p)) || negb (fs_exists fs p) = true ->
  avg_color_hex pil (Some p) fallback data fs
  = {| returned := Returned fallback; data_after := data; fs_after := fs; decodes := 0 |}.
Proof. intros H. unfold avg_color_hex. rewrite H. reflexivity. Qed.

(** C4 (amended): when PIL is missing, the path is missing or does not
    exist, or the path cannot be decoded and has no colour in the cache,
    the sampler returns [#f0f0f3] (it does not raise) and writes nothing:
    the cache and the file system are as before. *)
Theorem sampler_fallback (pil : bool) (path : option string)
    (data : option data) (fs : fsys) :
  pil = false
  \/ truthy_str path = false
  \/ (exists p, path = Some p /\ fs_exists fs p = false)
  \/ (exists p e, path = Some p /\ fs_pixels fs p = Raised e
                  /\ forall c, cache_of data !! p <> Some (PyStr c)) ->
  let r := avg_color_hex pil path FALLBACK data fs in
  returned r = Returned "#f0f0f3"
  /\ cache_of (data_after r) = cache_of data
  /\ fs_after r = fs.
Proof.
  intros H r. subst r. destruct path as [p|]; [|repeat split].
  destruct (negb pil || negb (truthy_str (Some p)) || negb (fs_exists fs p)) eqn:E.
  { rewrite early_return by assumption. repeat split. }
  apply orb_false_elim in E as [E E3]. apply orb_false_elim in E as [E1 E2].
  apply negb_false_iff in E1, E2, E3.
  destruct H as [H|[H|[(p' & Hp & H)|(p' & e & Hp & Hpx & Hno)]]];
    try congruence; try (injection Hp as <-; congruence).
  injection Hp as <-.
  destruct data as [d|].
  - rewrite (miss_fails pil p FALLBACK d fs e) by (auto; rewrite Hpx; reflexivity).
    cbn [returned data_after fs_after].
    destruct (setdefault_cache_view d) as [_ Hv]. rewrite Hv. repeat split.
  - unfold avg_color_hex. rewrite E1, E2, E3, Hpx. repeat split.
Qed.

Lemma sampler_fallback_witness :
  let r := avg_color_hex true (Some "a.png") FALLBACK (Some DEFAULT_DATA) fs_unreadable in
  returned r = Returned "#f0f0f3"
  /\ cache_of (data_after r) = cache_of (Some DEFAULT_DATA)
  /\ fs_after r = fs_unreadable.
Proof.
  apply (sampler_fallback true (Some "a.png") (Some DEFAULT_DATA) fs_unreadable).
  right. right. right. exists "a.png", OSError.
  split; [reflexivity|]. split; [reflexivity|].
  intros c. vm_compute. discriminate.
Defined.

Lemma cache_writes_are_decodes (pil : bool) (path : option string)
    (fallback : string) (data : option data) (fs : fsys) :
  let r := avg_color_hex pil path fallback data fs in
  (forall k v,
      cache_of (data_after r) !! k = Some v ->
      cache_of data !! k <> Some v ->
      exists px hexv,
        path = Some k /\ fs_pixels fs k = Returned px
        /\ mean_hex px = Returned hexv /\ v = PyStr hexv
        /\ is_hex_color hexv = true)
  /\ (pil = false
      \/ truthy_str path = false
      \/ (exists p, path = Some p
                    /\ (fs_exists fs p = false \/ exists e, fs_pixels fs p = Raised e)) ->
      cache_of (data_after r) = cache_of data
      /\ forall d c, data = Some d -> wallpaper_color_cache d = Some c ->
                     data_after r = data).
Proof.
  intros r. subst r.
  assert (Same : forall d', cache_of (Some d') = cache_of data ->
            forall k v, cache_of (Some d') !! k = Some v -> cache_of data !! k <> Some v ->
            exists px hexv, path = Some k /\ fs_pixels fs k = Returned px
              /\ mean_hex px = Returned hexv /\ v = PyStr hexv
              /\ is_hex_color hexv = true).
  { intros d' -> k v Hk Hn. contradiction. }
  assert (Keep : forall d c, wallpaper_color_cache d = Some c ->
            fst (setdefault_cache d) = d).
  { intros d c Hc. unfold setdefault_cache. rewrite Hc. reflexivity. }
  destruct path as [p|]; [|split; [intros k v Hk Hn; contradiction | repeat split]].
  destruct (negb pil || negb (truthy_str (Some p)) || negb (fs_exists fs p)) eqn:E.
  { rewrite early_return by assumption. cbn [data_after].
    split; [intros k v Hk Hn; contradiction | repeat split]. }
  apply orb_false_elim in E as [E E3]. apply orb_false_elim in E as [E1 E2].
  apply negb_false_iff in E1, E2, E3.
  destruct data as [d|].
  - destruct (setdefault_cache_view d) as [_ Hv].
    destruct (cached_or_not d p) as [[c Hc]|Hno].
    + rewrite (hit_returns pil p fallback d fs c) by auto. cbn [data_after].
      split; [apply Same, Hv|]. intros _. split; [exact Hv|].
      intros d0 c0 [= <-] Hc0. f_equal. eapply Keep, Hc0.
    + destruct (Py.bind (fs_pixels fs p) mean_hex) as [hexv|e] eqn:Hb.
      * destruct (fs_pixels fs p) as [px|e] eqn:Hpx; [|discriminate].
        cbn [Py.bind] in Hb.
        rewrite (miss_decodes pil p fallback d fs px hexv) by auto. cbn zeta.
        assert (W : forall fs', data_after
                  (if fs_writable fs
                   then {| returned := Returned hexv;
                           data_after := Some (set_wallpaper_color_cache
                             (<[p:=PyStr hexv]> (cache_of (Some d))) (fst (setdefault_cache d)));
                           fs_after := fs'; decodes := 1 |}
                   else {| returned := Returned fallback;
                           data_after := Some (set_wallpaper_color_cache
                             (<[p:=PyStr hexv]> (cache_of (Some d))) (fst (setdefault_cache d)));
                           fs_after := fs; decodes := 1 |})
                = Some (set_wallpaper_color_cache
                          (<[p:=PyStr hexv]> (cache_of (Some d))) (fst (setdefault_cache d))))
          by (intros fs'; destruct (fs_writable fs); reflexivity).
        rewrite W. split.
        -- intros k v Hk Hn. rewrite cache_of_set in Hk.
           destruct (decide (p = k)) as [<-|Hne].
           ++ rewrite lookup_insert_eq in Hk. injection Hk as <-.
              exists px, hexv. repeat split; auto.
              destruct (mean_hex_returns px (mean_hex_nonempty px hexv Hb)) as (h & Hh & Hcol).
              congruence.
           ++ rewrite lookup_insert_ne in Hk by assumption. contradiction.
        -- intros [H|[H|(p' & Hp & [H|[e H]])]]; try congruence;
             injection Hp as <-; congruence.
      * rewrite (miss_fails pil p fallback d fs e) by auto. cbn [data_after].
        split; [apply Same, Hv|]. intros _. split; [exact Hv|].
        intros d0 c0 [= <-] Hc0. f_equal. eapply Keep, Hc0.
  - unfold avg_color_hex. rewrite E1, E2, E3. cbn [negb orb option_map].
    destruct (Py.bind (fs_pixels fs p) mean_hex); cbn [data_after];
      (split; [intros k v Hk Hn; contradiction|]); intros _; split; try reflexivity;
      intros; discriminate.
Qed.

(** C10, as stated, fails: the fallback colour is not always returned
    before a cache write. The image decodes, its colour is put in the
    cache, saving the configuration raises, and the call answers the
    fallback colour with the cache already changed. *)
Lemma fallback_returned_after_cache_write :
  let r := avg_color_hex true (Some "a.png") FALLBACK (Some DEFAULT_DATA)
             (fs_images false) in
  returned r = Returned FALLBACK
  /\ cache_of (Some DEFAULT_DATA) !! "a.png"%string = None
  /\ cache_of (data_after r) !! "a.png"%string = Some (PyStr "#010203").
Proof. vm_compute. repeat split; reflexivity. Qed.

(** C10 (amended): whatever a call writes into the colour cache is the
    [#rrggbb] string of a successful decode of the path it was called
    with; a call that fails for want of PIL, for a missing path or for a
    decode error leaves the cache as it was, and the whole dictionary
    when the cache key was present; the fallback colour is also returned
    after a cache write, namely when the decode succeeds and saving the
    configuration raises: the cache then holds the decoded colour. *)
Theorem cache_holds_decoded_colors (pil : bool) (path : option string)
    (fallback : string) (data : option data) (fs : fsys) :
  let r := avg_color_hex pil path fallback data fs in
  (forall k v,
      cache_of (data_after r) !! k = Some v ->
      cache_of data !! k <> Some v ->
      exists px hexv,
        path = Some k /\ fs_pixels fs k = Returned px
        /\ mean_hex px = Returned hexv /\ v = PyStr hexv
        /\ is_hex_color hexv = true)
  /\ (pil = false
      \/ truthy_str path = false
      \/ (exists p, path = Some p
                    /\ (fs_exists fs p = false \/ exists e, fs_pixels fs p = Raised e)) ->
      cache_of (data_after r) = cache_of data
      /\ forall d c, data = Some d -> wallpaper_color_cache d = Some c ->
                     data_after r = data)
  /\ (forall p d px hexv,
        path = Some p -> data = Some d -> pil = true ->
        truthy_str path = true -> fs_exists fs p = true ->
        (forall c, cache_of data !! p <> Some (PyStr c)) ->
        fs_pixels fs p = Returned px -> mean_hex px = Returned hexv ->
        fs_writable fs = false ->
        returned r = Returned fallback
        /\ cache_of (data_after r) = <[p := PyStr hexv]> (cache_of data)).
Proof.
  intros r.
  destruct (cache_writes_are_decodes pil path fallback data fs) as [H1 H2].
  split; [exact H1|]. split; [exact H2|].
  intros p d px hexv -> -> Hp Ht He Hno Hpx Hm Hw. subst r.
  rewrite (miss_decodes pil p fallback d fs px hexv) by assumption.
  cbv zeta. rewrite Hw. cbn [returned data_after]. split; [reflexivity|].
  apply cache_of_set.
Qed.

Lemma cache_holds_decoded_colors_witness :
  (exists px hexv,
      Some "a.png"%string = Some "a.png"%string
      /\ fs_pixels (fs_images true) "a.png" = Returned px
      /\ mean_hex px = Returned hexv /\ PyStr "#010203" = PyStr hexv
      /\ is_hex_color hexv = true)
  /\ (let r := avg_color_hex true (Some "a.png") FALLBACK (Some data_cached)
                 fs_unreadable in
      cache_of (data_after r) = cache_of (Some data_cached)
      /\ forall d c, Some data_cached = Some d -> wallpaper_color_cache d = Some c ->
                     data_after r = Some data_cached).
Proof.
  split.
  - apply (proj1 (cache_holds_decoded_colors true (Some "a.png") FALLBACK
                    (Some DEFAULT_DATA) (fs_images true)) "a.png" (PyStr "#010203")).
    + vm_compute. reflexivity.
    + vm_compute. discriminate.
  - apply (proj1 (proj2 (cache_holds_decoded_colors true (Some "a.png") FALLBACK
                           (Some data_cached) fs_unreadable))).
    right. right. exists "a.png". split; [reflexivity|]. right. exists OSError. reflexivity.
Defined.

End SamplerFacts.

(** ** Binary64 arithmetic: when rounding stays finite *)

Module Float64Facts.
Import Float64.

Lemma digits2_pos_size p : digits2_pos p = Pos.size p.
Proof. induction p; simpl; congruence. Qed.

Lemma Zdigits2_nonneg m : 0 <= Zdigits2 m.
Proof. destruct m; simpl; lia. Qed.

Lemma Zdigits2_gt m : 0 <= m -> m < 2 ^ Zdigits2 m.
Proof.
  destruct m as [|p|p]; intros H; try lia; [reflexivity|].
  unfold Zdigits2. rewrite digits2_pos_size. pose proof (Pos.size_gt p) as G.
  rewrite <- (Pos2Z.inj_pow 2). lia.
Qed.

Lemma Zdigits2_le m : 0 < m -> 2 ^ Zdigits2 m <= 2 * m.
Proof.
  destruct m as [|p|p]; intros H; try lia.
  unfold Zdigits2. rewrite digits2_pos_size. pose proof (Pos.size_le p) as G.
  rewrite <- (Pos2Z.inj_pow 2). lia.
Qed.

Lemma Zdigits2_upper m k : 0 <= m -> 0 <= k -> m < 2 ^ k -> Zdigits2 m <= k.
Proof.
  intros Hm Hk Hlt.
  destruct (Z.eq_dec m 0) as [->|Hne]; [simpl; lia|].
  assert (Hpos : 0 < m) by lia.
  pose proof (Zdigits2_le m Hpos) as Hle.
  destruct (Z_le_gt_dec (Zdigits2 m) k) as [|Hgt]; [assumption|exfalso].
  assert (2 ^ (k + 1) <= 2 ^ Zdigits2 m) by (apply Z.pow_le_mono_r; lia).
  rewrite Z.pow_add_r in H by lia. lia.
Qed.

Lemma Zdigits2_lower m k : 0 <= k -> 2 ^ k <= m -> k + 1 <= Zdigits2 m.
Proof.
  intros Hk Hle.
  assert (Hm : 0 <= m) by (pose proof (Z.pow_pos_nonneg 2 k); lia).
  pose proof (Zdigits2_gt m Hm) as Hgt.
  pose proof (Zdigits2_nonneg m).
  destruct (Z_le_gt_dec (k + 1) (Zdigits2 m)) as [|Hc]; [assumption|exfalso].
  assert (2 ^ Zdigits2 m <= 2 ^ k) by (apply Z.pow_le_mono_r; lia).
  lia.
Qed.

Lemma Zdigits2_succ m : 0 <= m -> Zdigits2 (m + 1) <= Zdigits2 m + 1.
Proof.
  intros Hm. pose proof (Zdigits2_gt m Hm). pose proof (Zdigits2_nonneg m).
  apply Zdigits2_upper; try lia.
  rewrite Z.pow_add_r by lia. lia.
Qed.

Lemma Zdigits2_mono a b : 0 <= a <= b -> Zdigits2 a <= Zdigits2 b.
Proof.
  intros H. apply Zdigits2_upper; try lia. apply Zdigits2_nonneg.
  pose proof (Zdigits2_gt b). lia.
Qed.

Lemma shr_1_digits mrs :
  0 <= shr_m mrs ->
  0 <= shr_m (shr_1 mrs) /\
  Zdigits2 (shr_m (shr_1 mrs)) = Z.max 0 (Zdigits2 (shr_m mrs) - 1).
Proof.
  destruct mrs as [m r s]. simpl.
  destruct m as [|[p|p|]|p]; cbn [shr_1 shr_m Zdigits2 digits2_pos]; intros H;
    rewrite ?Pos2Z.inj_succ; lia.
Qed.

Lemma iter_shr_1_digits p : forall mrs,
  0 <= shr_m mrs ->
  0 <= shr_m (SpecFloat.iter_pos shr_1 p mrs) /\
  Zdigits2 (shr_m (SpecFloat.iter_pos shr_1 p mrs)) = Z.max 0 (Zdigits2 (shr_m mrs) - Zpos p).
Proof.
  induction p as [p IH|p IH|]; intros mrs H; cbn [SpecFloat.iter_pos].
  - destruct (shr_1_digits mrs H) as [H1 E1].
    destruct (IH _ H1) as [H2 E2]. destruct (IH _ H2) as [H3 E3].
    split; [assumption|]. rewrite E3, E2, E1. lia.
  - destruct (IH _ H) as [H2 E2]. destruct (IH _ H2) as [H3 E3].
    split; [assumption|]. rewrite E3, E2. lia.
  - apply shr_1_digits; assumption.
Qed.

Lemma shr_m_of_loc m l : shr_m (shr_record_of_loc m l) = m.
Proof. destruct l as [|[]]; reflexivity. Qed.

Lemma shr_fexp_digits m e l :
  0 <= m ->
  let e' := Z.max e (fexp prec emax (Zdigits2 m + e)) in
  snd (shr_fexp prec emax m e l) = e' /\
  0 <= shr_m (fst (shr_fexp prec emax m e l)) /\
  Zdigits2 (shr_m (fst (shr_fexp prec emax m e l))) = Z.max 0 (Zdigits2 m - (e' - e)).
Proof.
  intros Hm e'. unfold shr_fexp, shr.
  pose proof (Zdigits2_nonneg m) as Hd.
  destruct (fexp prec emax (Zdigits2 m + e) - e) as [|n|n] eqn:En; simpl fst; simpl snd.
  - rewrite shr_m_of_loc. subst e'. lia.
  - assert (H0 : 0 <= shr_m (shr_record_of_loc m l)) by (rewrite shr_m_of_loc; lia).
    destruct (iter_shr_1_digits n _ H0) as [H1 E1].
    rewrite E1, shr_m_of_loc. subst e'. lia.
  - rewrite shr_m_of_loc. subst e'. lia.
Qed.

Lemma round_nearest_even_cases m l :
  round_nearest_even m l = m \/ round_nearest_even m l = m + 1.
Proof.
  destruct l as [|[]]; simpl; auto. destruct (Z.even m); auto.
Qed.

(** Rounding a non-negative significand: the result is a zero or a finite
    number, never an infinity, as long as the magnitude stays below
    [2 ^ (emax - 1)]. *)
Lemma binary_round_aux_upper s m e l B :
  0 <= m -> Zdigits2 m + e <= B -> e <= B - prec ->
  emin prec emax <= B - prec -> B < emax ->
  match binary_round_aux prec emax s m e l with
  | S754_zero s' => s' = s
  | S754_finite s' m' e' =>
      s' = s /\ Zdigits2 (Zpos m') + e' <= B + 1 /\ e' <= B + 1 - prec
  | _ => False
  end.
Proof.
  intros Hm Hd He Hmin HB. unfold binary_round_aux.
  destruct (shr_fexp_digits m e l Hm) as (E1 & P1 & D1).
  destruct (shr_fexp prec emax m e l) as [mrs1 e1]. simpl in E1, P1, D1.
  set (m2 := round_nearest_even (shr_m mrs1) (loc_of_shr_record mrs1)).
  assert (Hm2 : 0 <= m2 /\ Zdigits2 m2 <= Zdigits2 (shr_m mrs1) + 1).
  { subst m2. destruct (round_nearest_even_cases (shr_m mrs1) (loc_of_shr_record mrs1)) as [->| ->].
    - lia.
    - split; [lia|]. apply Zdigits2_succ; assumption. }
  destruct Hm2 as [P2 D2].
  destruct (shr_fexp_digits m2 e1 loc_Exact P2) as (E3 & P3 & D3).
  destruct (shr_fexp prec emax m2 e1 loc_Exact) as [mrs3 e3]. simpl in E3, P3, D3.
  unfold fexp, emin, prec, emax in *.
  destruct (shr_m mrs3) as [|p|p] eqn:Em3; try lia; [reflexivity|].
  destruct (Z.leb_spec e3 (1024 - 53)); [|lia].
  split; [reflexivity|]. lia.
Qed.

Lemma binary_round_aux_lower s m e l L :
  0 < m -> L <= Zdigits2 m + e -> emin prec emax + prec <= L ->
  match binary_round_aux prec emax s m e l with
  | S754_zero _ => False
  | S754_finite _ m' e' => L <= Zdigits2 (Zpos m') + e'
  | _ => True
  end.
Proof.
  intros Hm Hd HL. unfold binary_round_aux.
  assert (Hm0 : 0 <= m) by lia.
  destruct (shr_fexp_digits m e l Hm0) as (E1 & P1 & D1).
  destruct (shr_fexp prec emax m e l) as [mrs1 e1]. simpl in E1, P1, D1.
  set (m2 := round_nearest_even (shr_m mrs1) (loc_of_shr_record mrs1)).
  assert (Hm2 : 0 <= m2 /\ Zdigits2 (shr_m mrs1) <= Zdigits2 m2).
  { subst m2. destruct (round_nearest_even_cases (shr_m mrs1) (loc_of_shr_record mrs1)) as [->| ->].
    - lia.
    - split; [lia|]. apply Zdigits2_mono. lia. }
  destruct Hm2 as [P2 D2].
  destruct (shr_fexp_digits m2 e1 loc_Exact P2) as (E3 & P3 & D3).
  destruct (shr_fexp prec emax m2 e1 loc_Exact) as [mrs3 e3]. simpl in E3, P3, D3.
  assert (Hdm : 1 <= Zdigits2 m) by (apply (Zdigits2_lower m 0); lia).
  unfold fexp, emin, prec, emax in *.
  destruct (shr_m mrs3) as [|p|p] eqn:Em3; try lia.
  - simpl in D3. lia.
  - destruct (Z.leb_spec e3 (1024 - 53)); [|exact I]. lia.
Qed.

Lemma digits2_pos_iter_xO m d :
  Zpos (digits2_pos (Pos.iter xO m d)) = Zpos (digits2_pos m) + Zpos d.
Proof.
  induction d as [|d IH] using Pos.peano_ind.
  - cbn [Pos.iter digits2_pos]. rewrite Pos2Z.inj_succ. lia.
  - rewrite Pos.iter_succ. cbn [digits2_pos].
    rewrite !Pos2Z.inj_succ, IH. lia.
Qed.

Lemma shl_align_digits mx ex ex' :
  Zdigits2 (Zpos (fst (shl_align mx ex ex'))) + snd (shl_align mx ex ex')
    = Zdigits2 (Zpos mx) + ex
  /\ snd (shl_align mx ex ex') <= ex.
Proof.
  unfold shl_align. destruct (ex' - ex) as [|d|d] eqn:E; cbn [fst snd]; try lia.
  cbn [Zdigits2]. rewrite digits2_pos_iter_xO. lia.
Qed.

(** A positive finite double whose magnitude [m * 2^e] lies in
    [[2^(lo-1), 2^hi)]. *)
Definition pos_finite (x : spec_float) (lo hi : Z) : Prop :=
  match x with
  | S754_finite false m e =>
      lo <= Zdigits2 (Zpos m) + e <= hi /\ e <= hi - prec
  | _ => False
  end.

Definition finite_or_zero (x : spec_float) : Prop :=
  match x with
  | S754_zero _ | S754_finite _ _ _ => True
  | _ => False
  end.

Lemma binary_round_aux_pos m e l lo hi :
  0 < m -> lo <= Zdigits2 m + e <= hi -> e <= hi - prec ->
  emin prec emax + prec <= lo -> hi < emax ->
  pos_finite (binary_round_aux prec emax false m e l) lo (hi + 1).
Proof.
  intros Hm Hd He Hlo Hhi.
  assert (Hmin : emin prec emax <= hi - prec) by (unfold prec in *; lia).
  pose proof (binary_round_aux_upper false m e l hi ltac:(lia) ltac:(lia) He Hmin Hhi) as U.
  pose proof (binary_round_aux_lower false m e l lo Hm ltac:(lia) Hlo) as L.
  destruct (binary_round_aux prec emax false m e l) as [s|s| |s m' e']; try contradiction.
  destruct U as (-> & U1 & U2). unfold pos_finite. lia.
Qed.

Lemma binary_normalize_pos z hi :
  0 < z -> z < 2 ^ hi -> prec <= hi -> hi < emax ->
  pos_finite (binary_normalize prec emax z 0 false) 1 (hi + 1).
Proof.
  intros Hz Hlt Hp Hhi. destruct z as [|p|p]; try lia.
  unfold binary_normalize, binary_round.
  pose proof (shl_align_digits p 0 (fexp prec emax (Zpos (digits2_pos p) + 0))) as [A1 A2].
  destruct (shl_align p 0 (fexp prec emax (Zpos (digits2_pos p) + 0))) as [mz ez].
  cbn [fst snd] in A1, A2.
  assert (Hdp : 1 <= Zdigits2 (Zpos p) <= hi).
  { split; [apply (Zdigits2_lower (Zpos p) 0); lia|].
    apply Zdigits2_upper; unfold prec in *; lia. }
  apply binary_round_aux_pos; unfold emin, prec, emax in *; lia.
Qed.

Lemma Zdigits2_mul a b :
  0 < a -> 0 < b ->
  Zdigits2 a + Zdigits2 b - 1 <= Zdigits2 (a * b) <= Zdigits2 a + Zdigits2 b.
Proof.
  intros Ha Hb.
  pose proof (Zdigits2_gt a ltac:(lia)) as Ua. pose proof (Zdigits2_gt b ltac:(lia)) as Ub.
  pose proof (Zdigits2_le a Ha) as La. pose proof (Zdigits2_le b Hb) as Lb.
  assert (Da : 1 <= Zdigits2 a) by (apply (Zdigits2_lower a 0); lia).
  assert (Db : 1 <= Zdigits2 b) by (apply (Zdigits2_lower b 0); lia).
  split.
  - assert (2 ^ (Zdigits2 a + Zdigits2 b - 2) <= a * b).
    { replace (Zdigits2 a + Zdigits2 b - 2) with ((Zdigits2 a - 1) + (Zdigits2 b - 1)) by lia.
      rewrite Z.pow_add_r by lia.
      assert (2 ^ (Zdigits2 a - 1) <= a).
      { replace (Zdigits2 a) with ((Zdigits2 a - 1) + 1) in La at 1 by lia.
        rewrite Z.pow_add_r in La by lia. lia. }
      assert (2 ^ (Zdigits2 b - 1) <= b).
      { replace (Zdigits2 b) with ((Zdigits2 b - 1) + 1) in Lb at 1 by lia.
        rewrite Z.pow_add_r in Lb by lia. lia. }
      apply Z.mul_le_mono_nonneg; try lia; apply Z.pow_nonneg; lia. }
    pose proof (Zdigits2_lower (a * b) (Zdigits2 a + Zdigits2 b - 2) ltac:(lia) H). lia.
  - apply Zdigits2_upper; try lia.
    rewrite Z.pow_add_r by lia.
    apply Z.mul_lt_mono_nonneg; lia.
Qed.

Lemma SFmul_pos x y a b c d :
  pos_finite x a b -> pos_finite y c d ->
  emin prec emax + prec <= a + c - 1 -> b + d < emax ->
  pos_finite (SFmul prec emax x y) (a + c - 1) (b + d + 1).
Proof.
  intros Hx Hy Hlo Hhi.
  destruct x as [| | |[] mx ex]; try contradiction.
  destruct y as [| | |[] my ey]; try contradiction.
  cbn [SFmul xorb]. destruct Hx as [Hx1 Hx2], Hy as [Hy1 Hy2].
  pose proof (Zdigits2_mul (Zpos mx) (Zpos my) ltac:(lia) ltac:(lia)) as M.
  change (Zpos (mx * my)) with (Zpos mx * Zpos my).
  apply binary_round_aux_pos; unfold emin, prec, emax in *; lia.
Qed.

Lemma SFdiv_core_digits mx ex my ey :
  let '(q, e', _) := SFdiv_core_binary prec emax (Zpos mx) ex (Zpos my) ey in
  let k := (Zdigits2 (Zpos mx) + ex) - (Zdigits2 (Zpos my) + ey) in
  0 <= q /\ e' <= fexp prec emax k /\ (q = 0 \/ Zdigits2 q + e' <= k + 1).
Proof.
  unfold SFdiv_core_binary.
  set (d1 := Zdigits2 (Zpos mx)). set (d2 := Zdigits2 (Zpos my)).
  set (e' := Z.min (fexp prec emax (d1 + ex - (d2 + ey))) (ex - ey)).
  set (s := ex - ey - e').
  set (m' := match s with Zpos _ => Z.shiftl (Zpos mx) s | Z0 => Zpos mx | Zneg _ => 0 end).
  assert (Hs : 0 <= s) by (subst s e'; lia).
  assert (Hm' : m' = Zpos mx * 2 ^ s).
  { subst m'. destruct s as [|p|p] eqn:Es; try lia.
    rewrite Z.shiftl_mul_pow2 by lia. reflexivity. }
  pose proof (Z_div_mod m' (Zpos my) ltac:(lia)) as DM.
  destruct (Z.div_eucl m' (Zpos my)) as [q r].
  destruct DM as [DM1 DM2].
  assert (Hpow : 0 < 2 ^ s) by (apply Z.pow_pos_nonneg; lia).
  assert (Hq : 0 <= q) by nia.
  split; [assumption|]. split; [subst e'; lia|].
  destruct (Z.eq_dec q 0) as [|Hq0]; [left; assumption|right].
  assert (D1 : 1 <= d1) by (apply (Zdigits2_lower (Zpos mx) 0); lia).
  assert (D2 : 1 <= d2) by (apply (Zdigits2_lower (Zpos my) 0); lia).
  pose proof (Zdigits2_gt (Zpos mx) ltac:(lia)) as U1. fold d1 in U1.
  pose proof (Zdigits2_le (Zpos my) ltac:(lia)) as L2. fold d2 in L2.
  replace d2 with ((d2 - 1) + 1) in L2 at 1 by lia.
  rewrite Z.pow_add_r in L2 by lia.
  assert (L2' : 2 ^ (d2 - 1) <= Zpos my) by lia.
  assert (Hup : m' < 2 ^ (d1 + s)).
  { rewrite Hm', Z.pow_add_r by lia. apply Z.mul_lt_mono_pos_r; lia. }
  assert (Hq2 : q * 2 ^ (d2 - 1) < 2 ^ (d1 + s)).
  { assert (q * 2 ^ (d2 - 1) <= q * Zpos my) by (apply Z.mul_le_mono_nonneg_l; lia). nia. }
  assert (Hk : 0 <= d1 + s - d2 + 1).
  { destruct (Z_le_gt_dec 0 (d1 + s - d2 + 1)) as [|Hc]; [assumption|exfalso].
    assert (2 ^ (d1 + s) <= 2 ^ (d2 - 1)) by (apply Z.pow_le_mono_r; lia).
    assert (0 < 2 ^ (d2 - 1)) by (apply Z.pow_pos_nonneg; lia).
    nia. }
  assert (Hqk : q < 2 ^ (d1 + s - d2 + 1)).
  { destruct (Z_lt_le_dec q (2 ^ (d1 + s - d2 + 1))) as [|Hc]; [assumption|exfalso].
    assert (2 ^ (d1 + s - d2 + 1) * 2 ^ (d2 - 1) <= q * 2 ^ (d2 - 1)).
    { apply Z.mul_le_mono_nonneg_r; [apply Z.pow_nonneg|]; lia. }
    rewrite <- Z.pow_add_r in H by lia.
    replace (d1 + s - d2 + 1 + (d2 - 1)) with (d1 + s) in H by lia. lia. }
  pose proof (Zdigits2_upper q _ Hq Hk Hqk). subst s. lia.
Qed.

Lemma SFdiv_finite x y a b c d :
  pos_finite x a b -> pos_finite y c d ->
  emin prec emax + prec <= b - c + 1 -> b - c + 1 < emax ->
  finite_or_zero (SFdiv prec emax x y).
Proof.
  intros Hx Hy Hlo Hhi.
  destruct x as [| | |[] mx ex]; try contradiction.
  destruct y as [| | |[] my ey]; try contradiction.
  cbn [SFdiv xorb]. destruct Hx as [Hx1 Hx2], Hy as [Hy1 Hy2].
  pose proof (SFdiv_core_digits mx ex my ey) as C.
  destruct (SFdiv_core_binary prec emax (Zpos mx) ex (Zpos my) ey) as [[q e'] l].
  cbn zeta in C. destruct C as (Hq & He & Hd).
  assert (Hd' : Zdigits2 q + e' <= b - c + 1).
  { unfold fexp, emin, prec, emax in *. destruct Hd as [->|Hd]; cbn [Zdigits2]; lia. }
  pose proof (binary_round_aux_upper false q e' l (b - c + 1) Hq Hd'
                ltac:(unfold fexp, emin, prec, emax in *; lia)
                ltac:(unfold fexp, emin, prec, emax in *; lia) Hhi) as U.
  destruct (binary_round_aux prec emax false q e' l); try contradiction; exact I.
Qed.

(** The literals are the doubles nearest to 45/100, 8/10 and 1/2. *)
Lemma literals_correctly_rounded :
  SFdiv prec emax (binary_normalize prec emax 45 0 false)
    (binary_normalize prec emax 100 0 false) = lit_0_45
  /\ SFdiv prec emax (binary_normalize prec emax 8 0 false)
       (binary_normalize prec emax 10 0 false) = lit_0_80
  /\ SFdiv prec emax (binary_normalize prec emax 1 0 false)
       (binary_normalize prec emax 2 0 false) = lit_0_5.
Proof. vm_compute. repeat split; reflexivity. Qed.

(** An integer beyond the largest double cannot enter a float product. *)
Lemma of_int_overflow : of_int (2 ^ 1024) = Raised OverflowError.
Proof. vm_compute. reflexivity. Qed.

Lemma lit_0_45_pos : pos_finite lit_0_45 (-1) (-1).
Proof. unfold pos_finite, lit_0_45, prec. cbn. lia. Qed.

Lemma lit_0_80_pos : pos_finite lit_0_80 0 0.
Proof. unfold pos_finite, lit_0_80, prec. cbn. lia. Qed.

Lemma of_int_pos z :
  0 < z < 2 ^ 1000 -> exists f, of_int z = Returned f /\ pos_finite f 1 1001.
Proof.
  intros [Hz Hlt].
  pose proof (binary_normalize_pos z 1000 Hz Hlt ltac:(unfold prec; lia)
                ltac:(unfold emax; lia)) as P.
  unfold of_int. change (1000 + 1) with 1001 in P.
  destruct (binary_normalize prec emax z 0 false) as [| | |[] m e]; try contradiction.
  eexists. split; [reflexivity | exact P].
Qed.

Lemma int_mul_pos z c lo hi :
  0 < z < 2 ^ 1000 -> pos_finite c lo hi -> -1020 <= lo -> hi <= 0 ->
  exists f, int_mul z c = Returned f /\ pos_finite f lo (1002 + hi).
Proof.
  intros Hz Hc Hlo Hhi. destruct (of_int_pos z Hz) as (fz & E & P).
  unfold int_mul. rewrite E. cbn [Py.bind]. eexists. split; [reflexivity|].
  pose proof (SFmul_pos fz c 1 1001 lo hi P Hc
                ltac:(unfold emin, prec, emax; lia) ltac:(unfold emax; lia)) as M.
  unfold mul. replace (1 + lo - 1) with lo in M by lia.
  replace (1001 + hi + 1) with (1002 + hi) in M by lia. exact M.
Qed.

Lemma pos_finite_finite_or_zero x lo hi : pos_finite x lo hi -> finite_or_zero x.
Proof. destruct x as [| | |[] m e]; cbn; tauto. Qed.

Lemma min_finite_or_zero a b :
  finite_or_zero a -> finite_or_zero b -> finite_or_zero (Float64.min a b).
Proof. intros Ha Hb. unfold Float64.min. destruct (SFltb b a); assumption. Qed.

Lemma to_int_total x : finite_or_zero x -> exists z, to_int x = Returned z.
Proof. destruct x; cbn; intros H; try contradiction; eauto. Qed.

End Float64Facts.

(** ** Adaptive typography *)

Module TypographyFacts.
Import Float64 Float64Facts Typography.

(** [clamp(x, lo, hi)] of the specification. *)
Definition clamp (x lo hi : Z) : Z :=
  if x <? lo then lo else if hi <? x then hi else x.

Lemma clamp_max_min x lo hi : lo <= hi -> Z.max lo (Z.min hi x) = clamp x lo hi.
Proof. intros H. unfold clamp. destruct (Z.ltb_spec x lo), (Z.ltb_spec hi x); lia. Qed.

Lemma clamp_range x lo hi : lo <= hi -> lo <= clamp x lo hi <= hi.
Proof. intros H. unfold clamp. destruct (Z.ltb_spec x lo), (Z.ltb_spec hi x); lia. Qed.

(** The dual bound of the specification, [min(h * k_h, (w * k_w) / n)]
    with [k_h = 0.45] and [k_w = 0.80], as an integer: the formula is
    evaluated in binary64 like the code's, [n] being the text length it
    divides by. *)
Definition dual_bound (w h n : Z) : outcome Z :=
  Py.bind (int_mul h lit_0_45) (fun by_h =>
  Py.bind (int_mul w lit_0_80) (fun num =>
  Py.bind (of_int n) (fun fn =>
  Py.bind (truediv num fn) (fun by_w =>
  to_int (Float64.min by_h by_w))))).

(** The text whose length the fit divides by: [text or "00:00:00"]. *)
Definition measured (text : string) : string :=
  if String.eqb text "" then "00:00:00"%string else text.

Lemma fit_is_clamped_dual_bound w h text :
  _auto_font_minimal_by_wh w h text
  = Py.bind (dual_bound w h (Z.max 1 (Z.of_nat (String.length (measured text)))))
      (fun size => Returned (clamp size 24 280)).
Proof.
  unfold _auto_font_minimal_by_wh, dual_bound, measured.
  destruct (int_mul h lit_0_45) as [by_h|]; [|reflexivity]. cbn [Py.bind].
  destruct (int_mul w lit_0_80) as [num|]; [|reflexivity]. cbn [Py.bind].
  destruct (of_int _) as [fn|]; [|reflexivity]. cbn [Py.bind].
  destruct (truediv num fn) as [by_w|]; [|reflexivity]. cbn [Py.bind].
  destruct (to_int _) as [size|]; [|reflexivity]. cbn [Py.bind].
  rewrite clamp_max_min by lia. reflexivity.
Qed.

(** For positive sizes in the range of a double the bounds are finite
    numbers, so their minimum converts to an integer. *)
Lemma dual_bound_total w h n :
  0 < w < 2 ^ 1000 -> 0 < h < 2 ^ 1000 -> 0 < n < 2 ^ 1000 ->
  exists size, dual_bound w h n = Returned size.
Proof.
  intros Hw Hh Hn. unfold dual_bound.
  destruct (int_mul_pos h lit_0_45 (-1) (-1) Hh lit_0_45_pos ltac:(lia) ltac:(lia))
    as (by_h & -> & Ph).
  destruct (int_mul_pos w lit_0_80 0 0 Hw lit_0_80_pos ltac:(lia) ltac:(lia))
    as (num & -> & Pw).
  destruct (of_int_pos n Hn) as (fn & -> & Pn). cbn [Py.bind].
  assert (Hdiv : truediv num fn = Returned (SFdiv prec emax num fn)).
  { unfold truediv. destruct fn as [| | |[] m e]; try contradiction. reflexivity. }
  rewrite Hdiv. cbn [Py.bind].
  apply to_int_total, min_finite_or_zero.
  - eapply pos_finite_finite_or_zero, Ph.
  - apply (SFdiv_finite num fn 0 (1002 + 0) 1 1001 Pw Pn);
      unfold emin, prec, emax; lia.
Qed.

Lemma measured_length text :
  Z.of_nat (String.length text) < 2 ^ 1000 ->
  0 < Z.max 1 (Z.of_nat (String.length (measured text))) < 2 ^ 1000.
Proof.
  intros H. unfold measured. destruct (String.eqb text ""); cbn [String.length]; lia.
Qed.

Lemma fit_font_total w h text :
  0 < w < 2 ^ 1000 -> 0 < h < 2 ^ 1000 ->
  Z.of_nat (String.length text) < 2 ^ 1000 ->
  exists f, _auto_font_minimal_by_wh w h text = Returned f.
Proof.
  intros Hw Hh Ht. rewrite fit_is_clamped_dual_bound.
  destruct (dual_bound_total w h _ Hw Hh (measured_length text Ht)) as (size & ->).
  cbn [Py.bind]. eauto.
Qed.

(** C1, as stated, fails on the empty text: the claim divides the width
    bound by [max(1, 0) = 1] and gets 280, the code measures the default
    text ["00:00:00"] instead and returns 100. *)
Lemma fit_font_empty_text_not_claimed_value :
  Py.bind (dual_bound 1000 1000 (Z.max 1 (Z.of_nat (String.length ""))))
    (fun size => Returned (clamp size 24 280)) = Returned 280
  /\ _auto_font_minimal_by_wh 1000 1000 "" = Returned 100
  /\ _auto_font_minimal_by_wh 1000 1000 ""
     <> Py.bind (dual_bound 1000 1000 (Z.max 1 (Z.of_nat (String.length ""))))
          (fun size => Returned (clamp size 24 280)).
Proof. vm_compute. repeat split; try reflexivity. discriminate. Qed.

(** C1 (amended): for a positive width and height (within the range of a
    double) the fit returns [clamp(min(h * 0.45, (w * 0.80) / max(1, n)),
    24, 280)] as an integer, where [n] is the length of the text, or of
    ["00:00:00"] when the text is empty; the result lies in [24, 280]. *)
Theorem fit_font_dual_bound (w h : Z) (text : string) :
  0 < w < 2 ^ 1000 ->
  0 < h < 2 ^ 1000 ->
  Z.of_nat (String.length text) < 2 ^ 1000 ->
  let n := Z.of_nat (String.length (if String.eqb text "" then "00:00:00"%string else text)) in
  exists size,
    dual_bound w h (Z.max 1 n) = Returned size
    /\ _auto_font_minimal_by_wh w h text = Returned (clamp size 24 280)
    /\ 24 <= clamp size 24 280 <= 280.
Proof.
  intros Hw Hh Ht n. subst n. fold (measured text).
  destruct (dual_bound_total w h _ Hw Hh (measured_length text Ht)) as (size & E).
  exists size. split; [exact E|]. split.
  - rewrite fit_is_clamped_dual_bound, E. reflexivity.
  - apply clamp_range. lia.
Qed.

Lemma fit_font_dual_bound_witness :
  exists size,
    dual_bound 560 260 (Z.max 1 (Z.of_nat (String.length "12:34:56"))) = Returned size
    /\ _auto_font_minimal_by_wh 560 260 "12:34:56" = Returned (clamp size 24 280)
    /\ 24 <= clamp size 24 280 <= 280.
Proof.
  apply (fit_font_dual_bound 560 260 "12:34:56"); cbn [String.length]; lia.
Defined.

End TypographyFacts.

(** ** Wallpaper compositor *)

Module CompositorFacts.
Import Compositor TypographyFacts.

Lemma short_side_clamp w h fit_pct :
  short_side w h fit_pct = Z.min w h * clamp fit_pct 10 100 / 100.
Proof.
  unfold short_side. rewrite <- (clamp_max_min fit_pct 10 100) by lia.
  rewrite (Z.min_comm fit_pct 100). reflexivity.
Qed.

Lemma short_side_within w h fit_pct :
  0 <= Z.min w h -> 0 <= short_side w h fit_pct <= Z.min w h.
Proof.
  intros H. unfold short_side.
  set (c := Z.max 10 (Z.min fit_pct 100)). assert (10 <= c <= 100) by lia.
  split.
  - apply Z.div_pos; nia.
  - apply Z.div_le_upper_bound; nia.
Qed.

End CompositorFacts.

(** ** Floating panel controller *)

Module PanelFacts.
Import Panel Compositor TypographyFacts CompositorFacts.

(** *** The bounding box (both composite paths) *)

(** C8: whatever fit percent is stored, both composite paths clamp it
    into [10, 100] where they use it, and the side of the box they hand
    to [ImageOps.contain] is [min(w, h) * clamp(fitPercent, 10, 100) / 100]
    in integer arithmetic, [w] and [h] being the viewport size (at least
    1) and a missing key reading as 92. *)
Theorem fit_percent_clamped_at_use :
  (forall picked ww wh d fs,
      truthy_str picked = true ->
      exists bg d' fs',
        _draw_timer_wallpaper true picked ww wh d fs
        = (Some {| d_bg := bg;
                   d_short := Some (Z.min (Z.max 1 ww) (Z.max 1 wh)
                                    * clamp (default 92 (wallpaper_fit_pct d)) 10 100
                                    / 100) |}, d', fs'))
  /\ (forall force pick s win,
      p_pil s = true -> minimal_bg s = true -> minimal_win s = Some win ->
      truthy_str pick = true ->
      force = true
      \/ (Z.max 1 (winfo_width win), Z.max 1 (winfo_height win))
         <> _last_min_wallpaper_size s ->
      exists bg,
        composites (_draw_min_wallpaper force pick s)
        = composites s
          ++ [ {| c_size := (Z.max 1 (winfo_width win), Z.max 1 (winfo_height win));
                  c_bg := bg;
                  c_short := Some (Z.min (Z.max 1 (winfo_width win))
                                         (Z.max 1 (winfo_height win))
                                   * clamp (default 92 (wallpaper_min_fit_pct (p_data s)))
                                       10 100
                                   / 100) |} ])
  /\ (forall fit_pct, 10 <= clamp fit_pct 10 100 <= 100).
Proof.
  split; [|split].
  - intros picked ww wh d fs Ht. unfold _draw_timer_wallpaper. rewrite Ht.
    cbn [negb].
    destruct (SamplerFacts.avg_color_hex_frame true picked "#f0f0f3" d fs)
      as (d' & -> & Hf & _).
    cbn [default from_option id]. rewrite Hf, short_side_clamp. eauto.
  - intros force pick s win Hpil Hbg Hwin Ht Hgate.
    unfold _draw_min_wallpaper. rewrite Hbg, Hpil, Hwin, Ht. cbn [negb orb].
    assert (G : negb force
                && size_eqb (Z.max 1 (winfo_width win), Z.max 1 (winfo_height win))
                     (_last_min_wallpaper_size s) = false).
    { destruct Hgate as [->|Hne]; [reflexivity|].
      apply andb_false_iff. right. unfold size_eqb. cbn [fst snd].
      destruct (_last_min_wallpaper_size s) as [lw lh]. cbn [fst snd].
      destruct (Z.eqb_spec (Z.max 1 (winfo_width win)) lw);
        destruct (Z.eqb_spec (Z.max 1 (winfo_height win)) lh); try reflexivity.
      congruence. }
    rewrite G.
    destruct (SamplerFacts.avg_color_hex_frame true pick "#f0f0f3" (p_data s) (p_fs s))
      as (d' & -> & _ & Hf).
    cbn [default from_option id composites set_composited set_store].
    rewrite Hf, short_side_clamp. eauto.
  - intros fit_pct. apply clamp_range. lia.
Qed.

Definition plain_fs : fsys := SamplerFacts.fs_images true.

(** The application before the panel is opened, PIL installed. *)
Definition closed_panel : panel := {|
  p_data := DEFAULT_DATA; p_fs := plain_fs; p_pil := true;
  minimal_win := None; minimal_label := None; minimal_bg := false;
  bindings := ∅; _drag_off := (0, 0); _last_min_h := None;
  _last_min_wallpaper_size := (0, 0); composites := []; applied := []
|}.

(** The panel as built by [_open_minimal], with a stored fit percent
    far out of range. *)
Definition overfit_panel : panel := {|
  p_data := {| wallpaper_color_cache := Some ∅;
               wallpaper_fit_pct := Some 250;
               wallpaper_min_fit_pct := Some (-5);
               minimal_pos := None;
               minimal_size := Some (560, 260);
               minimal_notes_memory := Some EmptyString;
               notes_save_path := None;
               beep := Some true;
               tasks := Some [];
               sessions := Some [] |};
  p_fs := plain_fs; p_pil := true;
  minimal_win := Some {| winfo_x := 0; winfo_y := 0;
                         winfo_width := 560; winfo_height := 260 |};
  minimal_label := Some {| text := "00:25:00"; font_size := 56 |};
  minimal_bg := true;
  bindings := ∅; _drag_off := (0, 0); _last_min_h := None;
  _last_min_wallpaper_size := (0, 0); composites := []; applied := []
|}.

Lemma fit_percent_clamped_at_use_witness :
  (exists bg d' fs',
      _draw_timer_wallpaper true (Some "a.png"%string) 800 400 (p_data overfit_panel)
        plain_fs
      = (Some {| d_bg := bg;
                 d_short := Some (Z.min (Z.max 1 800) (Z.max 1 400)
                                  * clamp (default 92 (wallpaper_fit_pct (p_data overfit_panel)))
                                      10 100
                                  / 100) |}, d', fs'))
  /\ (exists bg,
        composites (_draw_min_wallpaper false (Some "a.png"%string) overfit_panel)
        = composites overfit_panel
          ++ [ {| c_size := (Z.max 1 560, Z.max 1 260);
                  c_bg := bg;
                  c_short := Some (Z.min (Z.max 1 560) (Z.max 1 260)
                                   * clamp (default 92 (wallpaper_min_fit_pct
                                                          (p_data overfit_panel))) 10 100
                                   / 100) |} ]).
Proof.
  split.
  - apply (proj1 fit_percent_clamped_at_use (Some "a.png"%string) 800 400
             (p_data overfit_panel) plain_fs).
    reflexivity.
  - apply (proj1 (proj2 fit_percent_clamped_at_use) false (Some "a.png"%string)
             overfit_panel
             {| winfo_x := 0; winfo_y := 0; winfo_width := 560; winfo_height := 260 |});
      try reflexivity.
    right. cbn. discriminate.
Defined.

(** *** Wheel resize *)

Lemma half_step_up : Py.bind (Float64.int_mul 20 Float64.lit_0_5) Float64.to_int = Returned 10.
Proof. vm_compute. reflexivity. Qed.

Lemma half_step_down :
  Py.bind (Float64.int_mul (-20) Float64.lit_0_5) Float64.to_int = Returned (-10).
Proof. vm_compute. reflexivity. Qed.

(** The size one notch asks for. *)
Definition notch (e : event) (sz : Z * Z) : Z * Z :=
  if 0 <? ev_delta e
  then (Z.max 280 (fst sz + 20), Z.max 160 (snd sz + 10))
  else (Z.max 280 (fst sz - 20), Z.max 160 (snd sz - 10)).

Definition at_least_minimum (sz : Z * Z) : Prop := 280 <= fst sz /\ 160 <= snd sz.

Lemma notch_minimum e sz : at_least_minimum (notch e sz).
Proof. unfold notch, at_least_minimum. destruct (0 <? ev_delta e); cbn [fst snd]; lia. Qed.

(** One gesture: the new size is stored before anything can fail; it is
    applied to the window when the store could be saved. *)
Lemma wheel_step (e : event) (s : panel) :
  let sz := notch e (default (560, 260) (minimal_size (p_data s))) in
  let s' := _ctrl_wheel_resize_min e s in
  minimal_size (p_data s') = Some sz
  /\ fs_writable (p_fs s') = fs_writable (p_fs s)
  /\ (applied s' = applied s \/ applied s' = applied s ++ [sz])
  /\ (forall win, minimal_win s = Some win -> fs_writable (p_fs s) = true ->
        minimal_win s' = Some {| winfo_x := winfo_x win; winfo_y := winfo_y win;
                                 winfo_width := fst sz; winfo_height := snd sz |})
  /\ (minimal_win s = None -> minimal_win s' = None).
Proof.
  unfold _ctrl_wheel_resize_min, notch.
  destruct (default (560, 260) (minimal_size (p_data s))) as [mw mh] eqn:Esz.
  destruct (0 <? ev_delta e); [rewrite half_step_up | rewrite half_step_down];
    unfold save_data; destruct (fs_writable (p_fs s)) eqn:Hw;
    cbn [set_store minimal_win p_data p_fs fst snd];
    destruct (minimal_win s) as [win|] eqn:Ew;
    cbn [set_applied set_win set_store minimal_win p_data p_fs applied
         set_minimal_size minimal_size with_saved fs_writable fst snd];
    rewrite ?Z.add_opp_r;
    repeat split; auto; try (intros ? [= <-] ?; reflexivity); try discriminate;
    try (intros; discriminate).
Qed.

Definition wheel_run (es : list event) (s : panel) : panel :=
  fold_left (fun st e => _ctrl_wheel_resize_min e st) es s.

Lemma wheel_run_applied (es : list event) : forall s,
  exists new, applied (wheel_run es s) = applied s ++ new /\ Forall at_least_minimum new.
Proof.
  induction es as [|e es IH]; intros s; cbn [wheel_run fold_left].
  - exists []. rewrite app_nil_r. split; [reflexivity | constructor].
  - destruct (IH (_ctrl_wheel_resize_min e s)) as (new & E & F).
    fold (wheel_run es (_ctrl_wheel_resize_min e s)). rewrite E.
    destruct (wheel_step e s) as (_ & _ & [->| ->] & _).
    + exists new. auto.
    + eexists (_ :: new). rewrite <- app_assoc. split; [reflexivity|].
      constructor; [apply notch_minimum | assumption].
Qed.

Lemma wheel_run_snoc es e s :
  wheel_run (es ++ [e]) s = _ctrl_wheel_resize_min e (wheel_run es s).
Proof. unfold wheel_run. rewrite fold_left_app. reflexivity. Qed.

Lemma wheel_run_frame (es : list event) : forall s,
  fs_writable (p_fs (wheel_run es s)) = fs_writable (p_fs s)
  /\ (minimal_win s = None <-> minimal_win (wheel_run es s) = None).
Proof.
  induction es as [|e es IH]; intros s; cbn [wheel_run fold_left]; [tauto|].
  fold (wheel_run es (_ctrl_wheel_resize_min e s)).
  destruct (IH (_ctrl_wheel_resize_min e s)) as [IH1 IH2].
  destruct (wheel_step e s) as (_ & Hw & _ & Hwin & Hnone).
  rewrite IH1, Hw. split; [reflexivity|]. rewrite <- IH2.
  split; [assumption|]. intros Hn.
  destruct (minimal_win s) as [win|] eqn:Ew; [|reflexivity].
  unfold _ctrl_wheel_resize_min in Hn.
  destruct (default (560, 260) (minimal_size (p_data s))) as [mw mh].
  destruct (Py.bind _ _); [|congruence].
  unfold save_data in Hn. destruct (fs_writable (p_fs s));
    cbn [set_store minimal_win] in Hn; rewrite ?Ew in Hn;
    cbn [set_applied set_win minimal_win] in Hn; congruence.
Qed.

(** C9: every wheel notch stores the old size moved by the step (20 in
    width, 10 in height; a shrink notch subtracts them) and clamped from
    below, so after every gesture of any sequence, from any stored size,
    the stored size is at least 280x160; every size a gesture applies to
    the window is at least 280x160 too, and when the store can be saved
    the window ends with exactly the stored size. *)
Theorem wheel_resize_never_below_minimum (s : panel) (es : list event) :
  (forall e,
      minimal_size (p_data (_ctrl_wheel_resize_min e s))
      = Some (let '(mw, mh) := default (560, 260) (minimal_size (p_data s)) in
              if 0 <? ev_delta e
              then (Z.max 280 (mw + 20), Z.max 160 (mh + 10))
              else (Z.max 280 (mw - 20), Z.max 160 (mh - 10))))
  /\ (es <> [] ->
      exists w h, minimal_size (p_data (wheel_run es s)) = Some (w, h)
                  /\ 280 <= w /\ 160 <= h)
  /\ (exists new, applied (wheel_run es s) = applied s ++ new
                  /\ Forall (fun sz => 280 <= fst sz /\ 160 <= snd sz) new)
  /\ (es <> [] -> fs_writable (p_fs s) = true -> minimal_win s <> None ->
      exists win, minimal_win (wheel_run es s) = Some win
                  /\ minimal_size (p_data (wheel_run es s))
                     = Some (winfo_width win, winfo_height win)
                  /\ 280 <= winfo_width win /\ 160 <= winfo_height win).
Proof.
  split; [|split; [|split]].
  - intros e. destruct (wheel_step e s) as (-> & _). unfold notch.
    destruct (default (560, 260) (minimal_size (p_data s))) as [mw mh].
    reflexivity.
  - intros Hne. destruct (exists_last Hne) as (es' & e & ->).
    rewrite wheel_run_snoc.
    destruct (wheel_step e (wheel_run es' s)) as (-> & _).
    pose proof (notch_minimum e
      (default (560, 260) (minimal_size (p_data (wheel_run es' s))))) as [H1 H2].
    destruct (notch e _) as [w h]. exists w, h. auto.
  - apply wheel_run_applied.
  - intros Hne Hw Hwin. destruct (exists_last Hne) as (es' & e & ->).
    rewrite wheel_run_snoc.
    destruct (wheel_run_frame es' s) as [Fw Fn].
    destruct (minimal_win (wheel_run es' s)) as [win|] eqn:Ew;
      [|exfalso; apply Hwin, Fn; reflexivity].
    destruct (wheel_step e (wheel_run es' s)) as (Hs & _ & _ & Happ & _).
    rewrite (Happ win Ew) by congruence. eexists. split; [reflexivity|].
    cbn [winfo_width winfo_height]. rewrite Hs.
    pose proof (notch_minimum e
      (default (560, 260) (minimal_size (p_data (wheel_run es' s))))) as [H1 H2].
    destruct (notch e _) as [w h]. auto.
Qed.

Definition wheel_down : event :=
  {| ev_x := 0; ev_y := 0; ev_width := 0; ev_height := 0; ev_delta := -120;
     ev_pick := None |}.

Lemma wheel_resize_never_below_minimum_witness :
  exists w h,
    minimal_size (p_data (wheel_run [wheel_down; wheel_down; wheel_down] closed_panel))
    = Some (w, h) /\ 280 <= w /\ 160 <= h.
Proof.
  apply (proj1 (proj2 (wheel_resize_never_below_minimum closed_panel
                         [wheel_down; wheel_down; wheel_down]))).
  discriminate.
Defined.


(** *** Drag and release *)

Definition pointer (x y : Z) : event :=
  {| ev_x := x; ev_y := y; ev_width := 0; ev_height := 0; ev_delta := 0;
     ev_pick := None |}.

(** The second [bind] of [<ButtonRelease-1>] in [_open_minimal] replaces
    the first: releasing the button only refits the font. *)
Lemma release_bound_to_font_refit :
  bindings (_open_minimal 1920 1080 "00:25:00" None closed_panel) !! "<ButtonRelease-1>"%string
  = Some [HRecalcFont].
Proof. vm_compute. reflexivity. Qed.

Lemma release_keeps_store (e : event) (s : panel) :
  bindings s !! "<ButtonRelease-1>"%string = Some [HRecalcFont] ->
  p_data (dispatch "<ButtonRelease-1>" e s) = p_data s
  /\ p_fs (dispatch "<ButtonRelease-1>" e s) = p_fs s.
Proof.
  intros H. unfold dispatch. rewrite H.
  cbn [default from_option id fold_left run_handler].
  unfold _recalc_font_after_move, set_font.
  destruct (minimal_win s), (minimal_label s); try (split; reflexivity).
  destruct (Typography._auto_font_minimal_by_wh _ _ _); split; reflexivity.
Qed.

(** C6 on the code: the panel is opened on a 1920x1080 screen with no
    stored position, dragged by (40, 30) and released. The window has
    moved from (680, 410) to (720, 440), yet [minimal_pos] is still
    unset and nothing was written to the store; the handler that would
    have saved it does so when called. *)
Theorem drag_release_leaves_position_unsaved :
  let s0 := _open_minimal 1920 1080 "00:25:00" None closed_panel in
  let s1 := dispatch_all [ ("<Button-1>"%string, pointer 10 10);
                           ("<B1-Motion>"%string, pointer 50 40);
                           ("<ButtonRelease-1>"%string, pointer 50 40) ] s0 in
  option_map (fun w => (winfo_x w, winfo_y w)) (minimal_win s0) = Some (680, 410)
  /\ option_map (fun w => (winfo_x w, winfo_y w)) (minimal_win s1) = Some (720, 440)
  /\ minimal_pos (p_data s1) = None
  /\ fs_saved (p_fs s1) = None
  /\ minimal_pos (p_data (_save_minimal_pos s1)) = Some (720, 440).
Proof. vm_compute. repeat split; reflexivity. Qed.

(** *** Geometry changes *)

Lemma size_eqb_eq a b : size_eqb a b = true <-> a = b.
Proof.
  destruct a as [a1 a2], b as [b1 b2]. unfold size_eqb. cbn [fst snd].
  rewrite andb_true_iff, !Z.eqb_eq. split; [intros [-> ->]; reflexivity|].
  intros [= -> ->]. auto.
Qed.

(** The size gate of [_draw_min_wallpaper]. *)
Lemma draw_same_size_skips pick s win :
  minimal_win s = Some win ->
  (Z.max 1 (winfo_width win), Z.max 1 (winfo_height win)) = _last_min_wallpaper_size s ->
  _draw_min_wallpaper false pick s = s.
Proof.
  intros Hw Hs. unfold _draw_min_wallpaper. rewrite Hw.
  destruct (negb (minimal_bg s) || negb (p_pil s)); [reflexivity|].
  apply size_eqb_eq in Hs. rewrite Hs. reflexivity.
Qed.

Lemma configure_same_size e s win :
  minimal_win s = Some win ->
  (Z.max 1 (winfo_width win), Z.max 1 (winfo_height win)) = _last_min_wallpaper_size s ->
  composites (_on_minimal_configure e s) = composites s
  /\ _last_min_wallpaper_size (_on_minimal_configure e s) = _last_min_wallpaper_size s.
Proof.
  intros Hw Hs. unfold _on_minimal_configure.
  destruct (ev_height e =? default 0 (_last_min_h s)); [split; reflexivity|].
  cbn [set_last_min_h minimal_label].
  destruct (minimal_label s) as [lb|] eqn:El; [|split; reflexivity].
  destruct (Typography._auto_font_minimal_by_wh _ _ _) as [f|]; [|split; reflexivity].
  rewrite (draw_same_size_skips _ _ win).
  - unfold set_font. cbn [set_last_min_h minimal_label]. rewrite El. split; reflexivity.
  - unfold set_font. cbn [set_last_min_h minimal_label]. rewrite El. exact Hw.
  - unfold set_font. cbn [set_last_min_h minimal_label]. rewrite El. exact Hs.
Qed.

(** The toplevel's own [<Configure>] event reports the window's size. *)
Definition configure_event (g : window) (pick : option string) : event :=
  {| ev_x := winfo_x g; ev_y := winfo_y g;
     ev_width := winfo_width g; ev_height := winfo_height g;
     ev_delta := 0; ev_pick := pick |}.

(** What happens to an open panel between two looks at it: the window
    manager gives the window a new geometry, or Tk delivers a
    [<Configure>] event to the handler. The handler is bound on the
    toplevel, whose tag is among the bind tags of each of its children,
    so the events delivered are the toplevel's own and those of the
    canvas, the labels and the frames inside it, each carrying the width
    and height of the widget it is about: the size in an event is not
    tied to the size of the window. *)
Inductive step : Type :=
| Resize (g : window)
| Deliver (e : event).

Definition run_step (st : step) (s : panel) : panel :=
  match st with
  | Resize g =>
      match minimal_win s with
      | Some _ => set_win (Some g) s
      | None => s
      end
  | Deliver e => _on_minimal_configure e s
  end.

Definition run_steps (sts : list step) (s : panel) : panel :=
  fold_left (fun st x => run_step x st) sts s.

(** The viewport size [_draw_min_wallpaper] reads off a window. *)
Definition size_of (g : window) : Z * Z :=
  (Z.max 1 (winfo_width g), Z.max 1 (winfo_height g)).

(** How often the window manager changes the size of the window. *)
Fixpoint size_changes (cur : Z * Z) (sts : list step) : nat :=
  match sts with
  | [] => O
  | Resize g :: rest =>
      ((if size_eqb (size_of g) cur then 0 else 1) + size_changes (size_of g) rest)%nat
  | Deliver _ :: rest => size_changes cur rest
  end.

(** A step that leaves the size [sz]: an event, or a move. *)
Definition keeps_size (sz : Z * Z) (st : step) : Prop :=
  match st with
  | Resize g => size_of g = sz
  | Deliver _ => True
  end.

(** The panel is fully built: PIL, the canvas and the time label exist. *)
Definition ready (s : panel) : Prop :=
  p_pil s = true /\ minimal_bg s = true
  /\ exists lb, minimal_label s = Some lb
                /\ Z.of_nat (String.length (text lb)) < 2 ^ 1000.

Definition sane (e : event) : Prop :=
  0 < ev_width e < 2 ^ 1000 /\ 0 < ev_height e < 2 ^ 1000.

Lemma draw_new_size pick s win :
  p_pil s = true -> minimal_bg s = true -> minimal_win s = Some win ->
  (Z.max 1 (winfo_width win), Z.max 1 (winfo_height win)) <> _last_min_wallpaper_size s ->
  let s' := _draw_min_wallpaper false pick s in
  (exists c, composites s' = composites s ++ [c])
  /\ _last_min_wallpaper_size s' = (Z.max 1 (winfo_width win), Z.max 1 (winfo_height win))
  /\ p_pil s' = p_pil s /\ minimal_bg s' = minimal_bg s
  /\ minimal_label s' = minimal_label s /\ _last_min_h s' = _last_min_h s.
Proof.
  intros Hp Hb Hw Hne. unfold _draw_min_wallpaper. rewrite Hp, Hb, Hw. cbn [negb orb andb].
  assert (G : size_eqb (Z.max 1 (winfo_width win), Z.max 1 (winfo_height win))
                (_last_min_wallpaper_size s) = false).
  { destruct (size_eqb _ _) eqn:E; [|reflexivity]. apply size_eqb_eq in E. contradiction. }
  rewrite G. destruct (negb (truthy_str pick));
    cbn [set_composited set_store composites _last_min_wallpaper_size p_pil minimal_bg
         minimal_label _last_min_h]; repeat split; eauto.
Qed.

(** What one pass of [_draw_min_wallpaper] without [force] can do: nothing
    to the composites and the remembered size, or one composite, and
    then the canvas and PIL exist and the window's size is not the
    remembered one. It never touches the window. *)
Lemma draw_effect (pick : option string) (s : panel) :
  let s' := _draw_min_wallpaper false pick s in
  minimal_win s' = minimal_win s /\ p_pil s' = p_pil s /\ minimal_bg s' = minimal_bg s
  /\ ((composites s' = composites s
       /\ _last_min_wallpaper_size s' = _last_min_wallpaper_size s)
      \/ exists c win,
           minimal_win s = Some win
           /\ composites s' = composites s ++ [c]
           /\ c_size c = size_of win
           /\ _last_min_wallpaper_size s' = size_of win
           /\ size_of win <> _last_min_wallpaper_size s
           /\ p_pil s = true /\ minimal_bg s = true).
Proof.
  cbv zeta. unfold _draw_min_wallpaper.
  destruct (minimal_bg s) eqn:Hb; [|cbn; auto 6].
  destruct (p_pil s) eqn:Hp; [|cbn; auto 6].
  cbn [negb orb andb]. destruct (minimal_win s) as [win|] eqn:Hw; [|auto 6].
  destruct (size_eqb _ _) eqn:E; [rewrite Hw; auto 6|].
  assert (Hne : size_of win <> _last_min_wallpaper_size s).
  { intros H. apply size_eqb_eq in H. unfold size_of in H. congruence. }
  destruct (negb (truthy_str pick));
    cbn [set_composited set_store composites _last_min_wallpaper_size p_pil minimal_bg
         minimal_win];
    (repeat split; auto); right; eexists; exists win;
    (repeat split; auto).
Qed.

(** The same for the handler: it looks further only when the height in
    the event differs from the height in the event before, and the label
    exists. *)
Lemma configure_effect (e : event) (s : panel) :
  let s' := _on_minimal_configure e s in
  minimal_win s' = minimal_win s /\ p_pil s' = p_pil s /\ minimal_bg s' = minimal_bg s
  /\ ((composites s' = composites s
       /\ _last_min_wallpaper_size s' = _last_min_wallpaper_size s)
      \/ exists c win,
           minimal_win s = Some win
           /\ composites s' = composites s ++ [c]
           /\ c_size c = size_of win
           /\ _last_min_wallpaper_size s' = size_of win
           /\ size_of win <> _last_min_wallpaper_size s
           /\ ev_height e <> default 0 (_last_min_h s)
           /\ p_pil s = true /\ minimal_bg s = true
           /\ minimal_label s <> None).
Proof.
  cbv zeta. unfold _on_minimal_configure.
  destruct (Z.eqb_spec (ev_height e) (default 0 (_last_min_h s))) as [Eh|Eh];
    [cbn; auto 6|].
  cbn [set_last_min_h minimal_label].
  destruct (minimal_label s) as [lb|] eqn:El; [|cbn; auto 6].
  destruct (Typography._auto_font_minimal_by_wh _ _ _) as [f|]; [|cbn; auto 6].
  set (s1 := set_font f _).
  assert (H1 : minimal_win s1 = minimal_win s /\ p_pil s1 = p_pil s
               /\ minimal_bg s1 = minimal_bg s /\ composites s1 = composites s
               /\ _last_min_wallpaper_size s1 = _last_min_wallpaper_size s).
  { subst s1. unfold set_font. cbn [set_last_min_h minimal_label]. rewrite El.
    cbn. auto 6. }
  destruct H1 as (W1 & P1 & B1 & C1 & S1).
  destruct (draw_effect (ev_pick e) s1) as (W2 & P2 & B2 & [[C2 S2]|D]).
  - repeat split; try congruence. left. split; congruence.
  - destruct D as (c & win & Hw & Hc & Hsz & Hl & Hne & Hp & Hb).
    repeat split; try congruence. right. exists c, win.
    repeat split; congruence.
Qed.

Lemma configure_recomposites_when (e : event) (s : panel) (win : window) :
  ready s -> minimal_win s = Some win -> sane e ->
  ev_height e <> default 0 (_last_min_h s) ->
  size_of win <> _last_min_wallpaper_size s ->
  exists c, composites (_on_minimal_configure e s) = composites s ++ [c]
            /\ _last_min_wallpaper_size (_on_minimal_configure e s) = size_of win.
Proof.
  intros (Hp & Hb & lb & Hl & Ht) Hw [Hew Heh] Hh Hne.
  unfold _on_minimal_configure.
  destruct (Z.eqb_spec (ev_height e) (default 0 (_last_min_h s))) as [E|_];
    [contradiction|].
  cbn [set_last_min_h minimal_label]. rewrite Hl.
  destruct (fit_font_total (ev_width e) (ev_height e) (text lb) Hew Heh Ht) as (f & ->).
  set (s1 := set_font f _).
  assert (H1 : p_pil s1 = true /\ minimal_bg s1 = true /\ minimal_win s1 = Some win
               /\ _last_min_wallpaper_size s1 = _last_min_wallpaper_size s
               /\ composites s1 = composites s).
  { subst s1. unfold set_font. cbn [set_last_min_h minimal_label]. rewrite Hl.
    cbn. repeat split; auto. }
  destruct H1 as (P1 & B1 & W1 & S1 & C1).
  assert (Hne' : (Z.max 1 (winfo_width win), Z.max 1 (winfo_height win))
                 <> _last_min_wallpaper_size s1) by (rewrite S1; exact Hne).
  destruct (draw_new_size (ev_pick e) s1 win P1 B1 W1 Hne') as ((c & Hc) & Hs & _).
  exists c. split; [rewrite Hc, C1; reflexivity | exact Hs].
Qed.

Lemma run_step_frame (st : step) (s : panel) :
  p_pil (run_step st s) = p_pil s /\ minimal_bg (run_step st s) = minimal_bg s
  /\ (minimal_win s = None -> minimal_win (run_step st s) = None).
Proof.
  destruct st as [g|e]; cbn [run_step].
  - destruct (minimal_win s) eqn:E; cbn; repeat split; auto. discriminate.
  - destruct (configure_effect e s) as (W & P & B & _). repeat split; congruence.
Qed.

(** Without PIL or without the canvas nothing is ever composited. *)
Lemma no_image_support_no_composite (sts : list step) : forall s,
  p_pil s = false \/ minimal_bg s = false ->
  composites (run_steps sts s) = composites s.
Proof.
  induction sts as [|st sts IH]; intros s Hs; [reflexivity|].
  cbn [run_steps fold_left]. fold (run_steps sts (run_step st s)).
  destruct (run_step_frame st s) as (P & B & _).
  rewrite IH by (rewrite P, B; exact Hs).
  destruct st as [g|e]; cbn [run_step].
  - destruct (minimal_win s); reflexivity.
  - destruct (configure_effect e s) as (_ & _ & _ & [[C _]|D]); [exact C|].
    destruct D as (c & win & _ & _ & _ & _ & _ & _ & Hp & Hb & _).
    destruct Hs; congruence.
Qed.

(** Events and moves alone composite nothing. *)
Lemma run_steps_same_size (sts : list step) : forall s,
  (forall win, minimal_win s = Some win -> size_of win = _last_min_wallpaper_size s) ->
  Forall (keeps_size (_last_min_wallpaper_size s)) sts ->
  composites (run_steps sts s) = composites s.
Proof.
  induction sts as [|st sts IH]; intros s Hs Hk; [reflexivity|].
  cbn [run_steps fold_left]. fold (run_steps sts (run_step st s)).
  inversion Hk as [|? ? Hst Hrest]; subst.
  destruct st as [g|e]; cbn [run_step keeps_size] in *.
  - destruct (minimal_win s) as [w0|] eqn:Ew.
    + rewrite IH; [reflexivity| |exact Hrest].
      cbn [set_win minimal_win _last_min_wallpaper_size].
      intros win [= <-]. exact Hst.
    + apply IH; [|exact Hrest]. intros win Hw. rewrite Ew in Hw. discriminate.
  - destruct (configure_effect e s) as (W & _ & _ & [[C S]|D]).
    + rewrite IH; [exact C| |rewrite S; exact Hrest].
      intros win Hw. rewrite W in Hw. rewrite S. auto.
    + destruct D as (c & win & Hw & _ & _ & _ & Hne & _).
      exfalso. apply Hne, Hs, Hw.
Qed.

Definition unsynced (s : panel) (win : window) : nat :=
  if size_eqb (size_of win) (_last_min_wallpaper_size s) then 0 else 1.

(** At most one composite per change of the window's size, and one more
    if the window's size is not the remembered one to begin with. *)
Lemma run_steps_bound (sts : list step) : forall s win,
  minimal_win s = Some win ->
  (length (composites (run_steps sts s))
   <= length (composites s) + unsynced s win + size_changes (size_of win) sts)%nat.
Proof.
  induction sts as [|st sts IH]; intros s win Hw; [cbn; lia|].
  cbn [run_steps fold_left]. fold (run_steps sts (run_step st s)).
  destruct st as [g|e]; cbn [run_step size_changes].
  - rewrite Hw.
    specialize (IH (set_win (Some g) s) g eq_refl).
    cbn [set_win composites] in IH.
    assert (T : (unsynced (set_win (Some g) s) g
                 <= unsynced s win + (if size_eqb (size_of g) (size_of win) then 0 else 1))%nat).
    { unfold unsynced. cbn [set_win _last_min_wallpaper_size].
      destruct (size_eqb (size_of g) (_last_min_wallpaper_size s)) eqn:E1; [lia|].
      destruct (size_eqb (size_of win) (_last_min_wallpaper_size s)) eqn:E2; [|lia].
      destruct (size_eqb (size_of g) (size_of win)) eqn:E3; [|lia].
      apply size_eqb_eq in E2, E3. rewrite E3, E2 in E1.
      assert (size_eqb (_last_min_wallpaper_size s) (_last_min_wallpaper_size s) = true)
        by (apply size_eqb_eq; reflexivity).
      congruence. }
    lia.
  - destruct (configure_effect e s) as (W & _ & _ & [[C S]|D]).
    + specialize (IH (_on_minimal_configure e s) win ltac:(congruence)).
      unfold unsynced in *. rewrite S, C in IH. exact IH.
    + destruct D as (c & win' & Hw' & Hc & _ & Hl & Hne & _).
      assert (win' = win) by congruence. subst win'.
      specialize (IH (_on_minimal_configure e s) win ltac:(congruence)).
      unfold unsynced in *. rewrite Hl, Hc, length_app in IH. cbn [length] in IH.
      assert (E1 : size_eqb (size_of win) (size_of win) = true)
        by (apply size_eqb_eq; reflexivity).
      rewrite E1 in IH.
      destruct (size_eqb (size_of win) (_last_min_wallpaper_size s)) eqn:E2;
        [apply size_eqb_eq in E2; contradiction | lia].
Qed.

Definition image_panel : panel :=
  _open_minimal 1920 1080 "00:25:00" (Some "a.png"%string) closed_panel.

Definition geometry (w h : Z) : window * option string :=
  ({| winfo_x := 680; winfo_y := 410; winfo_width := w; winfo_height := h |},
   Some "a.png"%string).

(** The application before the panel is opened, PIL not installed. *)
Definition closed_panel_without_pil : panel := {|
  p_data := DEFAULT_DATA; p_fs := plain_fs; p_pil := false;
  minimal_win := None; minimal_label := None; minimal_bg := false;
  bindings := ∅; _drag_off := (0, 0); _last_min_h := None;
  _last_min_wallpaper_size := (0, 0); composites := []; applied := []
|}.

(** An event of the time label inside the panel: its own size. *)
Definition label_event (w h : Z) : event :=
  {| ev_x := 0; ev_y := 30; ev_width := w; ev_height := h; ev_delta := 0;
     ev_pick := Some "a.png"%string |}.

(** C2, as stated, fails: without PIL the panel opens and works, and no
    size change is ever composited. Here the window goes from 560x260 to
    600x300 and on to 640x360, with the toplevel's and the label's events
    delivered after each change; nothing is composited, and nothing would
    be whatever else were delivered. The guard is the first line of
    [_draw_min_wallpaper]. *)
Lemma resize_without_image_support_not_recomposited :
  let s0 := _open_minimal 1920 1080 "00:25:00" (Some "a.png"%string)
              closed_panel_without_pil in
  let sts := [ Resize (fst (geometry 600 300));
               Deliver (configure_event (fst (geometry 600 300)) (Some "a.png"%string));
               Deliver (label_event 600 240);
               Resize (fst (geometry 640 360));
               Deliver (configure_event (fst (geometry 640 360)) (Some "a.png"%string));
               Deliver (label_event 640 300) ] in
  option_map size_of (minimal_win s0) = Some (560, 260)
  /\ option_map size_of (minimal_win (run_steps sts s0)) = Some (640, 360)
  /\ size_changes (560, 260) sts = 2%nat
  /\ composites (run_steps sts s0) = []
  /\ (forall sts', composites (run_steps sts' s0) = []).
Proof.
  cbv zeta. split; [vm_compute; reflexivity|]. split; [vm_compute; reflexivity|].
  split; [vm_compute; reflexivity|]. split; [vm_compute; reflexivity|].
  intros sts'. rewrite no_image_support_no_composite; [vm_compute; reflexivity|].
  left. vm_compute. reflexivity.
Qed.

(** C2 (amended): an event that arrives while the window's size is the
    size of the last composite triggers no recomposite, so a sequence of
    events and moves triggers none. An event triggers a recomposite only
    if PIL, the canvas and the time label exist, the height it reports
    differs from the height in the event handled before it, and the
    window's size differs from the size of the last composite; on a
    fully built panel it then does trigger exactly one, at the window's
    size. So any sequence of events and geometry changes triggers at most
    one recomposite per change of the window's size (one more if the
    window's size was not the composited one to begin with), and none
    without PIL or the canvas. *)
Theorem configure_recomposite_gates (s : panel) (sts : list step) :
  (forall e win,
      minimal_win s = Some win ->
      size_of win = _last_min_wallpaper_size s ->
      composites (_on_minimal_configure e s) = composites s)
  /\ ((forall win, minimal_win s = Some win -> size_of win = _last_min_wallpaper_size s) ->
      Forall (keeps_size (_last_min_wallpaper_size s)) sts ->
      composites (run_steps sts s) = composites s)
  /\ (forall e,
        composites (_on_minimal_configure e s) = composites s
        \/ exists c win,
             minimal_win s = Some win
             /\ composites (_on_minimal_configure e s) = composites s ++ [c]
             /\ c_size c = size_of win
             /\ size_of win <> _last_min_wallpaper_size s
             /\ ev_height e <> default 0 (_last_min_h s)
             /\ p_pil s = true /\ minimal_bg s = true /\ minimal_label s <> None)
  /\ (forall e win,
        ready s -> minimal_win s = Some win -> sane e ->
        ev_height e <> default 0 (_last_min_h s) ->
        size_of win <> _last_min_wallpaper_size s ->
        exists c, composites (_on_minimal_configure e s) = composites s ++ [c]
                  /\ _last_min_wallpaper_size (_on_minimal_configure e s) = size_of win)
  /\ (forall win,
        minimal_win s = Some win ->
        (length (composites (run_steps sts s))
         <= length (composites s)
            + (if size_eqb (size_of win) (_last_min_wallpaper_size s) then 0 else 1)
            + size_changes (size_of win) sts)%nat)
  /\ (p_pil s = false \/ minimal_bg s = false ->
      composites (run_steps sts s) = composites s).
Proof.
  split; [|split; [|split; [|split; [|split]]]].
  - intros e win Hw Hs. apply (configure_same_size e s win Hw Hs).
  - apply run_steps_same_size.
  - intros e. destruct (configure_effect e s) as (_ & _ & _ & [[C _]|D]); [left; exact C|].
    destruct D as (c & win & Hw & Hc & Hsz & _ & Hne & Hh & Hp & Hb & Hl).
    right. exists c, win. repeat split; assumption.
  - intros e win. apply configure_recomposites_when.
  - intros win Hw. apply (run_steps_bound sts s win Hw).
  - apply no_image_support_no_composite.
Qed.

(** A width-only resize, seen through the label's event: the panel was
    composited at 560x260 and last heard a height of 260; the window is
    made 600 wide, and the label's event, 240 high, passes the height
    gate and the size gate. *)
Lemma configure_recomposite_gates_witness :
  let s1 := run_steps [ Deliver (configure_event (fst (geometry 560 260))
                                   (Some "a.png"%string));
                        Resize (fst (geometry 600 260)) ] image_panel in
  exists c, composites (_on_minimal_configure (label_event 600 240) s1)
            = composites s1 ++ [c]
            /\ _last_min_wallpaper_size (_on_minimal_configure (label_event 600 240) s1)
               = (600, 260).
Proof.
  intros s1.
  apply (proj1 (proj2 (proj2 (proj2 (configure_recomposite_gates s1 []))))
           (label_event 600 240) (fst (geometry 600 260))).
  - split; [vm_compute; reflexivity|]. split; [vm_compute; reflexivity|].
    exists {| text := "00:25:00"; font_size := 56 |}.
    split; [vm_compute; reflexivity | cbn [text String.length]; lia].
  - vm_compute. reflexivity.
  - split; cbn [label_event ev_width ev_height]; lia.
  - vm_compute. discriminate.
  - vm_compute. discriminate.
Defined.

End PanelFacts.

(** ** Timer engine *)

Module TimerFacts.
Import Timer.


(** Every exit of [_finish_session] goes through [finished]. *)
Lemma finish_session_finished now used t :
  exists d fs lbl, _finish_session now used t = finished t d fs lbl.
Proof.
  unfold _finish_session.
  destruct (tasks (t_data t)) as [[|[k0 t0] rest]|]; eauto.
  destruct (0 <? used); eauto.
  destruct (save_data _ _); eauto.
Qed.

Lemma used_of_nonneg t hms : 0 <= used_of t hms.
Proof. unfold used_of. destruct hms as [[h m] s]. lia. Qed.

Definition two_digits_ok (k : nat) : bool :=
  let n := Z.of_nat k in
  match two_digits n with
  | String a (String b EmptyString) =>
      negb (Ascii.eqb a ":") && negb (Ascii.eqb b ":")
      && match int_of_str (String a (String b EmptyString)) with
         | Returned v => v =? n
         | Raised _ => false
         end
  | _ => false
  end.

Lemma two_digits_shape n :
  0 <= n < 100 ->
  exists a b, two_digits n = String a (String b EmptyString)
              /\ Ascii.eqb a ":" = false /\ Ascii.eqb b ":" = false
              /\ int_of_str (String a (String b EmptyString)) = Returned n.
Proof.
  intros Hn.
  assert (All : forallb two_digits_ok (seq 0 100) = true) by (vm_compute; reflexivity).
  rewrite forallb_forall in All.
  assert (H : two_digits_ok (Z.to_nat n) = true) by (apply All, in_seq; lia).
  clear All. unfold two_digits_ok in H. rewrite Z2Nat.id in H by lia.
  destruct (two_digits n) as [|a [|b [|]]]; try discriminate H.
  apply andb_prop in H as [H Hv]. apply andb_prop in H as [Ha Hb].
  apply negb_true_iff in Ha, Hb.
  destruct (int_of_str (String a (String b EmptyString))) as [v|] eqn:Ev; [|discriminate].
  apply Z.eqb_eq in Hv. subst v. exists a, b. repeat split; assumption.
Qed.

(** What [_render_time] shows, [stop_timer] reads back: the time of day
    of the rendered second count. *)
Lemma parse_strftime sec :
  0 <= sec ->
  parse_hms (strftime_hms sec)
  = Returned (sec mod 86400 / 3600, sec mod 3600 / 60, sec mod 60).
Proof.
  intros Hs. unfold strftime_hms.
  assert (H1 : 0 <= sec mod 86400 / 3600 < 100).
  { pose proof (Z.mod_pos_bound sec 86400 ltac:(lia)).
    split; [apply Z.div_pos; lia|]. apply Z.div_lt_upper_bound; lia. }
  assert (H2 : 0 <= sec mod 3600 / 60 < 100).
  { pose proof (Z.mod_pos_bound sec 3600 ltac:(lia)).
    split; [apply Z.div_pos; lia|]. apply Z.div_lt_upper_bound; lia. }
  assert (H3 : 0 <= sec mod 60 < 100).
  { pose proof (Z.mod_pos_bound sec 60 ltac:(lia)). lia. }
  destruct (two_digits_shape _ H1) as (a1 & a2 & -> & A1 & A2 & P1).
  destruct (two_digits_shape _ H2) as (b1 & b2 & -> & B1 & B2 & P2).
  destruct (two_digits_shape _ H3) as (c1 & c2 & -> & C1 & C2 & P3).
  unfold parse_hms. cbv [String.append]. cbn [Py.split].
  rewrite A1, A2, B1, B2, C1, C2. cbn [Py.split Ascii.eqb Bool.eqb].
  rewrite P1, P2, P3. reflexivity.
Qed.

Definition running_timer (beep_on : bool) (shown : string) : timer := {|
  t_data := {| wallpaper_color_cache := Some ∅;
               wallpaper_fit_pct := Some 92;
               wallpaper_min_fit_pct := Some 92;
               minimal_pos := None;
               minimal_size := Some (560, 260);
               minimal_notes_memory := Some EmptyString;
               notes_save_path := None;
               beep := Some beep_on;
               tasks := Some [("math"%string, {| total := Some 0; target := Some 1500 |})];
               sessions := Some [] |};
  t_fs := SamplerFacts.fs_images true;
  _timer_running := true;
  _timer_paused := false;
  _mode := Countdown;
  _countdown_seconds := 1500;
  timer_label := shown;
  task_var := Some "math"%string;
  btn_start := DISABLED;
  btn_pause := NORMAL;
  btn_pause_text := CaptionPause;
  btn_stop := NORMAL;
  alarms := 0
|}.




End TimerFacts.

(** ** Notes save *)

Module NotesFacts.
Import Notes.

Lemma is_space2_NL (a : ascii) : is_space2 a (ascii_of_nat 10) = false.
Proof.
  unfold is_space2. cbv zeta. destruct (N_of_ascii a =? 194)%N; reflexivity.
Qed.

Lemma is_space3_NL (a b : ascii) : is_space3 a b (ascii_of_nat 10) = false.
Proof.
  unfold is_space3. cbv zeta.
  destruct (N_of_ascii a =? 225)%N, (N_of_ascii a =? 226)%N, (N_of_ascii a =? 227)%N,
           (N_of_ascii b =? 154)%N, (N_of_ascii b =? 128)%N, (N_of_ascii b =? 129)%N;
    reflexivity.
Qed.

Lemma append_nonempty_NL (t : string) : String.eqb (t ++ NL) "" = false.
Proof. destruct t; reflexivity. Qed.

(** The widget's final newline is white space for [strip] and [int]
    alike, and completes no wider white-space character. *)
Lemma lstrip_with_app_NL (one : ascii -> bool) :
  one (ascii_of_nat 10) = true ->
  forall s,
    lstrip_with one (s ++ NL)
    = if String.eqb (lstrip_with one s) "" then EmptyString
      else (lstrip_with one s ++ NL)%string.
Proof.
  intros HNL s. remember (String.length s) as n eqn:Hn. revert s Hn.
  induction n as [n IH] using lt_wf_ind. intros s Hn.
  destruct s as [|a r].
  - change (lstrip_with one NL = EmptyString). unfold NL. cbn [lstrip_with].
    rewrite HNL. reflexivity.
  - change (String a r ++ NL)%string with (String a (r ++ NL))%string.
    cbn [lstrip_with]. destruct (one a) eqn:Ea.
    { apply (IH (String.length r)); [subst n; cbn [String.length]; lia | reflexivity]. }
    destruct r as [|b r2].
    { change (EmptyString ++ NL)%string with (String (ascii_of_nat 10) EmptyString).
      cbv beta iota. rewrite is_space2_NL. reflexivity. }
    change (String b r2 ++ NL)%string with (String b (r2 ++ NL))%string.
    cbv beta iota. destruct (is_space2 a b) eqn:E2.
    { apply (IH (String.length r2)); [subst n; cbn [String.length]; lia | reflexivity]. }
    destruct r2 as [|c r3].
    { change (EmptyString ++ NL)%string with (String (ascii_of_nat 10) EmptyString).
      cbv beta iota. rewrite is_space3_NL. reflexivity. }
    change (String c r3 ++ NL)%string with (String c (r3 ++ NL))%string.
    cbv beta iota. destruct (is_space3 a b c) eqn:E3.
    { apply (IH (String.length r3)); [subst n; cbn [String.length]; lia | reflexivity]. }
    reflexivity.
Qed.

Lemma rstrip_with_app_NL (one : ascii -> bool) :
  one (ascii_of_nat 10) = true ->
  forall s, rstrip_with one (s ++ NL) = rstrip_with one s.
Proof.
  intros HNL s. induction s as [|a r IH].
  - change (rstrip_with one NL = EmptyString). unfold NL. cbn [rstrip_with lstrip_with].
    rewrite HNL. reflexivity.
  - change (String a r ++ NL)%string with (String a (r ++ NL))%string.
    cbn [rstrip_with].
    change (String a (r ++ NL))%string with (String a r ++ NL)%string.
    rewrite (lstrip_with_app_NL one HNL (String a r)), IH.
    destruct (String.eqb (lstrip_with one (String a r)) "") eqn:E; [reflexivity|].
    rewrite append_nonempty_NL. reflexivity.
Qed.

Lemma rstrip_app_NL (s : string) : rstrip (s ++ NL) = rstrip s.
Proof. apply (rstrip_with_app_NL is_space). reflexivity. Qed.

(** The widget's final newline does not survive [strip]. *)
Lemma strip_app_NL (s : string) : strip (s ++ NL) = strip s.
Proof.
  unfold strip, lstrip. rewrite (lstrip_with_app_NL is_space eq_refl s).
  destruct (String.eqb (lstrip_with is_space s) "") eqn:E.
  - apply String.eqb_eq in E. rewrite E. reflexivity.
  - apply rstrip_app_NL.
Qed.

(** [strip] takes the wide white space of [str.isspace] with it: here a
    no-break space and a tab in front, an ideographic space and the
    widget's newline behind. [int] is stricter about U+001C. *)
Example strip_removes_wide_spaces :
  strip (of_utf8 [0xC2; 0xA0; 0x09; 0x61; 0x20; 0x62; 0xE3; 0x80; 0x80; 0x0A]%N)
  = "a b"%string
  /\ int_of_str (of_utf8 [0xC2; 0xA0; 0x35; 0x0A]%N) = Returned 5
  /\ strip (of_utf8 [0x1C; 0x35]%N) = "5"%string
  /\ int_of_str (of_utf8 [0x1C; 0x35]%N) = Raised ValueError.
Proof. vm_compute. repeat split; reflexivity. Qed.

Definition notes_data (path : option string) : data := {|
  wallpaper_color_cache := Some ∅;
  wallpaper_fit_pct := Some 92;
  wallpaper_min_fit_pct := Some 92;
  minimal_pos := None;
  minimal_size := Some (560, 260);
  minimal_notes_memory := Some EmptyString;
  notes_save_path := path;
  beep := Some true;
  tasks := Some [];
  sessions := Some []
|}.

Definition editing (path : option string) (content : string) : notes_ui := {|
  n_data := notes_data path;
  n_fs := SamplerFacts.fs_images true;
  minimal_notes := Some content;
  boxes := []
|}.

(** C7, as stated, fails: the draft is the edit text with the white
    space around it removed, not the edit text itself. *)
Lemma notes_draft_is_stripped :
  let s := editing (Some "notes.txt"%string) " a" in
  let s' := _save_notes_to_file "2025-01-01 10:00:00" s in
  minimal_notes s' = Some EmptyString
  /\ minimal_notes_memory (n_data s') = Some "a"%string
  /\ minimal_notes_memory (n_data s') <> minimal_notes s.
Proof. vm_compute. repeat split; try reflexivity. discriminate. Qed.

(** C7 (amended): when the store can be saved, a save action leaves the
    draft equal to the pre-save edit text with the surrounding white
    space stripped; with a save path configured and the file written the
    edit region is emptied afterwards and the time-stamped block is
    appended to the file; with no save path configured the edit region
    is unchanged and a warning is shown. *)
Theorem notes_save_asymmetry (ts content : string) (s : notes_ui) :
  minimal_notes s = Some content ->
  fs_writable (n_fs s) = true ->
  let s' := _save_notes_to_file ts s in
  minimal_notes_memory (n_data s') = Some (strip content)
  /\ (forall p,
        notes_save_path (n_data s) = Some p -> p <> EmptyString ->
        fs_appendable (n_fs s) p = true ->
        minimal_notes s' = Some EmptyString
        /\ boxes s' = boxes s
        /\ fs_files (n_fs s') !! p
           = Some (default EmptyString (fs_files (n_fs s) !! p)
                   ++ "[" ++ ts ++ "]" ++ NL ++ strip content ++ NL ++ NL)%string)
  /\ (truthy_str (notes_save_path (n_data s)) = false ->
      minimal_notes s' = Some content
      /\ boxes s' = boxes s ++ [ShowWarning]
      /\ fs_files (n_fs s') = fs_files (n_fs s)).
Proof.
  intros Hc Hw s'. subst s'. unfold _save_notes_to_file, save_data.
  rewrite Hc, Hw, strip_app_NL.
  cbn [set_minimal_notes_memory notes_save_path].
  split; [|split].
  - destruct (truthy_str (notes_save_path (n_data s))); [|reflexivity].
    destruct (append_file _ _ _); reflexivity.
  - intros p Hp Hne Happ. rewrite Hp.
    assert (Ht : truthy_str (Some p) = true).
    { cbn [truthy_str]. destruct (String.eqb_spec p ""); [contradiction | reflexivity]. }
    rewrite Ht. cbn [default from_option id]. unfold append_file.
    cbn [with_saved fs_appendable fs_files]. rewrite Happ.
    cbn [minimal_notes boxes n_fs with_files fs_files].
    repeat split. apply lookup_insert_eq.
  - intros Ht. rewrite Ht. cbn [minimal_notes boxes n_fs with_saved fs_files].
    repeat split.
Qed.

Lemma notes_save_asymmetry_witness :
  let s := editing None "call Bob " in
  let s' := _save_notes_to_file "2025-01-01 10:00:00" s in
  minimal_notes_memory (n_data s') = Some (strip "call Bob ")
  /\ minimal_notes s' = Some "call Bob "%string
  /\ boxes s' = boxes s ++ [ShowWarning].
Proof.
  pose proof (notes_save_asymmetry "2025-01-01 10:00:00" "call Bob "
                (editing None "call Bob ") eq_refl eq_refl) as (H1 & _ & H3).
  destruct (H3 eq_refl) as (H4 & H5 & _). repeat split; assumption.
Defined.

End NotesFacts.

(** ** Timer controls and the countdown worker *)

Module TimerControlsFacts.
Import Timer TimerControls TimerFacts.

Lemma timer_eta (t : timer) :
  t = {| t_data := t_data t; t_fs := t_fs t;
         _timer_running := _timer_running t; _timer_paused := _timer_paused t;
         _mode := _mode t; _countdown_seconds := _countdown_seconds t;
         timer_label := timer_label t; task_var := task_var t;
         btn_start := btn_start t; btn_pause := btn_pause t;
         btn_pause_text := btn_pause_text t; btn_stop := btn_stop t;
         alarms := alarms t |}.
Proof. destruct t. reflexivity. Qed.

(** X1: a second Stop does nothing: the first one has cleared the running
    flag (or, when the label could not be read, changed nothing). *)
Theorem stop_timer_idempotent (now1 now2 : Z) (t : timer) :
  stop_timer now2 (stop_timer now1 t) = stop_timer now1 t.
Proof.
  unfold stop_timer at 2 3.
  destruct (_timer_running t) eqn:Hr; cbn [negb].
  - destruct (parse_hms (timer_label t)) as [hms|e] eqn:Hp.
    + destruct (finish_session_finished now1 (used_of t hms) t) as (d & fs & lbl & ->).
      reflexivity.
    + unfold stop_timer. rewrite Hr, Hp. reflexivity.
  - unfold stop_timer. rewrite Hr. reflexivity.
Qed.

(** X2: pause and resume: while the timer runs and the pause button shows
    the caption that goes with the paused flag, pausing twice gives the
    state back; pausing never touches the store, the label, the running
    flag or the other buttons, and does nothing when the timer is idle. *)
Theorem pause_timer_toggles (t : timer) :
  (btn_pause_text t = caption_of (_timer_paused t) ->
   pause_timer (pause_timer t) = t)
  /\ (_timer_running t = true ->
      _timer_paused (pause_timer t) = negb (_timer_paused t)
      /\ btn_pause_text (pause_timer t) = caption_of (negb (_timer_paused t)))
  /\ (_timer_running t = false -> pause_timer t = t)
  /\ t_data (pause_timer t) = t_data t
  /\ timer_label (pause_timer t) = timer_label t
  /\ _timer_running (pause_timer t) = _timer_running t
  /\ alarms (pause_timer t) = alarms t.
Proof.
  destruct t as [d fs run paused md cs lbl tv b1 b2 cap b3 al].
  unfold pause_timer. cbn [_timer_running _timer_paused btn_pause_text t_data
                           timer_label alarms].
  destruct run; cbn [negb]; repeat split; try discriminate.
  intros ->. cbn. rewrite negb_involutive. reflexivity.
Qed.

Lemma pause_timer_toggles_witness :
  pause_timer (pause_timer (running_timer true "00:15:00")) = running_timer true "00:15:00".
Proof.
  apply (proj1 (pause_timer_toggles (running_timer true "00:15:00"))). reflexivity.
Defined.


Lemma hms_recompose (sec : Z) :
  0 <= sec ->
  sec mod 86400 / 3600 * 3600 + sec mod 3600 / 60 * 60 + sec mod 60 = sec mod 86400.
Proof. intros H. Z.div_mod_to_equations. lia. Qed.

Lemma stop_timer_of_label (now shown : Z) (t : timer) :
  _timer_running t = true ->
  0 <= shown ->
  timer_label t = strftime_hms shown ->
  stop_timer now t
  = _finish_session now
      (match _mode t with
       | Countdown => Z.max 0 (_countdown_seconds t - shown mod 86400)
       | CountUp => shown mod 86400
       end) t.
Proof.
  intros Hr Hs Hl. unfold stop_timer. rewrite Hr, Hl, (parse_strftime shown Hs).
  cbn [negb used_of]. rewrite (hms_recompose shown Hs).
  destruct (_mode t); [reflexivity|].
  pose proof (Z.mod_pos_bound shown 86400 ltac:(lia)). rewrite Z.max_r by lia. reflexivity.
Qed.

(** X3: stop computes the elapsed time from what the label shows. When the
    label was rendered from a second count [shown], a count-up session
    is recorded with [shown mod 86400] seconds (the label has no day
    field) and a countdown with the target minus that, never negative. *)
Theorem stop_reads_back_rendered_time (now shown : Z) (t : timer) :
  _timer_running t = true ->
  0 <= shown ->
  timer_label t = strftime_hms shown ->
  stop_timer now t
  = _finish_session now
      (match _mode t with
       | Countdown => Z.max 0 (_countdown_seconds t - shown mod 86400)
       | CountUp => shown mod 86400
       end) t.
Proof.
  intros Hr Hs Hl. unfold stop_timer. rewrite Hr, Hl, (parse_strftime shown Hs).
  cbn [negb used_of]. rewrite (hms_recompose shown Hs).
  destruct (_mode t); [reflexivity|].
  pose proof (Z.mod_pos_bound shown 86400 ltac:(lia)). rewrite Z.max_r by lia. reflexivity.
Qed.

Lemma stop_reads_back_rendered_time_witness :
  stop_timer 1000000 (running_timer true (strftime_hms 900))
  = _finish_session 1000000 (Z.max 0 (1500 - 900 mod 86400))
      (running_timer true (strftime_hms 900)).
Proof.
  apply (stop_reads_back_rendered_time 1000000 900 (running_timer true (strftime_hms 900)));
    [reflexivity | lia | reflexivity].
Defined.

Lemma finish_session_zero now t :
  _finish_session now (Z.max 0 0) t
  = finished t (t_data t) (t_fs t) (strftime_hms (Z.max 0 0)).
Proof.
  unfold _finish_session. destruct (tasks (t_data t)) as [[|[k0 t0] rest]|]; reflexivity.
Qed.

Definition idle_timer : timer := stop_timer 0 (running_timer true "00:25:00").

(** *** Bookkeeping of [_finish_session] *)

Definition totals_sum (ts : list (string * task)) : Z :=
  fold_right (fun kv acc => default 0 (total (snd kv)) + acc) 0 ts.

Lemma add_total_keys k used ts : map fst (add_total k used ts) = map fst ts.
Proof.
  induction ts as [|[k' t'] ts IH]; [reflexivity|].
  cbn [add_total]. destruct (String.eqb k' k); cbn [map fst]; [reflexivity|].
  rewrite IH. reflexivity.
Qed.

Lemma add_total_sum k used ts :
  has_key k ts = true -> totals_sum (add_total k used ts) = totals_sum ts + used.
Proof.
  induction ts as [|[k' t'] ts IH]; [discriminate|].
  cbn [has_key existsb fst add_total]. destruct (String.eqb k' k) eqn:E.
  - intros _. cbn [totals_sum fold_right snd total]. cbn. lia.
  - cbn [orb]. intros H. cbn [totals_sum fold_right snd]. fold (totals_sum ts).
    fold (totals_sum (add_total k used ts)). rewrite (IH H). lia.
Qed.

(** X5: when a session is recorded, exactly its seconds are added to the
    task totals: the task names and their order stay as they were, the
    sum of all totals grows by the recorded seconds, and one session is
    appended. *)
Theorem finish_session_bookkeeping (now used : Z) (t : timer)
    (ts : list (string * task)) :
  0 < used ->
  tasks (t_data t) = Some ts ->
  ts <> [] ->
  exists ts',
    tasks (t_data (_finish_session now used t)) = Some ts'
    /\ map fst ts' = map fst ts
    /\ totals_sum ts' = totals_sum ts + used
    /\ option_map (@length session) (sessions (t_data (_finish_session now used t)))
       = Some (S (length (default [] (sessions (t_data t))))).
Proof.
  intros Hu Ht Hne. destruct ts as [|[k0 t0] rest]; [congruence|].
  unfold _finish_session. rewrite Ht. apply Z.ltb_lt in Hu. rewrite Hu.
  set (k := match task_var t with
            | Some v => if has_key v ((k0, t0) :: rest) then v else k0
            | None => k0
            end).
  assert (Hk : has_key k ((k0, t0) :: rest) = true).
  { subst k. destruct (task_var t) as [v|].
    - destruct (has_key v ((k0, t0) :: rest)) eqn:Hv; [exact Hv|].
      cbn [has_key existsb fst]. rewrite String.eqb_refl. reflexivity.
    - cbn [has_key existsb fst]. rewrite String.eqb_refl. reflexivity. }
  exists (add_total k used ((k0, t0) :: rest)).
  unfold save_data. destruct (fs_writable (t_fs t));
    cbn [finished t_data set_tasks_sessions tasks sessions option_map];
    rewrite add_total_keys, (add_total_sum _ _ _ Hk), length_app; cbn [length];
    repeat split; f_equal; lia.
Qed.

Lemma finish_session_bookkeeping_witness :
  exists ts',
    tasks (t_data (_finish_session 1000000 600 (running_timer true "00:15:00"))) = Some ts'
    /\ map fst ts' = map fst [("math"%string, {| total := Some 0; target := Some 1500 |})]
    /\ totals_sum ts'
       = totals_sum [("math"%string, {| total := Some 0; target := Some 1500 |})] + 600
    /\ option_map (@length session)
         (sessions (t_data (_finish_session 1000000 600 (running_timer true "00:15:00"))))
       = Some (S (length (default [] (sessions (t_data (running_timer true "00:15:00")))))).
Proof.
  apply (finish_session_bookkeeping 1000000 600 (running_timer true "00:15:00")
           [("math"%string, {| total := Some 0; target := Some 1500 |})]);
    [lia | reflexivity | discriminate].
Defined.

(** *** The countdown worker *)

(** [k] renders counting down from [remain - 1]. *)
Fixpoint renders_from (remain : Z) (k : nat) : list posted :=
  match k with
  | O => []
  | S k' => PostRender (remain - 1) :: renders_from (remain - 1) k'
  end.

Lemma countdown_loop_shape (total : Z) (obs : list (bool * bool)) : forall remain,
  exists k,
    Z.of_nat k <= Z.max 0 remain
    /\ countdown_loop total remain obs
       = (renders_from remain k
          ++ (if snd (countdown_loop total remain obs)
              then [PostFinish (total - remain + Z.of_nat k)] else []),
          snd (countdown_loop total remain obs)).
Proof.
  induction obs as [|[running paused] obs IH]; intros remain; cbn [countdown_loop].
  - exists O. cbn. split; [lia | reflexivity].
  - destruct (running && (0 <? remain)) eqn:Hc.
    + apply andb_prop in Hc as [_ Hpos]. apply Z.ltb_lt in Hpos.
      destruct paused; cbn [negb].
      * apply IH.
      * destruct (IH (remain - 1)) as (k & Hk & E).
        destruct (countdown_loop total (remain - 1) obs) as [ps ended].
        cbn [snd] in E |- *. exists (S k). split; [lia|].
        injection E as ->. cbn [renders_from app]. do 3 f_equal.
        destruct ended; [|reflexivity]. do 2 f_equal. lia.
    + exists O. cbn [renders_from app snd]. split; [lia|].
      do 3 f_equal. lia.
Qed.

Lemma countdown_loop_uninterrupted (total : Z) (n : nat) : forall remain,
  0 <= remain < Z.of_nat n ->
  countdown_loop total remain (repeat (true, false) n)
  = (renders_from remain (Z.to_nat remain) ++ [PostFinish total], true).
Proof.
  induction n as [|n IH]; intros remain Hr; [lia|].
  cbn [repeat countdown_loop andb negb].
  destruct (Z.ltb_spec 0 remain) as [Hpos|Hz].
  - rewrite (IH (remain - 1)) by lia.
    replace (Z.to_nat remain) with (S (Z.to_nat (remain - 1))) by lia.
    reflexivity.
  - assert (remain = 0) by lia. subst remain. cbn. rewrite Z.sub_0_r. reflexivity.
Qed.

(** The turns of [pre] on which the timer is not paused. *)
Definition unpaused (pre : list (bool * bool)) : nat :=
  length (List.filter (fun o => negb (snd o)) pre).

(** While the flag reads running and fewer unpaused turns have passed
    than seconds remain, the worker has posted one render per unpaused
    turn and goes on with what follows. *)
Lemma countdown_loop_running (total : Z) (pre rest : list (bool * bool)) :
  Forall (fun o => fst o = true) pre ->
  forall remain, Z.of_nat (unpaused pre) < remain ->
  countdown_loop total remain (pre ++ rest)
  = (renders_from remain (unpaused pre)
     ++ fst (countdown_loop total (remain - Z.of_nat (unpaused pre)) rest),
     snd (countdown_loop total (remain - Z.of_nat (unpaused pre)) rest)).
Proof.
  induction pre as [|[running paused] pre IH]; intros Hp remain Hk.
  - cbn [app unpaused List.filter length renders_from Z.of_nat]. rewrite Z.sub_0_r.
    destruct (countdown_loop total remain rest). reflexivity.
  - apply List.Forall_cons_iff in Hp as [Hr Hp']. cbn [fst] in Hr. subst running.
    cbn [app countdown_loop andb].
    destruct (Z.ltb_spec 0 remain) as [_|Hz];
      [|unfold unpaused in Hk; cbn [List.filter snd] in Hk; lia].
    destruct paused; cbn [negb].
    + apply (IH Hp' remain). exact Hk.
    + assert (E : unpaused ((true, false) :: pre) = S (unpaused pre)) by reflexivity.
      rewrite E in *. rewrite (IH Hp' (remain - 1)) by lia.
      replace (remain - 1 - Z.of_nat (unpaused pre))
        with (remain - Z.of_nat (S (unpaused pre))) by lia.
      reflexivity.
Qed.

(** When exactly the remaining seconds have been ticked off, the next
    turn ends the loop, paused or not. *)
Lemma countdown_loop_runs_out (total : Z) (o : bool * bool) (post : list (bool * bool)) :
  forall pre, Forall (fun x => fst x = true) pre ->
  forall remain, Z.of_nat (unpaused pre) = remain ->
  countdown_loop total remain (pre ++ o :: post)
  = (renders_from remain (unpaused pre) ++ [PostFinish total], true).
Proof.
  induction pre as [|[running paused] pre IH]; intros Hp remain Hk.
  - cbn [unpaused List.filter length Z.of_nat] in Hk. subst remain.
    cbn [app unpaused List.filter length renders_from countdown_loop].
    destruct o as [running paused]. rewrite andb_false_r, Z.sub_0_r. reflexivity.
  - apply List.Forall_cons_iff in Hp as [Hr Hp']. cbn [fst] in Hr. subst running.
    cbn [app countdown_loop andb].
    destruct paused.
    + assert (E : unpaused ((true, true) :: pre) = unpaused pre) by reflexivity.
      rewrite E in *. destruct (Z.ltb_spec 0 remain) as [Hpos|Hz]; cbn [negb].
      * apply (IH Hp' remain Hk).
      * assert (unpaused pre = O) by lia. assert (remain = 0) by lia. subst remain.
        rewrite H. cbn [renders_from app]. rewrite Z.sub_0_r. reflexivity.
    + assert (E : unpaused ((true, false) :: pre) = S (unpaused pre)) by reflexivity.
      rewrite E in *. destruct (Z.ltb_spec 0 remain) as [Hpos|Hz]; [|lia]. cbn [negb].
      rewrite (IH Hp' (remain - 1)) by lia. reflexivity.
Qed.

(** X6: the countdown worker ticks only on unpaused turns. While the
    flag reads running, after any turns of which [k] were unpaused, with
    [k] less than the countdown, it has posted exactly the [k] renders
    [total - 1 .. total - k] and is still looping; if the next turn
    reads the flag cleared it posts one [_finish_session(k)] and ends;
    and once [k] equals the countdown the next turn ends the loop with
    [_finish_session(total)] whatever it reads. On any turns at all, the
    seconds it finishes with are the renders it posted. *)
Theorem countdown_worker_counts_unpaused_turns (total : Z)
    (pre post : list (bool * bool)) (o : bool * bool) :
  Forall (fun x => fst x = true) pre ->
  (Z.of_nat (unpaused pre) < total ->
     countdown_run total pre = (renders_from total (unpaused pre), false)
     /\ (fst o = false ->
         countdown_run total (pre ++ o :: post)
         = (renders_from total (unpaused pre) ++ [PostFinish (Z.of_nat (unpaused pre))],
            true)))
  /\ (Z.of_nat (unpaused pre) = total ->
      countdown_run total (pre ++ o :: post)
      = (renders_from total (unpaused pre) ++ [PostFinish total], true))
  /\ (forall obs, exists k,
        Z.of_nat k <= Z.max 0 total
        /\ countdown_run total obs
           = (renders_from total k
              ++ (if snd (countdown_run total obs) then [PostFinish (Z.of_nat k)] else []),
              snd (countdown_run total obs))).
Proof.
  intros Hp. split; [|split].
  - intros Hk. split.
    + unfold countdown_run.
      pose proof (countdown_loop_running total pre [] Hp total Hk) as E.
      rewrite app_nil_r in E. rewrite E. cbn [countdown_loop fst snd].
      rewrite app_nil_r. reflexivity.
    + intros Ho. unfold countdown_run.
      rewrite (countdown_loop_running total pre (o :: post) Hp total Hk).
      destruct o as [running paused]. cbn [fst] in Ho. subst running.
      cbn [countdown_loop andb fst snd].
      replace (total - (total - Z.of_nat (unpaused pre)))
        with (Z.of_nat (unpaused pre)) by lia.
      reflexivity.
  - intros Hk. unfold countdown_run. apply countdown_loop_runs_out; assumption.
  - intros obs. unfold countdown_run.
    destruct (countdown_loop_shape total obs total) as (k & Hk & E).
    exists k. split; [exact Hk|]. rewrite E at 1.
    replace (total - total + Z.of_nat k) with (Z.of_nat k) by lia. reflexivity.
Qed.

Lemma countdown_worker_counts_unpaused_turns_witness :
  countdown_run 3 ([(true, false); (true, true); (true, true); (true, false)]
                   ++ (false, false) :: [(true, false)])
  = (renders_from 3 2 ++ [PostFinish 2], true).
Proof.
  apply (proj2 (proj1 (countdown_worker_counts_unpaused_turns 3
                         [(true, false); (true, true); (true, true); (true, false)]
                         [(true, false)] (false, false)
                         ltac:(repeat constructor))
                  ltac:(change (2 < 3); lia))).
  reflexivity.
Defined.

Lemma countdown_loop_ticks (total : Z) (n : nat) (rest : list (bool * bool)) :
  forall remain, Z.of_nat n <= remain ->
  countdown_loop total remain (repeat (true, false) n ++ rest)
  = (renders_from remain n ++ fst (countdown_loop total (remain - Z.of_nat n) rest),
     snd (countdown_loop total (remain - Z.of_nat n) rest)).
Proof.
  induction n as [|n IH]; intros remain Hn.
  - cbn [repeat app renders_from Z.of_nat]. rewrite Z.sub_0_r.
    destruct (countdown_loop total remain rest). reflexivity.
  - cbn [repeat app countdown_loop andb negb].
    destruct (Z.ltb_spec 0 remain); [|lia].
    rewrite (IH (remain - 1)) by lia.
    replace (remain - 1 - Z.of_nat n) with (remain - Z.of_nat (S n)) by lia.
    reflexivity.
Qed.

Lemma has_key_add_total v k used ts : has_key v (add_total k used ts) = has_key v ts.
Proof.
  induction ts as [|[k' t'] ts IH]; [reflexivity|].
  cbn [add_total]. destruct (String.eqb k' k); cbn [has_key existsb fst]; [reflexivity|].
  fold (has_key v (add_total k used ts)). fold (has_key v ts). rewrite IH. reflexivity.
Qed.

Definition session_of (key : string) (used now : Z) : session :=
  {| s_task := key; s_seconds := used; s_start := now - used; s_end := now |}.

Lemma finish_session_records now used t k0 t0 rest :
  0 < used -> tasks (t_data t) = Some ((k0, t0) :: rest) ->
  let key := match task_var t with
             | Some v => if has_key v ((k0, t0) :: rest) then v else k0
             | None => k0
             end in
  exists fs lbl,
    _finish_session now used t
    = finished t (set_tasks_sessions (add_total key used ((k0, t0) :: rest))
                    (default [] (sessions (t_data t)) ++ [session_of key used now])
                    (t_data t)) fs lbl.
Proof.
  intros Hu Ht key. unfold _finish_session. rewrite Ht.
  apply Z.ltb_lt in Hu. rewrite Hu. fold key.
  destruct (save_data _ _); eauto.
Qed.

(** X4: a countdown stopped within its first second is still charged.
    [start_timer] renders the full countdown and starts the worker, which
    ticks before it sleeps. Stop, handled while the label still shows the
    full countdown, records nothing itself; but the worker, finding the
    flag cleared after its first tick, posts a render and a
    [_finish_session(1)], and that callback records a one-second session
    and sounds the alarm a second time. Only when Stop comes before the
    worker's first look at the flag is nothing recorded. *)
Theorem start_then_stop_charges_first_tick (now1 now2 : Z) (paused : bool)
    (t : timer) (ts : list (string * task)) :
  _timer_running t = false ->
  _mode t = Countdown ->
  0 < _countdown_seconds t < 86400 ->
  tasks (t_data t) = Some ts ->
  ts <> [] ->
  let total := _countdown_seconds t in
  let t1 := fst (start_timer t) in
  let t2 := stop_timer now1 t1 in
  let t3 := run_posted now2 (PostFinish 1) (run_posted now2 (PostRender (total - 1)) t2) in
  snd (start_timer t) = Some (CountdownWorker total)
  /\ timer_label t1 = strftime_hms total
  /\ (_timer_running t2 = false /\ t_data t2 = t_data t /\ t_fs t2 = t_fs t)
  /\ countdown_run total [(true, false); (false, paused)]
     = ([PostRender (total - 1); PostFinish 1], true)
  /\ (exists key,
        sessions (t_data t3)
        = Some (default [] (sessions (t_data t)) ++ [session_of key 1 now2]))
  /\ alarms t3
     = (if default true (beep (t_data t)) then S (S (alarms t)) else alarms t)
  /\ countdown_run total [(false, paused)] = ([PostFinish 0], true)
  /\ t_data (run_posted now2 (PostFinish 0) t2) = t_data t.
Proof.
  intros Hr Hm Hc Ht Hne total t1 t2 t3.
  assert (E1 : t1 = _render_time total
                      {| t_data := t_data t; t_fs := t_fs t; _timer_running := true;
                         _timer_paused := false; _mode := _mode t;
                         _countdown_seconds := _countdown_seconds t;
                         timer_label := timer_label t; task_var := task_var t;
                         btn_start := DISABLED; btn_pause := NORMAL;
                         btn_pause_text := btn_pause_text t; btn_stop := NORMAL;
                         alarms := alarms t |}).
  { subst t1 total. unfold start_timer. rewrite Hr, Hm. reflexivity. }
  assert (E2 : t2 = finished t1 (t_data t1) (t_fs t1) (strftime_hms (Z.max 0 0))).
  { assert (P : _timer_running t1 = true /\ _mode t1 = Countdown
                /\ _countdown_seconds t1 = total
                /\ timer_label t1 = strftime_hms total).
    { rewrite E1. cbn [_render_time _timer_running _mode _countdown_seconds timer_label].
      rewrite Z.max_r by (subst total; lia). auto. }
    destruct P as (P1 & P2 & P3 & P4).
    subst t2. rewrite (stop_timer_of_label now1 total t1 P1 ltac:(subst total; lia) P4).
    rewrite P2, P3, Z.mod_small by (subst total; lia).
    rewrite Z.sub_diag. apply finish_session_zero. }
  split; [subst total; unfold start_timer; rewrite Hr, Hm; reflexivity|].
  split; [rewrite E1; cbn [_render_time timer_label]; rewrite Z.max_r by (subst total; lia);
          reflexivity|].
  split; [rewrite E2, E1; cbn; auto|].
  split.
  { unfold countdown_run. cbn [countdown_loop andb negb].
    destruct (Z.ltb_spec 0 total) as [_|H]; [|subst total; lia].
    cbn [fst snd]. do 4 f_equal. lia. }
  destruct ts as [|[k0 t0] rest]; [congruence|].
  set (tr := run_posted now2 (PostRender (total - 1)) t2) in *.
  assert (D : t_data tr = t_data t /\ task_var tr = task_var t
              /\ alarms tr = (if default true (beep (t_data t)) then S (alarms t)
                              else alarms t)).
  { subst tr. rewrite E2, E1. cbn. auto. }
  destruct D as (D1 & D2 & D3).
  assert (Htr : tasks (t_data tr) = Some ((k0, t0) :: rest)) by (rewrite D1; exact Ht).
  destruct (finish_session_records now2 1 tr k0 t0 rest ltac:(lia) Htr) as (fs & lbl & E3).
  split.
  { subst t3. cbn [run_posted]. fold tr. rewrite E3. eexists.
    cbn [finished t_data set_tasks_sessions sessions]. rewrite D1. reflexivity. }
  split.
  { subst t3. cbn [run_posted]. fold tr. rewrite E3.
    cbn [finished alarms]. rewrite D3, D1.
    destruct (default true (beep (t_data t))); reflexivity. }
  split; [unfold countdown_run; cbn [countdown_loop andb]; do 3 f_equal; lia|].
  cbn [run_posted]. change 0 with (Z.max 0 0). rewrite finish_session_zero.
  cbn [finished t_data]. rewrite E2, E1. reflexivity.
Qed.

Lemma start_then_stop_charges_first_tick_witness :
  exists key,
    sessions (t_data (run_posted 1000001 (PostFinish 1)
                        (run_posted 1000001 (PostRender (1500 - 1))
                           (stop_timer 1000000 (fst (start_timer idle_timer))))))
    = Some (default [] (sessions (t_data idle_timer)) ++ [session_of key 1 1000001]).
Proof.
  apply (proj1 (proj2 (proj2 (proj2 (proj2
           (start_then_stop_charges_first_tick 1000000 1000001 false idle_timer
              [("math"%string, {| total := Some 0; target := Some 1500 |})]
              eq_refl eq_refl ltac:(change (0 < 1500 < 86400); lia) eq_refl
              ltac:(discriminate))))))).
Defined.

(** X7: in countdown mode the worker's loop also ends when Stop has cleared
    the running flag, and it then posts its own [_finish_session] with
    the seconds it counted. Run after [stop_timer], which has already
    finished the session from the label, that call records the same
    session a second time. *)
Theorem stop_then_worker_exit_records_twice (now1 now2 k : Z) (paused : bool)
    (t : timer) (ts : list (string * task)) :
  _timer_running t = true ->
  _mode t = Countdown ->
  0 < k <= _countdown_seconds t ->
  _countdown_seconds t < 86400 ->
  timer_label t = strftime_hms (_countdown_seconds t - k) ->
  tasks (t_data t) = Some ts ->
  ts <> [] ->
  last (fst (countdown_run (_countdown_seconds t)
               (repeat (true, false) (Z.to_nat k) ++ [(false, paused)])))
  = Some (PostFinish k)
  /\ exists key,
       sessions (t_data (run_posted now2 (PostFinish k) (stop_timer now1 t)))
       = Some (default [] (sessions (t_data t))
               ++ [session_of key k now1; session_of key k now2]).
Proof.
  intros Hr Hm Hk Hc Hl Ht Hne. split.
  - unfold countdown_run. rewrite countdown_loop_ticks by lia.
    cbn [countdown_loop andb fst]. rewrite last_snoc. do 2 f_equal. lia.
  - destruct ts as [|[k0 t0] rest]; [congruence|].
    rewrite (stop_timer_of_label now1 (_countdown_seconds t - k)) by (auto; lia).
    rewrite Hm, Z.mod_small by lia.
    replace (Z.max 0 (_countdown_seconds t - (_countdown_seconds t - k))) with k by lia.
    destruct (finish_session_records now1 k t k0 t0 rest ltac:(lia) Ht) as (fs1 & lbl1 & E1).
    rewrite E1. cbn [run_posted].
    set (key := match task_var t with
                | Some v => if has_key v ((k0, t0) :: rest) then v else k0
                | None => k0
                end) in *.
    set (t1 := finished t _ fs1 lbl1).
    assert (Hhead : exists t0' rest', add_total key k ((k0, t0) :: rest) = (k0, t0') :: rest').
    { cbn [add_total]. destruct (String.eqb k0 key); eauto. }
    destruct Hhead as (t0' & rest' & Hadd).
    assert (Ht1 : tasks (t_data t1) = Some ((k0, t0') :: rest')).
    { subst t1. cbn [finished t_data set_tasks_sessions tasks]. rewrite Hadd. reflexivity. }
    destruct (finish_session_records now2 k t1 k0 t0' rest' ltac:(lia) Ht1)
      as (fs2 & lbl2 & E2).
    rewrite E2. exists key.
    cbn [finished t_data set_tasks_sessions sessions]. f_equal.
    subst t1. cbn [finished t_data task_var set_tasks_sessions sessions default from_option id].
    rewrite <- app_assoc. cbn [app]. do 3 f_equal.
    rewrite <- Hadd. subst key. destruct (task_var t) as [v|]; [|reflexivity].
    rewrite has_key_add_total. reflexivity.
Qed.

Lemma stop_then_worker_exit_records_twice_witness :
  exists key,
    sessions (t_data (run_posted 1000005 (PostFinish 600)
                        (stop_timer 1000000 (running_timer true "00:15:00"))))
    = Some (default [] (sessions (t_data (running_timer true "00:15:00")))
            ++ [session_of key 600 1000000; session_of key 600 1000005]).
Proof.
  apply (proj2 (stop_then_worker_exit_records_twice 1000000 1000005 600 false
                  (running_timer true "00:15:00")
                  [("math"%string, {| total := Some 0; target := Some 1500 |})]
                  eq_refl eq_refl ltac:(change (0 < 600 <= 1500); lia)
                  ltac:(change (1500 < 86400); lia) eq_refl eq_refl
                  ltac:(discriminate))).
Defined.

End TimerControlsFacts.

(** ** Minimal panel: whole-session properties *)

Module PanelMoreFacts.
Import Panel Compositor TypographyFacts CompositorFacts PanelFacts.

(** Everything in the dictionary but the colour cache. *)
Definition same_settings (d d' : data) : Prop :=
  wallpaper_fit_pct d' = wallpaper_fit_pct d
  /\ wallpaper_min_fit_pct d' = wallpaper_min_fit_pct d
  /\ minimal_pos d' = minimal_pos d
  /\ minimal_size d' = minimal_size d
  /\ minimal_notes_memory d' = minimal_notes_memory d
  /\ notes_save_path d' = notes_save_path d
  /\ beep d' = beep d
  /\ tasks d' = tasks d
  /\ sessions d' = sessions d.

Lemma same_settings_refl d : same_settings d d.
Proof. repeat split. Qed.

Lemma avg_color_hex_settings (pil : bool) (path : option string)
    (fallback : string) (d : data) (fs : fsys) :
  let r := Sampler.avg_color_hex pil path fallback (Some d) fs in
  exists d',
    Sampler.data_after r = Some d'
    /\ same_settings d d'
    /\ fs_exists (Sampler.fs_after r) = fs_exists fs
    /\ fs_pixels (Sampler.fs_after r) = fs_pixels fs
    /\ fs_writable (Sampler.fs_after r) = fs_writable fs
    /\ fs_files (Sampler.fs_after r) = fs_files fs
    /\ (fs_saved (Sampler.fs_after r) = fs_saved fs
        \/ fs_saved (Sampler.fs_after r) = Some d').
Proof.
  assert (Hset : forall c, same_settings d (set_wallpaper_color_cache c d))
    by (intros; repeat split).
  assert (Hsd : same_settings d (fst (Sampler.setdefault_cache d))).
  { unfold Sampler.setdefault_cache. destruct (wallpaper_color_cache d); [|apply Hset].
    apply same_settings_refl. }
  assert (Hset' : forall c, same_settings d
            (set_wallpaper_color_cache c (fst (Sampler.setdefault_cache d)))).
  { intros c. destruct Hsd as (H1 & H2 & H3 & H4 & H5 & H6 & H7 & H8 & H9).
    repeat split; assumption. }
  cbv zeta.
  destruct path as [p|];
    [|exists d; cbn; split; [reflexivity|]; split; [apply same_settings_refl|];
      repeat split; auto].
  destruct (negb pil || negb (truthy_str (Some p)) || negb (fs_exists fs p)) eqn:E.
  { rewrite SamplerFacts.early_return by assumption.
    exists d. cbn. split; [reflexivity|]. split; [apply same_settings_refl|].
    repeat split; auto. }
  apply orb_false_elim in E as [E E3]. apply orb_false_elim in E as [E1 E2].
  apply negb_false_iff in E1, E2, E3.
  destruct (SamplerFacts.cached_or_not d p) as [[c Hc]|Hno].
  - rewrite (SamplerFacts.hit_returns pil p fallback d fs c) by auto.
    eexists. cbn [Sampler.data_after Sampler.fs_after].
    split; [reflexivity|]. split; [exact Hsd|]. repeat split; auto.
  - destruct (Py.bind (fs_pixels fs p) Sampler.mean_hex) as [hexv|e] eqn:Hb.
    + destruct (fs_pixels fs p) as [px|e] eqn:Hpx; [|discriminate].
      cbn [Py.bind] in Hb.
      rewrite (SamplerFacts.miss_decodes pil p fallback d fs px hexv) by auto.
      cbn zeta. destruct (fs_writable fs) eqn:Hw; eexists;
        cbn [Sampler.data_after Sampler.fs_after];
        (split; [reflexivity|]); (split; [apply Hset'|]); cbn; repeat split; auto.
    + rewrite (SamplerFacts.miss_fails pil p fallback d fs e) by auto.
      eexists. cbn [Sampler.data_after Sampler.fs_after].
      split; [reflexivity|]. split; [exact Hsd|]. repeat split; auto.
Qed.

(** X8: the sampler touches no setting but the colour cache, and of the file
    system only the saved document, whichever of its paths it takes. *)
Theorem sampler_touches_only_the_cache (pil : bool) (path : option string)
    (fallback : string) (d : data) (fs : fsys) :
  let r := Sampler.avg_color_hex pil path fallback (Some d) fs in
  exists d',
    Sampler.data_after r = Some d'
    /\ same_settings d d'
    /\ fs_exists (Sampler.fs_after r) = fs_exists fs
    /\ fs_pixels (Sampler.fs_after r) = fs_pixels fs
    /\ fs_writable (Sampler.fs_after r) = fs_writable fs
    /\ fs_files (Sampler.fs_after r) = fs_files fs
    /\ (fs_saved (Sampler.fs_after r) = fs_saved fs
        \/ fs_saved (Sampler.fs_after r) = Some d').
Proof.
  assert (Hset : forall c, same_settings d (set_wallpaper_color_cache c d))
    by (intros; repeat split).
  assert (Hsd : same_settings d (fst (Sampler.setdefault_cache d))).
  { unfold Sampler.setdefault_cache. destruct (wallpaper_color_cache d); [|apply Hset].
    apply same_settings_refl. }
  assert (Hset' : forall c, same_settings d
            (set_wallpaper_color_cache c (fst (Sampler.setdefault_cache d)))).
  { intros c. destruct Hsd as (H1 & H2 & H3 & H4 & H5 & H6 & H7 & H8 & H9).
    repeat split; assumption. }
  cbv zeta.
  destruct path as [p|];
    [|exists d; cbn; split; [reflexivity|]; split; [apply same_settings_refl|];
      repeat split; auto].
  destruct (negb pil || negb (truthy_str (Some p)) || negb (fs_exists fs p)) eqn:E.
  { rewrite SamplerFacts.early_return by assumption.
    exists d. cbn. split; [reflexivity|]. split; [apply same_settings_refl|].
    repeat split; auto. }
  apply orb_false_elim in E as [E E3]. apply orb_false_elim in E as [E1 E2].
  apply negb_false_iff in E1, E2, E3.
  destruct (SamplerFacts.cached_or_not d p) as [[c Hc]|Hno].
  - rewrite (SamplerFacts.hit_returns pil p fallback d fs c) by auto.
    eexists. cbn [Sampler.data_after Sampler.fs_after].
    split; [reflexivity|]. split; [exact Hsd|]. repeat split; auto.
  - destruct (Py.bind (fs_pixels fs p) Sampler.mean_hex) as [hexv|e] eqn:Hb.
    + destruct (fs_pixels fs p) as [px|e] eqn:Hpx; [|discriminate].
      cbn [Py.bind] in Hb.
      rewrite (SamplerFacts.miss_decodes pil p fallback d fs px hexv) by auto.
      cbn zeta. destruct (fs_writable fs) eqn:Hw; eexists;
        cbn [Sampler.data_after Sampler.fs_after];
        (split; [reflexivity|]); (split; [apply Hset'|]); cbn; repeat split; auto.
    + rewrite (SamplerFacts.miss_fails pil p fallback d fs e) by auto.
      eexists. cbn [Sampler.data_after Sampler.fs_after].
      split; [reflexivity|]. split; [exact Hsd|]. repeat split; auto.
Qed.

Lemma draw_min_wallpaper_frame force pick s :
  let s' := _draw_min_wallpaper force pick s in
  same_settings (p_data s) (p_data s')
  /\ fs_writable (p_fs s') = fs_writable (p_fs s)
  /\ p_pil s' = p_pil s /\ minimal_win s' = minimal_win s
  /\ minimal_label s' = minimal_label s /\ minimal_bg s' = minimal_bg s
  /\ bindings s' = bindings s /\ _drag_off s' = _drag_off s
  /\ _last_min_h s' = _last_min_h s /\ applied s' = applied s.
Proof.
  cbv zeta. unfold _draw_min_wallpaper.
  destruct (negb (minimal_bg s) || negb (p_pil s));
    [repeat split|].
  destruct (minimal_win s) as [win|] eqn:Ew; [|rewrite Ew; repeat split].
  destruct (negb force && size_eqb _ _); [rewrite Ew; repeat split|].
  destruct (negb (truthy_str pick)).
  { cbn [set_composited p_data p_fs p_pil minimal_win minimal_label minimal_bg
         bindings _drag_off _last_min_h applied]. repeat split; assumption. }
  destruct (avg_color_hex_settings (p_pil s) pick "#f0f0f3" (p_data s) (p_fs s))
    as (d' & E & Hs & _ & _ & Hw & _).
  cbv zeta in E, Hw. rewrite E.
  cbn [default from_option id set_composited set_store p_data p_fs p_pil
       minimal_win minimal_label minimal_bg bindings _drag_off _last_min_h
       applied].
  repeat split; try apply Hs; assumption.
Qed.

(** *** Opening the panel *)

Lemma auto_font_minimal_total h :
  0 < h < 2 ^ 1000 ->
  exists f, Typography._auto_font_minimal h = Returned f /\ 24 <= f <= 200.
Proof.
  intros Hh. unfold Typography._auto_font_minimal.
  destruct (Float64Facts.int_mul_pos h Float64.lit_0_45 (-1) (-1) Hh
              Float64Facts.lit_0_45_pos ltac:(lia) ltac:(lia)) as (by_h & -> & P).
  cbn [Py.bind].
  destruct (Float64Facts.to_int_total by_h
              (Float64Facts.pos_finite_finite_or_zero _ _ _ P)) as (z & ->).
  cbn [Py.bind]. eexists. split; [reflexivity | lia].
Qed.

Definition opened_bindings (b : gmap string (list handler)) : gmap string (list handler) :=
  <["<Configure>"%string := [HConfigure]]>
    (<["<Control-MouseWheel>"%string := [HCtrlWheel]]>
       (<["<ButtonRelease-1>"%string := [HRecalcFont]]>
          (<["<ButtonRelease-1>"%string := [HSaveMinimalPos]]>
             (<["<B1-Motion>"%string := [HDragSmooth]]>
                (<["<Button-1>"%string := [HStartDrag]]>
                   (<["<Double-1>"%string := [HClose]]> b)))))).

Lemma open_minimal_shape sw sh shown pick s mw mh f :
  minimal_win s = None ->
  default (560, 260) (minimal_size (p_data s)) = (mw, mh) ->
  Typography._auto_font_minimal mh = Returned f ->
  let s' := _open_minimal sw sh shown pick s in
  let pos := default ((sw - mw) / 2, (sh - mh) / 2) (minimal_pos (p_data s)) in
  minimal_win s' = Some {| winfo_x := fst pos; winfo_y := snd pos;
                           winfo_width := mw; winfo_height := mh |}
  /\ minimal_label s' = Some {| text := shown; font_size := f |}
  /\ minimal_bg s' = true
  /\ bindings s' = opened_bindings (bindings s)
  /\ same_settings (p_data s) (p_data s')
  /\ fs_writable (p_fs s') = fs_writable (p_fs s).
Proof.
  intros Hw Hsz Hf. unfold _open_minimal. rewrite Hw, Hsz, Hf.
  match goal with |- context [_draw_min_wallpaper true pick ?x] =>
    pose proof (draw_min_wallpaper_frame true pick x) as F; set (s9 := x) in * end.
  cbv zeta in F. destruct F as (F1 & F2 & F3 & F4 & F5 & F6 & F7 & _).
  cbv zeta. rewrite F4, F5, F6, F7, F2. repeat split; apply F1.
Qed.

(** *** Dragging *)

Definition motions (es : list event) : list (string * event) :=
  map (fun e => ("<B1-Motion>"%string, e)) es.

Fixpoint drag_sum (proj : event -> Z) (off : Z) (es : list event) : Z :=
  match es with
  | [] => 0
  | e :: rest => (proj e - off) + drag_sum proj off rest
  end.

Lemma motions_track (es : list event) : forall s win,
  bindings s !! "<B1-Motion>"%string = Some [HDragSmooth] ->
  minimal_win s = Some win ->
  let s' := dispatch_all (motions es) s in
  minimal_win s'
  = Some {| winfo_x := winfo_x win + drag_sum ev_x (fst (_drag_off s)) es;
            winfo_y := winfo_y win + drag_sum ev_y (snd (_drag_off s)) es;
            winfo_width := winfo_width win; winfo_height := winfo_height win |}
  /\ p_data s' = p_data s /\ p_fs s' = p_fs s
  /\ composites s' = composites s /\ applied s' = applied s.
Proof.
  induction es as [|e es IH]; intros s win Hb Hw; cbn [motions map dispatch_all drag_sum].
  - rewrite Hw, !Z.add_0_r. destruct win. repeat split.
  - fold (motions es). unfold dispatch at 1 2 3 4 5. rewrite Hb.
    cbn [default from_option id fold_left run_handler].
    unfold _on_drag_smooth. rewrite Hw.
    match goal with |- context [dispatch_all (motions es) ?x] => set (s1 := x) end.
    destruct (IH s1 _ Hb eq_refl) as (E1 & E2 & E3 & E4 & E5).
    rewrite E1, E2, E3, E4, E5. subst s1.
    cbn [set_win _drag_off winfo_x winfo_y winfo_width winfo_height p_data p_fs
         composites applied].
    repeat split. do 2 f_equal; lia.
Qed.

(** X9: a drag follows the pointer one to one and writes nothing: after the
    press and any number of motion events the window has moved by the
    sum of the pointer offsets from the press point, its size is as
    before, and neither the dictionary nor the file system nor the
    wallpaper has been touched. *)
Theorem drag_tracks_pointer_and_saves_nothing (s : panel) (win : window)
    (press : event) (es : list event) :
  bindings s !! "<Button-1>"%string = Some [HStartDrag] ->
  bindings s !! "<B1-Motion>"%string = Some [HDragSmooth] ->
  minimal_win s = Some win ->
  let s' := dispatch_all (("<Button-1>"%string, press) :: motions es) s in
  minimal_win s'
  = Some {| winfo_x := winfo_x win + drag_sum ev_x (ev_x press) es;
            winfo_y := winfo_y win + drag_sum ev_y (ev_y press) es;
            winfo_width := winfo_width win; winfo_height := winfo_height win |}
  /\ p_data s' = p_data s /\ p_fs s' = p_fs s
  /\ composites s' = composites s /\ applied s' = applied s.
Proof.
  intros Hp Hm Hw. cbn [dispatch_all]. unfold dispatch at 1 2 3 4 5. rewrite Hp.
  cbn [default from_option id fold_left run_handler].
  apply (motions_track es (_start_drag press s) win); assumption.
Qed.

Lemma drag_tracks_pointer_and_saves_nothing_witness :
  let s := _open_minimal 1920 1080 "00:25:00" None closed_panel in
  let s' := dispatch_all (("<Button-1>"%string, pointer 10 10)
                          :: motions [pointer 50 40; pointer 12 9]) s in
  minimal_win s'
  = Some {| winfo_x := 680 + drag_sum ev_x 10 [pointer 50 40; pointer 12 9];
            winfo_y := 410 + drag_sum ev_y 10 [pointer 50 40; pointer 12 9];
            winfo_width := 560; winfo_height := 260 |}
  /\ p_data s' = p_data s /\ p_fs s' = p_fs s
  /\ composites s' = composites s /\ applied s' = applied s.
Proof.
  apply (drag_tracks_pointer_and_saves_nothing
           (_open_minimal 1920 1080 "00:25:00" None closed_panel)
           {| winfo_x := 680; winfo_y := 410; winfo_width := 560; winfo_height := 260 |}
           (pointer 10 10) [pointer 50 40; pointer 12 9]);
    vm_compute; reflexivity.
Defined.


(** *** Closing and reopening *)

Lemma save_minimal_pos_saves s win :
  minimal_win s = Some win -> fs_writable (p_fs s) = true ->
  let s' := _save_minimal_pos s in
  p_data s' = set_minimal_pos (winfo_x win, winfo_y win) (p_data s)
  /\ fs_saved (p_fs s') = Some (p_data s')
  /\ fs_writable (p_fs s') = true
  /\ minimal_win s' = Some win.
Proof.
  intros Hw Hf. cbv zeta. unfold _save_minimal_pos, save_data. rewrite Hw, Hf.
  cbn [set_store minimal_label]. unfold set_font. cbn [set_store minimal_label].
  destruct (minimal_label s) as [lb|];
    [destruct (Typography._auto_font_minimal_by_wh _ _ _)|];
    cbn [set_label set_store p_data p_fs minimal_win with_saved fs_saved fs_writable];
    repeat split; assumption.
Qed.

(** X10: closing the panel is what persists its position: the window
    position is stored in [minimal_pos] and saved, the panel's widgets
    and bindings are gone, and opening the panel again puts the window
    back at that position, with the stored size. *)
Theorem close_saves_position_and_reopen_restores (s : panel) (win : window)
    (sw sh mw mh : Z) (shown : string) (pick : option string) :
  minimal_win s = Some win ->
  fs_writable (p_fs s) = true ->
  default (560, 260) (minimal_size (p_data s)) = (mw, mh) ->
  0 < mh < 2 ^ 1000 ->
  let s1 := _close_minimal s in
  let s2 := _open_minimal sw sh shown pick s1 in
  minimal_pos (p_data s1) = Some (winfo_x win, winfo_y win)
  /\ fs_saved (p_fs s1) = Some (p_data s1)
  /\ minimal_win s1 = None /\ minimal_label s1 = None /\ minimal_bg s1 = false
  /\ bindings s1 = ∅
  /\ minimal_win s2 = Some {| winfo_x := winfo_x win; winfo_y := winfo_y win;
                              winfo_width := mw; winfo_height := mh |}.
Proof.
  intros Hw Hf Hsz Hmh s1 s2.
  assert (H1 : p_data s1 = set_minimal_pos (winfo_x win, winfo_y win) (p_data s)
               /\ fs_saved (p_fs s1) = Some (p_data s1)
               /\ minimal_win s1 = None /\ minimal_label s1 = None
               /\ minimal_bg s1 = false /\ bindings s1 = ∅).
  { subst s1. unfold _close_minimal. rewrite Hw.
    destruct (save_minimal_pos_saves s win Hw Hf) as (E1 & E2 & _).
    cbn [set_bindings set_bg set_label set_win p_data p_fs minimal_win minimal_label
         minimal_bg bindings]. repeat split; assumption. }
  destruct H1 as (Hd & Hs & Hwn & Hl & Hb & Hbd).
  rewrite Hd at 1. cbn [set_minimal_pos minimal_pos].
  repeat (split; [assumption || reflexivity|]).
  destruct (auto_font_minimal_total mh Hmh) as (f & Hfont & _).
  assert (Hsz1 : default (560, 260) (minimal_size (p_data s1)) = (mw, mh)).
  { rewrite Hd. exact Hsz. }
  destruct (open_minimal_shape sw sh shown pick s1 mw mh f Hwn Hsz1 Hfont) as (E & _).
  subst s2. rewrite E, Hd. reflexivity.
Qed.

Lemma close_saves_position_and_reopen_restores_witness :
  let s := dispatch_all (("<Button-1>"%string, pointer 10 10)
                         :: motions [pointer 50 40])
             (_open_minimal 1920 1080 "00:25:00" None closed_panel) in
  let s1 := _close_minimal s in
  let s2 := _open_minimal 1920 1080 "00:25:00" None s1 in
  minimal_pos (p_data s1) = Some (720, 440)
  /\ fs_saved (p_fs s1) = Some (p_data s1)
  /\ minimal_win s1 = None /\ minimal_label s1 = None /\ minimal_bg s1 = false
  /\ bindings s1 = ∅
  /\ minimal_win s2 = Some {| winfo_x := 720; winfo_y := 440;
                              winfo_width := 560; winfo_height := 260 |}.
Proof.
  apply (close_saves_position_and_reopen_restores _
           {| winfo_x := 720; winfo_y := 440; winfo_width := 560; winfo_height := 260 |}
           1920 1080 560 260 "00:25:00" None);
    try (vm_compute; reflexivity). lia.
Defined.

(** *** Wheel gestures compose *)

(** X11: a grow notch followed by a shrink notch gives back a stored size
    that is at least the minimum; at the minimum a shrink notch changes
    nothing. *)
Theorem wheel_grow_then_shrink_restores (s : panel) (up down : event) (w h : Z) :
  minimal_size (p_data s) = Some (w, h) ->
  280 <= w -> 160 <= h ->
  0 < ev_delta up -> ev_delta down <= 0 ->
  minimal_size (p_data (_ctrl_wheel_resize_min down (_ctrl_wheel_resize_min up s)))
  = Some (w, h)
  /\ (w = 280 -> h = 160 ->
      minimal_size (p_data (_ctrl_wheel_resize_min down s)) = Some (280, 160)).
Proof.
  intros Hs Hw Hh Hup Hdown.
  destruct (wheel_step up s) as (E1 & _).
  destruct (wheel_step down (_ctrl_wheel_resize_min up s)) as (E2 & _).
  destruct (wheel_step down s) as (E3 & _).
  cbv zeta in E1, E2, E3. rewrite E2, E1, E3, Hs. unfold notch.
  apply Z.ltb_lt in Hup. rewrite Hup.
  assert (Hd : (0 <? ev_delta down) = false) by (apply Z.ltb_ge; lia).
  rewrite Hd. cbn [default from_option id fst snd]. split.
  - do 2 f_equal; lia.
  - intros -> ->. reflexivity.
Qed.

Definition wheel_up : event :=
  {| ev_x := 0; ev_y := 0; ev_width := 0; ev_height := 0; ev_delta := 120;
     ev_pick := None |}.

Lemma wheel_grow_then_shrink_restores_witness :
  minimal_size (p_data (_ctrl_wheel_resize_min wheel_down
                          (_ctrl_wheel_resize_min wheel_up closed_panel)))
  = Some (560, 260).
Proof.
  apply (proj1 (wheel_grow_then_shrink_restores closed_panel wheel_up wheel_down 560 260
                  eq_refl ltac:(lia) ltac:(lia) ltac:(cbn; lia) ltac:(cbn; lia))).
Defined.

(** *** Invariants of the event handlers *)

Definition font_ok (s : panel) : Prop :=
  match minimal_label s with
  | Some lb => 24 <= font_size lb <= 280
  | None => True
  end.

Lemma fit_font_range w h txt f :
  Typography._auto_font_minimal_by_wh w h txt = Returned f -> 24 <= f <= 280.
Proof.
  rewrite fit_is_clamped_dual_bound.
  destruct (dual_bound _ _ _) as [size|]; [|discriminate].
  cbn [Py.bind]. intros [= <-]. apply clamp_range. lia.
Qed.

Lemma set_font_ok f s : 24 <= f <= 280 -> font_ok (set_font f s).
Proof.
  intros Hf. unfold font_ok, set_font.
  destruct (minimal_label s) as [lb|] eqn:El; [|rewrite El; exact I].
  cbn [set_label minimal_label font_size]. exact Hf.
Qed.

(** The remembered size is the size of the last composite, and no
    composite has a box larger than the short side of its viewport. *)
Definition box_ok (c : composite) : Prop :=
  1 <= fst (c_size c) /\ 1 <= snd (c_size c)
  /\ forall sh, c_short c = Some sh ->
                0 <= sh <= Z.min (fst (c_size c)) (snd (c_size c)).

Definition composites_ok (s : panel) : Prop :=
  Forall box_ok (composites s)
  /\ forall c, last (composites s) = Some c -> c_size c = _last_min_wallpaper_size s.

Lemma draw_min_wallpaper_ok force pick s :
  composites_ok s -> composites_ok (_draw_min_wallpaper force pick s).
Proof.
  intros [Hall Hlast]. unfold _draw_min_wallpaper.
  destruct (negb (minimal_bg s) || negb (p_pil s)); [split; assumption|].
  destruct (minimal_win s) as [win|]; [|split; assumption].
  destruct (negb force && size_eqb _ _); [split; assumption|].
  assert (Hbox : forall bg fit,
    box_ok {| c_size := (Z.max 1 (winfo_width win), Z.max 1 (winfo_height win));
              c_bg := bg;
              c_short := Some (short_side (Z.max 1 (winfo_width win))
                                 (Z.max 1 (winfo_height win)) fit) |}).
  { intros bg fit. unfold box_ok. cbn [c_size c_short fst snd].
    split; [lia|]. split; [lia|]. intros sh [= <-].
    apply short_side_within. lia. }
  destruct (negb (truthy_str pick)); unfold composites_ok;
    cbn [set_composited set_store composites _last_min_wallpaper_size]; split.
  - apply Forall_app. split; [assumption|]. constructor; [|constructor].
    unfold box_ok. cbn [c_size c_short fst snd]. split; [lia|]. split; [lia|].
    intros sh; discriminate.
  - intros c. rewrite last_snoc. intros [= <-]. reflexivity.
  - apply Forall_app. split; [assumption|]. constructor; [apply Hbox|constructor].
  - intros c. rewrite last_snoc. intros [= <-]. reflexivity.
Qed.

Lemma handler_keeps_invariants (h : handler) (e : event) (s : panel) :
  font_ok s -> composites_ok s ->
  font_ok (run_handler h e s) /\ composites_ok (run_handler h e s).
Proof.
  intros Hf Hc. destruct h; cbn [run_handler].
  - (* close *)
    unfold _close_minimal. split; [exact I|].
    destruct (minimal_win s); [|exact Hc].
    unfold _save_minimal_pos, set_font.
    repeat (match goal with
            | |- context [match ?x with _ => _ end] => destruct x
            end; cbn [set_store minimal_label]); exact Hc.
  - split; assumption.
  - unfold _on_drag_smooth. destruct (minimal_win s); split; assumption.
  - unfold _save_minimal_pos. destruct (minimal_win s) as [win|]; [|split; assumption].
    destruct (save_data _ _) as [fs'|]; [|split; assumption].
    cbn [set_store minimal_label].
    destruct (minimal_label s) as [lb|] eqn:El; [|split; [unfold font_ok; cbn; rewrite El; exact I | exact Hc]].
    destruct (Typography._auto_font_minimal_by_wh _ _ _) as [f|] eqn:Ef.
    + split.
      * apply set_font_ok. eapply fit_font_range, Ef.
      * unfold set_font. cbn [set_store minimal_label]. rewrite El. exact Hc.
    + split; [unfold font_ok; cbn; rewrite El; unfold font_ok in Hf; rewrite El in Hf; exact Hf | exact Hc].
  - unfold _recalc_font_after_move.
    destruct (minimal_win s) as [win|]; [|split; assumption].
    destruct (minimal_label s) as [lb|] eqn:El; [|split; assumption].
    destruct (Typography._auto_font_minimal_by_wh _ _ _) as [f|] eqn:Ef;
      [|split; assumption].
    split.
    + apply set_font_ok. eapply fit_font_range, Ef.
    + unfold set_font. rewrite El. exact Hc.
  - unfold _ctrl_wheel_resize_min.
    destruct (default (560, 260) (minimal_size (p_data s))) as [mw mh].
    destruct (Py.bind _ _); [|split; assumption].
    destruct (save_data _ _); [|split; assumption].
    cbn [set_store minimal_win]. destruct (minimal_win s); split; assumption.
  - unfold _on_minimal_configure.
    destruct (ev_height e =? default 0 (_last_min_h s)); [split; assumption|].
    cbn [set_last_min_h minimal_label].
    destruct (minimal_label s) as [lb|] eqn:El; [|split; [unfold font_ok; cbn; rewrite El; exact I | exact Hc]].
    destruct (Typography._auto_font_minimal_by_wh _ _ _) as [f|] eqn:Ef;
      [|split; [unfold font_ok; cbn; rewrite El; unfold font_ok in Hf; rewrite El in Hf; exact Hf | exact Hc]].
    match goal with |- context [_draw_min_wallpaper false ?p ?x] =>
      pose proof (draw_min_wallpaper_frame false p x) as F;
      pose proof (draw_min_wallpaper_ok false p x) as D end.
    cbv zeta in F. destruct F as (_ & _ & _ & _ & F5 & _).
    split.
    + unfold font_ok. rewrite F5. apply set_font_ok. eapply fit_font_range, Ef.
    + apply D. unfold set_font. cbn [set_last_min_h minimal_label]. rewrite El. exact Hc.
Qed.

Lemma dispatch_keeps_invariants (seq : string) (e : event) (s : panel) :
  font_ok s -> composites_ok s ->
  font_ok (dispatch seq e s) /\ composites_ok (dispatch seq e s).
Proof.
  unfold dispatch. generalize (default [] (bindings s !! seq)) as hs.
  intros hs. revert s. induction hs as [|h hs IH]; intros s Hf Hc; cbn [fold_left].
  - split; assumption.
  - destruct (handler_keeps_invariants h e s Hf Hc) as [Hf' Hc']. apply IH; assumption.
Qed.

Lemma open_minimal_keeps_invariants sw sh shown pick s :
  font_ok s -> composites_ok s ->
  font_ok (_open_minimal sw sh shown pick s)
  /\ composites_ok (_open_minimal sw sh shown pick s).
Proof.
  intros Hf Hc. unfold _open_minimal.
  destruct (minimal_win s); [split; assumption|].
  destruct (default (560, 260) (minimal_size (p_data s))) as [mw mh].
  destruct (Typography._auto_font_minimal mh) as [f|] eqn:Ef; [|split; assumption].
  match goal with |- context [_draw_min_wallpaper true pick ?x] =>
    pose proof (draw_min_wallpaper_frame true pick x) as F;
    pose proof (draw_min_wallpaper_ok true pick x) as D end.
  cbv zeta in F. destruct F as (_ & _ & _ & _ & F5 & _). split.
  - unfold font_ok. rewrite F5. cbn. unfold Typography._auto_font_minimal in Ef.
    destruct (Float64.int_mul mh Float64.lit_0_45); [|discriminate]. cbn [Py.bind] in Ef.
    destruct (Float64.to_int _); [|discriminate]. cbn [Py.bind] in Ef.
    injection Ef as <-. lia.
  - apply D. exact Hc.
Qed.

(** X12: whatever events arrive, in whatever order and with whatever bindings:
    once the panel has been opened the time label's font size stays
    within [24, 280], the remembered wallpaper size is the size of the
    last composite, and no composite's image box is larger than the short
    side of the viewport it was made for. *)
Theorem panel_handlers_keep_invariants (sw sh : Z) (shown : string)
    (pick : option string) (evs : list (string * event)) (s : panel) :
  font_ok s -> composites_ok s ->
  font_ok (dispatch_all evs (_open_minimal sw sh shown pick s))
  /\ composites_ok (dispatch_all evs (_open_minimal sw sh shown pick s)).
Proof.
  intros Hf Hc.
  destruct (open_minimal_keeps_invariants sw sh shown pick s Hf Hc) as [Hf' Hc'].
  generalize dependent (_open_minimal sw sh shown pick s). clear.
  induction evs as [|[seq e] evs IH]; intros s Hf Hc; cbn [dispatch_all].
  - split; assumption.
  - destruct (dispatch_keeps_invariants seq e s Hf Hc) as [Hf' Hc']. apply IH; assumption.
Qed.

Lemma panel_handlers_keep_invariants_witness :
  let s := dispatch_all [ ("<Configure>"%string, configure_event (fst (geometry 560 300))
                                                    (Some "a.png"%string));
                          ("<ButtonRelease-1>"%string, pointer 3 3) ]
             (_open_minimal 1920 1080 "00:25:00" (Some "a.png"%string) closed_panel) in
  font_ok s /\ composites_ok s.
Proof.
  apply (panel_handlers_keep_invariants 1920 1080 "00:25:00" (Some "a.png"%string)
           [ ("<Configure>"%string, configure_event (fst (geometry 560 300))
                                     (Some "a.png"%string));
             ("<ButtonRelease-1>"%string, pointer 3 3) ] closed_panel).
  - exact I.
  - split; [constructor | intros c; discriminate].
Defined.

End PanelMoreFacts.

(** ** Notes: failures and repeated saves *)

Module NotesMoreFacts.
Import Notes NotesFacts.

(** The time-stamped block one save appends. *)
Definition block (ts txt : string) : string :=
  ("[" ++ ts ++ "]" ++ NL ++ txt ++ NL ++ NL)%string.

(** X13: failures of a notes save lose no text. The draft in memory is
    always set to the stripped text. When saving the store raises, the
    handler stops there: no notes file is written, no box is shown and
    the edit region keeps its text. When the store is saved but the
    notes file cannot be written, an error box is shown, the edit region
    keeps its text and no notes file changes. *)
Theorem notes_save_failures_keep_the_text (ts content : string) (s : notes_ui) :
  minimal_notes s = Some content ->
  let s' := _save_notes_to_file ts s in
  minimal_notes_memory (n_data s') = Some (strip content)
  /\ (fs_writable (n_fs s) = false ->
      minimal_notes s' = Some content /\ boxes s' = boxes s
      /\ fs_files (n_fs s') = fs_files (n_fs s))
  /\ (forall p,
        fs_writable (n_fs s) = true ->
        notes_save_path (n_data s) = Some p -> p <> EmptyString ->
        fs_appendable (n_fs s) p = false ->
        minimal_notes s' = Some content
        /\ boxes s' = boxes s ++ [ShowError]
        /\ fs_files (n_fs s') = fs_files (n_fs s)).
Proof.
  intros Hc s'. subst s'. unfold _save_notes_to_file, save_data.
  rewrite Hc, strip_app_NL. split; [|split].
  - destruct (fs_writable (n_fs s)); [|reflexivity].
    cbn [set_minimal_notes_memory notes_save_path].
    destruct (truthy_str (notes_save_path (n_data s))); [|reflexivity].
    destruct (append_file _ _ _); reflexivity.
  - intros ->. repeat split.
  - intros p -> Hp Hne Happ. cbn [set_minimal_notes_memory notes_save_path].
    rewrite Hp.
    assert (Ht : truthy_str (Some p) = true).
    { cbn [truthy_str]. destruct (String.eqb_spec p ""); [contradiction | reflexivity]. }
    rewrite Ht. cbn [default from_option id]. unfold append_file.
    cbn [with_saved fs_appendable]. rewrite Happ. repeat split.
Qed.

Definition fs_no_notes_file : fsys := {|
  fs_exists := fun _ => true;
  fs_pixels := fun _ => Raised OSError;
  fs_writable := true;
  fs_saved := None;
  fs_appendable := fun _ => false;
  fs_files := ∅
|}.

Lemma notes_save_failures_keep_the_text_witness :
  let s := {| n_data := notes_data (Some "notes.txt"%string); n_fs := fs_no_notes_file;
              minimal_notes := Some "call Bob"%string; boxes := [] |} in
  let s' := _save_notes_to_file "2025-01-01 10:00:00" s in
  minimal_notes s' = Some "call Bob"%string
  /\ boxes s' = boxes s ++ [ShowError]
  /\ fs_files (n_fs s') = fs_files (n_fs s).
Proof.
  intros s.
  apply (proj2 (proj2 (notes_save_failures_keep_the_text "2025-01-01 10:00:00" "call Bob"
                         s eq_refl)) "notes.txt"%string);
    [reflexivity | reflexivity | discriminate | reflexivity].
Defined.

(** X14: two saves in a row: the first empties the edit region, so the second
    stores the empty text as the draft, and the notes file ends with the
    first block followed by an empty block. *)
Theorem second_save_empties_the_draft (ts1 ts2 content p : string) (s : notes_ui) :
  minimal_notes s = Some content ->
  fs_writable (n_fs s) = true ->
  notes_save_path (n_data s) = Some p -> p <> EmptyString ->
  fs_appendable (n_fs s) p = true ->
  let s1 := _save_notes_to_file ts1 s in
  let s2 := _save_notes_to_file ts2 s1 in
  minimal_notes_memory (n_data s1) = Some (strip content)
  /\ minimal_notes_memory (n_data s2) = Some EmptyString
  /\ minimal_notes s2 = Some EmptyString
  /\ fs_files (n_fs s2) !! p
     = Some ((default EmptyString (fs_files (n_fs s) !! p)
              ++ block ts1 (strip content)) ++ block ts2 EmptyString)%string.
Proof.
  intros Hc Hw Hp Hne Happ s1 s2.
  assert (Ht : truthy_str (Some p) = true).
  { cbn [truthy_str]. destruct (String.eqb_spec p ""); [contradiction | reflexivity]. }
  assert (E1 : s1 = {| n_data := set_minimal_notes_memory (strip content) (n_data s);
                       n_fs := with_files
                                 (<[p := (default EmptyString (fs_files (n_fs s) !! p)
                                          ++ block ts1 (strip content))%string]>
                                    (fs_files (n_fs s)))
                                 (with_saved
                                    (set_minimal_notes_memory (strip content) (n_data s))
                                    (n_fs s));
                       minimal_notes := Some EmptyString;
                       boxes := boxes s |}).
  { subst s1. unfold _save_notes_to_file, save_data.
    rewrite Hc, Hw, strip_app_NL. cbn [set_minimal_notes_memory notes_save_path].
    rewrite Hp, Ht. cbn [default from_option id]. unfold append_file.
    cbn [with_saved fs_appendable fs_files]. rewrite Happ. reflexivity. }
  subst s2. rewrite E1. unfold _save_notes_to_file, save_data.
  cbn [minimal_notes n_fs n_data with_files with_saved fs_writable].
  rewrite Hw. cbn [set_minimal_notes_memory notes_save_path]. rewrite Hp, Ht.
  cbn [default from_option id]. unfold append_file.
  cbn [with_saved with_files fs_appendable fs_files]. rewrite Happ.
  cbn [n_data n_fs minimal_notes set_minimal_notes_memory minimal_notes_memory
       with_files fs_files].
  rewrite !lookup_insert_eq. repeat split.
Qed.

Lemma second_save_empties_the_draft_witness :
  let s := editing (Some "notes.txt"%string) "call Bob" in
  let s2 := _save_notes_to_file "t2" (_save_notes_to_file "t1" s) in
  minimal_notes_memory (n_data s2) = Some EmptyString.
Proof.
  intros s.
  apply (second_save_empties_the_draft "t1" "t2" "call Bob" "notes.txt" s);
    [reflexivity | reflexivity | reflexivity | discriminate | reflexivity].
Defined.

End NotesMoreFacts.

(** ** Tint helper *)

Module TintFacts.
Import Tint Sampler SamplerFacts.

Definition byte_round_trips (k : nat) : bool :=
  match format_02x (N.of_nat k) with
  | String a (String b EmptyString) =>
      negb (Ascii.eqb a "#")
      && match int_base16 (String a (String b EmptyString)) with
         | Returned v => v =? Z.of_nat k
         | Raised _ => false
         end
  | _ => false
  end.

Lemma format_02x_parses (n : N) :
  (n <= 255)%N ->
  exists a b, format_02x n = String a (String b EmptyString)
              /\ Ascii.eqb a "#" = false
              /\ int_base16 (String a (String b EmptyString)) = Returned (Z.of_N n).
Proof.
  intros Hn.
  assert (All : forallb byte_round_trips (seq 0 256) = true) by (vm_compute; reflexivity).
  rewrite forallb_forall in All.
  assert (H : byte_round_trips (N.to_nat n) = true) by (apply All, in_seq; lia).
  clear All. unfold byte_round_trips in H. rewrite N2Nat.id in H.
  destruct (format_02x n) as [|a [|b [|]]]; try discriminate H.
  apply andb_prop in H as [Ha Hv]. apply negb_true_iff in Ha.
  destruct (int_base16 (String a (String b EmptyString))) as [v|] eqn:Ev; [|discriminate].
  apply Z.eqb_eq in Hv. subst v. exists a, b. rewrite <- (N_nat_Z n). repeat split; assumption.
Qed.

(** X15: the tint helper reads back what the sampler wrote: decoding the
    [#rrggbb] string of a sampled image gives the three channel means. *)
Theorem hex_to_rgb_of_mean_hex (px : list pixel) (hexv : string) :
  mean_hex px = Returned hexv ->
  _hex_to_rgb hexv
  = (Z.of_N (sum_channel px_r px / N.of_nat (length px)),
     Z.of_N (sum_channel px_g px / N.of_nat (length px)),
     Z.of_N (sum_channel px_b px / N.of_nat (length px))).
Proof.
  intros Hm. pose proof (mean_hex_nonempty px hexv Hm) as Hne.
  unfold mean_hex in Hm.
  destruct (N.of_nat (length px) =? 0)%N; [discriminate|]. injection Hm as <-.
  destruct (format_02x_parses _ (mean_channel_byte px_r px Hne)) as (r1 & r2 & -> & Hr & Pr).
  destruct (format_02x_parses _ (mean_channel_byte px_g px Hne)) as (g1 & g2 & -> & _ & Pg).
  destruct (format_02x_parses _ (mean_channel_byte px_b px Hne)) as (b1 & b2 & -> & _ & Pb).
  unfold _hex_to_rgb. cbv [String.append].
  assert (Hl : lstrip_hash (String "#" (String r1 (String r2 (String g1 (String g2
                 (String b1 (String b2 EmptyString)))))))
               = String r1 (String r2 (String g1 (String g2
                   (String b1 (String b2 EmptyString)))))).
  { cbn [lstrip_hash]. clear -Hr.
    destruct r1 as [[] [] [] [] [] [] [] []]; try reflexivity. discriminate Hr. }
  rewrite Hl. cbn [substring]. rewrite Pr, Pg, Pb. reflexivity.
Qed.

Lemma hex_to_rgb_of_mean_hex_witness :
  _hex_to_rgb "#010203"
  = (Z.of_N (sum_channel px_r one_pixel / N.of_nat (length one_pixel)),
     Z.of_N (sum_channel px_g one_pixel / N.of_nat (length one_pixel)),
     Z.of_N (sum_channel px_b one_pixel / N.of_nat (length one_pixel))).
Proof. apply (hex_to_rgb_of_mean_hex one_pixel "#010203"). reflexivity. Defined.

Lemma substring_past_end (s : string) (n m : nat) :
  (String.length s <= n)%nat -> substring n m s = EmptyString.
Proof.
  revert n. induction s as [|c s IH]; intros n Hn.
  - destruct n, m; reflexivity.
  - destruct n as [|n]; [cbn in Hn; lia|]. cbn [substring]. apply IH. cbn in Hn. lia.
Qed.

(** X16: a colour string with fewer than five characters after its [#] signs
    has no blue channel to read: the helper answers the neutral
    [(240, 240, 243)] instead of raising. *)
Theorem hex_to_rgb_short_is_neutral (hx : string) :
  (String.length (lstrip_hash hx) <= 4)%nat ->
  _hex_to_rgb hx = (240, 240, 243).
Proof.
  intros H. unfold _hex_to_rgb. rewrite (substring_past_end _ 4 2 H).
  change (int_base16 EmptyString) with (@Raised Z ValueError).
  destruct (int_base16 _) as [r|]; [|reflexivity].
  destruct (int_base16 _) as [g|]; reflexivity.
Qed.

Lemma hex_to_rgb_short_is_neutral_witness : _hex_to_rgb "#fff" = (240, 240, 243).
Proof. apply hex_to_rgb_short_is_neutral. cbn. lia. Defined.

End TintFacts.

(** ** Fit percent setting *)

Module SettingsFacts.
Import Settings Compositor TypographyFacts CompositorFacts.

Lemma draw_timer_wallpaper_box picked ww wh d fs :
  truthy_str picked = true ->
  exists bg d' fs',
    _draw_timer_wallpaper true picked ww wh d fs
    = (Some {| d_bg := bg;
               d_short := Some (short_side (Z.max 1 ww) (Z.max 1 wh)
                                  (default 92 (wallpaper_fit_pct d))) |}, d', fs').
Proof.
  intros Ht. unfold _draw_timer_wallpaper. rewrite Ht. cbn [negb].
  destruct (SamplerFacts.avg_color_hex_frame true picked "#f0f0f3" d fs)
    as (d' & -> & Hf & _).
  cbn [default from_option id]. rewrite Hf. eauto.
Qed.

(** X17: a fit percent set on the settings page is stored inside [50, 100]
    whatever was typed, for either surface, and the main stage, redrawn
    at once, uses exactly the stored value: the compositor's own clamp
    to [10, 100] does not change it. For the minimal panel the value is
    stored and saved, and the handler then stops at a method the class
    lacks. *)
Theorem apply_fit_pct_stores_50_to_100 (which : string) (val : Z) (pil : bool)
    (picked : option string) (ww wh : Z) (d : data) (fs : fsys) :
  let r := _apply_fit_pct which val pil picked ww wh d fs in
  let v := clamp val 50 100 in
  50 <= v <= 100
  /\ (which = "main"%string ->
      wallpaper_fit_pct (fa_data r) = Some v
      /\ wallpaper_min_fit_pct (fa_data r) = wallpaper_min_fit_pct d
      /\ (fs_writable fs = true -> pil = true -> truthy_str picked = true ->
          exists bg,
            fa_drawn r
            = Some {| d_bg := bg;
                      d_short := Some (Z.min (Z.max 1 ww) (Z.max 1 wh) * v / 100) |}
            /\ fa_ending r = Completed))
  /\ (which <> "main"%string ->
      wallpaper_min_fit_pct (fa_data r) = Some v
      /\ wallpaper_fit_pct (fa_data r) = wallpaper_fit_pct d
      /\ fa_drawn r = None
      /\ (fs_writable fs = true ->
          fs_saved (fa_fs r) = Some (fa_data r) /\ fa_ending r = NoSuchMethod)).
Proof.
  cbv zeta. unfold _apply_fit_pct. rewrite (clamp_max_min val 50 100) by lia.
  pose proof (clamp_range val 50 100 ltac:(lia)) as Hv.
  set (v := clamp val 50 100) in *.
  split; [exact Hv|]. split.
  - intros ->. cbn [String.eqb Ascii.eqb Bool.eqb]. unfold save_data.
    destruct (fs_writable fs) eqn:Hw.
    + destruct (SamplerFacts.avg_color_hex_frame pil picked "#f0f0f3"
                  (set_wallpaper_fit_pct v d) (with_saved (set_wallpaper_fit_pct v d) fs))
        as (d' & Ed & Hf & Hm).
      assert (Hdata : forall dr d2 fs2,
        _draw_timer_wallpaper pil picked ww wh (set_wallpaper_fit_pct v d)
          (with_saved (set_wallpaper_fit_pct v d) fs) = (dr, d2, fs2) ->
        wallpaper_fit_pct d2 = Some v
        /\ wallpaper_min_fit_pct d2 = wallpaper_min_fit_pct d).
      { unfold _draw_timer_wallpaper. intros dr d2 fs2.
        destruct (negb pil); [intros [= _ <- _]; split; reflexivity|].
        destruct (negb (truthy_str picked)); [intros [= _ <- _]; split; reflexivity|].
        rewrite Ed. cbn [default from_option id]. intros [= _ <- _].
        rewrite Hf, Hm. split; reflexivity. }
      destruct (_draw_timer_wallpaper pil picked ww wh (set_wallpaper_fit_pct v d)
                  (with_saved (set_wallpaper_fit_pct v d) fs)) as [[dr d2] fs2] eqn:Edraw.
      destruct (Hdata dr d2 fs2 eq_refl) as [H1 H2].
      cbn [fa_data fa_drawn fa_ending]. repeat (split; [assumption|]).
      intros _ -> Ht.
      destruct (draw_timer_wallpaper_box picked ww wh (set_wallpaper_fit_pct v d)
                  (with_saved (set_wallpaper_fit_pct v d) fs) Ht) as (bg & d3 & fs3 & E).
      rewrite Edraw in E. injection E as -> _ _.
      exists bg. cbn [set_wallpaper_fit_pct wallpaper_fit_pct default from_option id].
      unfold short_side. rewrite (Z.min_l v 100) by lia. rewrite (Z.max_r 10 v) by lia.
      split; reflexivity.
    + cbn [fa_data fa_drawn fa_ending]. repeat split. intros; discriminate.
  - intros Hne. apply String.eqb_neq in Hne. rewrite Hne. unfold save_data.
    destruct (fs_writable fs); cbn [fa_data fa_fs fa_drawn fa_ending]; repeat split;
      intros; discriminate.
Qed.

Lemma apply_fit_pct_stores_50_to_100_witness :
  let r := _apply_fit_pct "main" 7 true (Some "a.png"%string) 800 400 DEFAULT_DATA
             (SamplerFacts.fs_images true) in
  wallpaper_fit_pct (fa_data r) = Some (clamp 7 50 100)
  /\ wallpaper_min_fit_pct (fa_data r) = wallpaper_min_fit_pct DEFAULT_DATA
  /\ (fs_writable (SamplerFacts.fs_images true) = true -> true = true ->
      truthy_str (Some "a.png"%string) = true ->
      exists bg,
        fa_drawn r
        = Some {| d_bg := bg;
                  d_short := Some (Z.min (Z.max 1 800) (Z.max 1 400) * clamp 7 50 100 / 100) |}
        /\ fa_ending r = Completed).
Proof.
  apply (proj1 (proj2 (apply_fit_pct_stores_50_to_100 "main" 7 true (Some "a.png"%string)
                         800 400 DEFAULT_DATA (SamplerFacts.fs_images true)))).
  reflexivity.
Defined.

End SettingsFacts.

(** ** Main stage repaint *)

Module StageFacts.
Import Stage.

(** [n] geometry events in a row. *)
Fixpoint layer_run (n : nat) (l : layer) : layer :=
  match n with
  | O => l
  | S n' => layer_run n' (_on_layer_configure l)
  end.

(** X18: the layer's repaint throttle never re-arms: the flag is set when the
    first repaint is scheduled and nothing clears it, so however many
    geometry events the layer receives, exactly one repaint is scheduled
    from a fresh layer and none once the flag is set. *)
Theorem layer_repaint_scheduled_once (n : nat) (l : layer) :
  (_repaint_scheduled l = true -> layer_run n l = l)
  /\ (_repaint_scheduled l = false -> (0 < n)%nat ->
      scheduled (layer_run n l) = S (scheduled l)
      /\ _repaint_scheduled (layer_run n l) = true)
  /\ (forall pil picked ww wh d fs,
        fst (_apply_main_wallpaper pil picked ww wh (layer_run n l) d fs) = layer_run n l).
Proof.
  assert (Hset : forall m l', _repaint_scheduled l' = true -> layer_run m l' = l').
  { induction m as [|m IH]; intros l' H; [reflexivity|].
    cbn [layer_run]. unfold _on_layer_configure. rewrite H. cbn [negb]. apply IH, H. }
  split; [apply Hset|]. split; [|reflexivity].
  intros Hf Hn. destruct n as [|n]; [lia|].
  cbn [layer_run]. rewrite Hset; unfold _on_layer_configure; rewrite Hf; cbn; auto.
Qed.

Lemma layer_repaint_scheduled_once_witness :
  scheduled (layer_run 5 {| _repaint_scheduled := false; scheduled := 0 |}) = 1%nat
  /\ _repaint_scheduled (layer_run 5 {| _repaint_scheduled := false; scheduled := 0 |}) = true.
Proof.
  apply (proj1 (proj2 (layer_repaint_scheduled_once 5
                         {| _repaint_scheduled := false; scheduled := 0 |})));
    [reflexivity | lia].
Defined.

End StageFacts.

(** ** Image sources *)

Module ImagesFacts.
Import Images.

Fixpoint has_dot (s : string) : bool :=
  match s with
  | EmptyString => false
  | String c r => Ascii.eqb c "." || has_dot r
  end.

Lemma rsplit_dot_spec (s : string) :
  match rsplit_dot s with
  | Some (a, b) => s = (a ++ b)%string
                   /\ exists t, b = String "." t /\ has_dot t = false
  | None => has_dot s = false
  end.
Proof.
  induction s as [|c r IH]; [reflexivity|]. cbn [rsplit_dot has_dot].
  destruct (rsplit_dot r) as [[a b]|].
  - destruct IH as (-> & t & -> & Ht). split; [reflexivity|]. eauto.
  - destruct (Ascii.eqb_spec c ".") as [->|Hne].
    + split; [reflexivity|]. eauto.
    + exact IH.
Qed.

Lemma append_empty_r (s : string) : (s ++ "")%string = s.
Proof.
  induction s as [|c s IH]; [reflexivity|].
  change (String c s ++ "")%string with (String c (s ++ "")%string).
  f_equal. exact IH.
Qed.

(** [splitext] loses nothing: root and extension put together are the
    name again; the extension is empty or is a dot followed by dot-free
    text, and in that case the root is not made of dots only. *)
Lemma splitext_round_trip (fn : string) :
  (fst (splitext fn) ++ snd (splitext fn))%string = fn
  /\ (snd (splitext fn) = EmptyString
      \/ (exists t, snd (splitext fn) = String "." t /\ has_dot t = false)
         /\ all_dots (fst (splitext fn)) = false).
Proof.
  unfold splitext. pose proof (rsplit_dot_spec fn) as H.
  destruct (rsplit_dot fn) as [[root ext]|].
  - destruct H as (-> & t & -> & Ht).
    destruct (all_dots root) eqn:Hd; cbn [fst snd].
    + split; [|left; reflexivity]. apply append_empty_r.
    + split; [reflexivity|]. right. split; [eauto | exact Hd].
  - cbn [fst snd]. split; [|left; reflexivity]. apply append_empty_r.
Qed.

Section ListingFacts.

Variable listdir : string -> outcome (list string).
Variable join : string -> string -> string.
Variable isfile : string -> bool.
Variable path_exists : string -> bool.

Definition is_image (d fn : string) : bool :=
  in_exts (lower (snd (splitext fn))) && isfile (join d fn).

Lemma list_images_filter (d : string) (names : list string) :
  d <> EmptyString -> listdir d = Returned names ->
  list_images listdir join isfile (Some d) = map (join d) (List.filter (is_image d) names).
Proof.
  intros Hd Hl. unfold list_images. cbn [truthy_str default from_option id].
  destruct (String.eqb_spec d ""); [contradiction|]. cbn [negb]. rewrite Hl.
  clear Hl.
  assert (G : forall acc,
    fold_left (fun items fn =>
                 if in_exts (lower (snd (splitext fn))) && isfile (join d fn)
                 then items ++ [join d fn] else items) names acc
    = acc ++ map (join d) (List.filter (is_image d) names)).
  { induction names as [|fn names IH]; intros acc; cbn [fold_left List.filter map].
    - rewrite app_nil_r. reflexivity.
    - rewrite IH. unfold is_image at 2.
      destruct (in_exts (lower (snd (splitext fn))) && isfile (join d fn));
        [cbn [map]; rewrite <- app_assoc|]; reflexivity. }
  apply (G []).
Qed.

(** X19: [list_images] returns, in directory order, exactly the entries that
    are regular files and whose extension is one of the six image
    extensions whatever its letter case; without a directory, or when
    the directory cannot be listed, it returns the empty list. *)
Theorem list_images_lists_only_images (dir : option string) :
  (forall p, In p (list_images listdir join isfile dir) ->
     exists d names fn,
       dir = Some d /\ listdir d = Returned names /\ In fn names
       /\ p = join d fn /\ isfile p = true
       /\ In (lower (snd (splitext fn))) IMAGE_EXTS)
  /\ (forall d names, dir = Some d -> d <> EmptyString -> listdir d = Returned names ->
        list_images listdir join isfile dir
        = map (join d) (List.filter (is_image d) names))
  /\ (truthy_str dir = false -> list_images listdir join isfile dir = [])
  /\ (forall d e, dir = Some d -> listdir d = Raised e ->
        list_images listdir join isfile dir = []).
Proof.
  split; [|split; [|split]].
  - intros p Hp. destruct dir as [d|]; [|contradiction].
    destruct (String.eqb_spec d "") as [->|Hd]; [contradiction|].
    destruct (listdir d) as [names|e] eqn:Hl.
    + rewrite (list_images_filter d names Hd Hl) in Hp.
      apply in_map_iff in Hp as (fn & <- & Hf).
      apply filter_In in Hf as [Hin Hok]. unfold is_image in Hok.
      apply andb_prop in Hok as [Hext Hfile].
      exists d, names, fn. repeat split; auto.
      unfold in_exts in Hext. apply existsb_exists in Hext as (x & Hx & Heq).
      apply String.eqb_eq in Heq. subst x. exact Hx.
    + unfold list_images in Hp. cbn [truthy_str default from_option id] in Hp.
      destruct (String.eqb d ""); cbn [negb] in Hp; [contradiction|].
      rewrite Hl in Hp. contradiction.
  - intros d names -> Hd Hl. apply list_images_filter; assumption.
  - intros Ht. unfold list_images. rewrite Ht. reflexivity.
  - intros d e -> Hl. unfold list_images. destruct (negb _); [reflexivity|].
    cbn [default from_option id]. rewrite Hl. reflexivity.
Qed.

(** X20: the wallpaper source: the configured file when it exists, else one
    of the images [list_images] found in the configured directory, else
    nothing; a configured file that does not exist is never returned
    unless the directory lists it. *)
Theorem pick_returns_existing_or_listed (file dir : option string) (r : nat) :
  match _pick listdir join isfile path_exists file dir r with
  | Some p =>
      (file = Some p /\ p <> EmptyString /\ path_exists p = true)
      \/ In p (list_images listdir join isfile dir)
  | None => list_images listdir join isfile dir = []
            /\ (truthy_str file = false
                \/ path_exists (default EmptyString file) = false)
  end.
Proof.
  unfold _pick.
  destruct (truthy_str file && path_exists (default EmptyString file)) eqn:E.
  - apply andb_prop in E as [Ht He]. destruct file as [p|]; [|discriminate].
    left. cbn in He, Ht. repeat split; auto.
    intros ->. discriminate.
  - apply andb_false_iff in E.
    destruct (list_images listdir join isfile dir) as [|x xs] eqn:El; [split; auto|].
    destruct (nth_error (x :: xs) (r mod length (x :: xs))) as [p|] eqn:En.
    + right. eapply nth_error_In, En.
    + exfalso. apply nth_error_None in En.
      pose proof (Nat.mod_upper_bound r (length (x :: xs)) ltac:(discriminate)). lia.
Qed.

End ListingFacts.

(** A small directory: two images (one with an upper-case extension), a
    hidden file named like an extension, a text file and a sub-directory
    named like an image. *)
Definition demo_listdir (d : string) : outcome (list string) :=
  if String.eqb d "pics"
  then Returned ["a.PNG"; ".png"; "notes.txt"; "b.jpeg"; "dir.gif"]%string
  else Raised OSError.

Definition demo_join (d fn : string) : string := (d ++ "/" ++ fn)%string.

Definition demo_isfile (p : string) : bool := negb (String.eqb p "pics/dir.gif").

Lemma list_images_lists_only_images_witness :
  list_images demo_listdir demo_join demo_isfile (Some "pics"%string)
  = map (demo_join "pics") (List.filter (is_image demo_join demo_isfile "pics")
                              ["a.PNG"; ".png"; "notes.txt"; "b.jpeg"; "dir.gif"]%string).
Proof.
  apply (proj1 (proj2 (list_images_lists_only_images demo_listdir demo_join demo_isfile
                         (Some "pics"%string))) "pics"%string);
    [reflexivity | discriminate | reflexivity].
Defined.

Example list_images_demo :
  list_images demo_listdir demo_join demo_isfile (Some "pics"%string)
  = ["pics/a.PNG"; "pics/b.jpeg"]%string.
Proof. vm_compute. reflexivity. Qed.

End ImagesFacts.

(** ** Durations *)

Module DurationsFacts.
Import Durations.

(** The length in seconds of a unit word. *)
Definition weight (u : string) : Z :=
  if String.eqb u MONTH then 30 * 86400
  else if String.eqb u DAY then 86400
  else if String.eqb u HOUR then 3600
  else if String.eqb u MINUTE then 60
  else if String.eqb u MINUTES then 60
  else if String.eqb u SECOND then 1
  else 0.

(** The seconds a run of "number, unit" pairs stands for. *)
Fixpoint seconds_in (ps : list piece) : Z :=
  match ps with
  | Num n :: Txt u :: r => n * weight u + seconds_in r
  | _ => 0
  end.

(** The numbers of a text, in order. *)
Fixpoint numbers (ps : list piece) : list Z :=
  match ps with
  | [] => []
  | Num n :: r => n :: numbers r
  | Txt _ :: r => numbers r
  end.

Lemma weight_MONTH : weight MONTH = 2592000. Proof. reflexivity. Qed.
Lemma weight_DAY : weight DAY = 86400. Proof. reflexivity. Qed.
Lemma weight_HOUR : weight HOUR = 3600. Proof. reflexivity. Qed.
Lemma weight_MINUTE : weight MINUTE = 60. Proof. reflexivity. Qed.
Lemma weight_MINUTES : weight MINUTES = 60. Proof. reflexivity. Qed.
Lemma weight_SECOND : weight SECOND = 1. Proof. reflexivity. Qed.

Ltac weights :=
  cbn [seconds_in numbers app];
  rewrite ?weight_MONTH, ?weight_DAY, ?weight_HOUR, ?weight_MINUTE,
          ?weight_MINUTES, ?weight_SECOND.

(** X21: [human_hms] accounts for every second, for every integer: the hours,
    minutes and seconds it prints add up to its argument, minutes and
    seconds are below sixty, and a leading zero hour (and then a leading
    zero minute) is left out. *)
Theorem human_hms_adds_up (sec : Z) :
  seconds_in (human_hms_pieces sec) = sec
  /\ (exists h m s,
        0 <= m < 60 /\ 0 <= s < 60 /\ sec = h * 3600 + m * 60 + s
        /\ numbers (human_hms_pieces sec)
           = if negb (h =? 0) then [h; m; s]
             else if negb (m =? 0) then [m; s] else [s]).
Proof.
  pose proof (Z.div_mod sec 3600 ltac:(lia)) as E1.
  pose proof (Z.mod_pos_bound sec 3600 ltac:(lia)) as B1.
  pose proof (Z.div_mod (sec mod 3600) 60 ltac:(lia)) as E2.
  pose proof (Z.mod_pos_bound (sec mod 3600) 60 ltac:(lia)) as B2.
  assert (E3 : (sec mod 3600) mod 60 = sec mod 60).
  { apply (Z.mod_unique sec 60 (60 * (sec / 3600) + (sec mod 3600) / 60)); lia. }
  split.
  - unfold human_hms_pieces. cbv zeta.
    destruct (sec / 3600 =? 0) eqn:Hh; cbn [negb].
    + apply Z.eqb_eq in Hh.
      destruct (sec mod 3600 / 60 =? 0) eqn:Hm; cbn [negb]; weights;
        [apply Z.eqb_eq in Hm|]; lia.
    + weights. lia.
  - exists (sec / 3600), (sec mod 3600 / 60), (sec mod 60).
    split; [lia|]. split; [lia|]. split; [lia|].
    unfold human_hms_pieces. cbv zeta.
    destruct (sec / 3600 =? 0); cbn [negb]; [|reflexivity].
    destruct (sec mod 3600 / 60 =? 0); reflexivity.
Qed.

Definition single_units : list string := [MONTH; DAY; HOUR; MINUTES; SECOND].

Lemma single_unit_cases (u : string) :
  In u single_units ->
  u = MONTH \/ u = DAY \/ u = HOUR \/ u = MINUTES \/ u = SECOND.
Proof. cbn. intuition. Qed.

(** X22: with one of the five single units chosen, [fmt_future_delta] prints
    the whole number of units contained in the distance, rounded towards
    zero, whichever side of now the date lies on, and the prefix tells
    the side. *)
Theorem fmt_future_delta_single_unit_truncates (sec : Z) (u : string) :
  In u single_units ->
  exists n,
    fmt_future_delta_pieces sec (Some u)
    = [Txt (if 0 <=? sec then REMAINING else PASSED); Txt " "; Num n; Txt " "; Txt u]
    /\ n * weight u <= Z.abs sec < (n + 1) * weight u.
Proof.
  intros Hu. apply single_unit_cases in Hu.
  assert (D : forall k, 0 < k ->
            (Z.abs sec / k) * k <= Z.abs sec < (Z.abs sec / k + 1) * k).
  { intros k Hk. pose proof (Z.div_mod (Z.abs sec) k ltac:(lia)).
    pose proof (Z.mod_pos_bound (Z.abs sec) k Hk). lia. }
  destruct Hu as [-> | [-> | [-> | [-> | ->]]]].
  - exists (Z.abs sec / (30 * 86400)). split; [reflexivity|].
    rewrite weight_MONTH. apply (D 2592000). lia.
  - exists (Z.abs sec / 86400). split; [reflexivity|].
    rewrite weight_DAY. apply D. lia.
  - exists (Z.abs sec / 3600). split; [reflexivity|].
    rewrite weight_HOUR. apply D. lia.
  - exists (Z.abs sec / 60). split; [reflexivity|].
    rewrite weight_MINUTES. apply D. lia.
  - exists (Z.abs sec). split; [reflexivity|].
    rewrite weight_SECOND. lia.
Qed.

Lemma fmt_future_delta_single_unit_truncates_witness :
  exists n,
    fmt_future_delta_pieces (-200000) (Some DAY)
    = [Txt (if 0 <=? -200000 then REMAINING else PASSED); Txt " "; Num n; Txt " "; Txt DAY]
    /\ n * weight DAY <= Z.abs (-200000) < (n + 1) * weight DAY.
Proof.
  apply (fmt_future_delta_single_unit_truncates (-200000) DAY).
  right. left. reflexivity.
Defined.

Definition is_single_unit (unit : option string) : bool :=
  match unit with
  | Some v => existsb (String.eqb v) single_units
  | None => false
  end.

(** X23: with any other unit setting (the default mixed one, an unknown word,
    or none), [fmt_future_delta] prints a non-empty run of months, days,
    hours, minutes and seconds that adds up to the distance exactly, each
    below its carry, with no zero component except a lone zero second. *)
Theorem fmt_future_delta_mixed_adds_up (sec : Z) (unit : option string) :
  is_single_unit unit = false ->
  exists parts,
    fmt_future_delta_pieces sec unit
    = [Txt (if 0 <=? sec then REMAINING else PASSED); Txt " "] ++ parts
    /\ parts <> []
    /\ seconds_in parts = Z.abs sec
    /\ (forall n, In n (numbers parts) -> n <> 0 \/ sec = 0)
    /\ (sec = 0 -> parts = [Num 0; Txt SECOND]).
Proof.
  intros Hu.
  assert (Hs : forall u, In u single_units ->
                match unit with Some v => String.eqb v u | None => false end = false).
  { intros u Hin. destruct unit as [v|]; [|reflexivity].
    cbn [is_single_unit] in Hu. destruct (String.eqb v u) eqn:E; [|reflexivity].
    rewrite <- Hu. symmetry. apply existsb_exists. eauto. }
  unfold fmt_future_delta_pieces. cbv zeta.
  rewrite (Hs MONTH), (Hs DAY), (Hs HOUR), (Hs MINUTES), (Hs SECOND)
    by (cbn; tauto).
  set (a := Z.abs sec). assert (Ha : 0 <= a) by (subst a; lia).
  assert (Hz : sec = 0 <-> a = 0) by (subst a; lia).
  clearbody a.
  pose proof (Z.div_mod a (30 * 86400) ltac:(lia)) as E1.
  pose proof (Z.mod_pos_bound a (30 * 86400) ltac:(lia)) as B1.
  pose proof (Z.div_mod (a mod (30 * 86400)) 86400 ltac:(lia)) as E2.
  pose proof (Z.mod_pos_bound (a mod (30 * 86400)) 86400 ltac:(lia)) as B2.
  assert (E3 : (a mod (30 * 86400)) mod 86400 = a mod 86400).
  { apply (Z.mod_unique a 86400 (30 * (a / (30 * 86400)) + (a mod (30 * 86400)) / 86400)); lia. }
  pose proof (Z.div_mod (a mod 86400) 3600 ltac:(lia)) as E4.
  pose proof (Z.mod_pos_bound (a mod 86400) 3600 ltac:(lia)) as B4.
  pose proof (Z.div_mod a 86400 ltac:(lia)) as E5.
  assert (E6 : (a mod 86400) mod 3600 = a mod 3600).
  { apply (Z.mod_unique a 3600 (24 * (a / 86400) + (a mod 86400) / 3600)); lia. }
  pose proof (Z.div_mod (a mod 3600) 60 ltac:(lia)) as E7.
  pose proof (Z.mod_pos_bound (a mod 3600) 60 ltac:(lia)) as B7.
  pose proof (Z.div_mod a 3600 ltac:(lia)) as E8.
  assert (E9 : (a mod 3600) mod 60 = a mod 60).
  { apply (Z.mod_unique a 60 (60 * (a / 3600) + (a mod 3600) / 60)); lia. }
  eexists. split; [reflexivity|].
  destruct (a / (30 * 86400) =? 0) eqn:H1;
  destruct (a mod (30 * 86400) / 86400 =? 0) eqn:H2;
  destruct (a mod 86400 / 3600 =? 0) eqn:H3;
  destruct (a mod 3600 / 60 =? 0) eqn:H4;
  destruct (a mod 60 =? 0) eqn:H5;
  cbn [negb orb app];
  rewrite ?Z.eqb_eq, ?Z.eqb_neq in *;
  (split; [discriminate|]);
  (split; [weights; lia|]);
  (split; [cbn [numbers app]; intros n Hn; cbn [In] in Hn;
           intuition (subst; try lia)
          | intros Hsec; apply Hz in Hsec;
            first [exfalso; lia | rewrite H5; reflexivity]]).
Qed.

Lemma fmt_future_delta_mixed_adds_up_witness :
  exists parts,
    fmt_future_delta_pieces 2682061 None
    = [Txt (if 0 <=? 2682061 then REMAINING else PASSED); Txt " "] ++ parts
    /\ parts <> []
    /\ seconds_in parts = Z.abs 2682061
    /\ (forall n, In n (numbers parts) -> n <> 0 \/ 2682061 = 0)
    /\ (2682061 = 0 -> parts = [Num 0; Txt SECOND]).
Proof.
  apply (fmt_future_delta_mixed_adds_up 2682061 None). reflexivity.
Defined.

End DurationsFacts.

(** ** The event line of the minimal panel *)

Module FutureFacts.
Import Durations Future.

Fixpoint ordered (l : list (Z * future_event)) : Prop :=
  match l with
  | [] => True
  | x :: r => (forall y, In y r -> fst x <= fst y) /\ ordered r
  end.

Lemma In_insert (x y : Z * future_event) (l : list (Z * future_event)) :
  In y (insert x l) <-> y = x \/ In y l.
Proof.
  induction l as [|z r IH]; cbn [insert].
  - cbn. intuition.
  - destruct (fst x <=? fst z); cbn [In]; [intuition|].
    rewrite IH. intuition.
Qed.

Lemma In_sorted (y : Z * future_event) (l : list (Z * future_event)) :
  In y (sorted l) <-> In y l.
Proof.
  induction l as [|x r IH]; [reflexivity|].
  cbn [sorted fold_right]. rewrite In_insert. fold (sorted r). rewrite IH.
  cbn [In]. intuition.
Qed.

Lemma insert_ordered (x : Z * future_event) (l : list (Z * future_event)) :
  ordered l -> ordered (insert x l).
Proof.
  induction l as [|z r IH]; intros Ho; cbn [insert].
  - cbn. intuition.
  - destruct Ho as [Hz Hr]. destruct (fst x <=? fst z) eqn:E.
    + apply Z.leb_le in E. cbn [ordered]. split; [|split; assumption].
      intros y [<-|Hy]; [exact E|]. specialize (Hz y Hy). lia.
    + apply Z.leb_gt in E. cbn [ordered]. split; [|apply IH, Hr].
      intros y Hy. apply In_insert in Hy as [->|Hy]; [lia | apply Hz, Hy].
Qed.

Lemma sorted_ordered (l : list (Z * future_event)) : ordered (sorted l).
Proof.
  induction l as [|x r IH]; [exact I|]. apply insert_ordered, IH.
Qed.

Lemma find_ordered (p : Z * future_event -> bool) (l : list (Z * future_event)) (x : Z * future_event) :
  ordered l -> List.find p l = Some x ->
  p x = true /\ In x l /\ forall y, In y l -> p y = true -> fst x <= fst y.
Proof.
  induction l as [|z r IH]; intros Ho Hf; [discriminate|].
  destruct Ho as [Hz Hr]. cbn [List.find] in Hf. destruct (p z) eqn:Ez.
  - injection Hf as <-. split; [exact Ez|]. split; [left; reflexivity|].
    intros y [<-|Hy] _; [lia | apply Hz, Hy].
  - destruct (IH Hr Hf) as (Hp & Hin & Hmin). split; [exact Hp|].
    split; [right; exact Hin|].
    intros y [<-|Hy] Hy'; [congruence | apply Hmin; assumption].
Qed.

Section ClockFacts.

Variable strptime : string -> outcome Z.
Variable today : Z.

Lemma In_parsed (evs : list future_event) (d : Z) (ev : future_event) :
  In (d, ev) (parsed strptime evs)
  <-> In ev evs /\ strptime (default EmptyString (date ev)) = Returned d.
Proof.
  unfold parsed.
  assert (G : forall acc,
    In (d, ev)
      (fold_left
         (fun events ev =>
            match strptime (default EmptyString (date ev)) with
            | Returned d => events ++ [(d, ev)]
            | Raised _ => events
            end) evs acc)
    <-> In (d, ev) acc
        \/ (In ev evs /\ strptime (default EmptyString (date ev)) = Returned d)).
  { induction evs as [|e r IH]; intros acc; cbn [fold_left].
    - cbn. intuition.
    - rewrite IH. cbn [In].
      destruct (strptime (default EmptyString (date e))) as [d'|x] eqn:E.
      + rewrite in_app_iff. cbn [In]. split.
        * intros [[H|[H|[]]]|[H1 H2]]; [tauto| |tauto].
          injection H as -> ->. right. split; [left; reflexivity | exact E].
        * intros [H|[[<-|H1] H2]]; [tauto| |tauto].
          left. right. left. congruence.
      + split; [tauto|]. intros [H|[[<-|H1] H2]]; [tauto|congruence|tauto]. }
  rewrite G. cbn. tauto.
Qed.

Lemma In_upcoming (s : settings) (d : Z) (ev : future_event) :
  In (d, ev) (upcoming strptime today s)
  <-> In ev (default [] (future_events s))
      /\ strptime (default EmptyString (date ev)) = Returned d
      /\ today <= d.
Proof.
  unfold upcoming. rewrite In_sorted, filter_In, In_parsed. cbn [fst].
  rewrite Z.leb_le. tauto.
Qed.

(** X24: the event line never shows a past or undated event, and shows
    nothing only when there is no event from today on.  The event it
    shows is a stored one whose date parses and is not before today; if
    the preference names the title of such an event, the shown event
    has that title and is the earliest with it; otherwise (preference
    missing, empty, "nearest", or naming no event from today on) it is
    the earliest of all. *)
Theorem event_line_shows_earliest_match (s : settings) :
  match chosen strptime today s with
  | None =>
      forall ev d, In ev (default [] (future_events s)) ->
                   strptime (default EmptyString (date ev)) = Returned d ->
                   d < today
  | Some (d, ev) =>
      In ev (default [] (future_events s))
      /\ strptime (default EmptyString (date ev)) = Returned d
      /\ today <= d
      /\ let pref := default "nearest"%string (minimal_future_choice s) in
         let named :=
           pref <> EmptyString /\ pref <> "nearest"%string
           /\ exists x, In x (upcoming strptime today s) /\ title (snd x) = Some pref in
         (named ->
            title ev = Some pref
            /\ forall d' ev', In (d', ev') (upcoming strptime today s) ->
                              title ev' = Some pref -> d <= d')
         /\ (~ named ->
            forall d' ev', In (d', ev') (upcoming strptime today s) -> d <= d')
  end.
Proof.
  unfold chosen.
  pose proof (sorted_ordered
                (List.filter (fun x => today <=? fst x)
                   (parsed strptime (default [] (future_events s))))) as Ho.
  fold (upcoming strptime today s) in Ho.
  destruct (upcoming strptime today s) as [|first rest] eqn:Eu.
  - intros ev d Hin Hp. destruct (Z.lt_ge_cases d today) as [|Hge]; [assumption|].
    exfalso. assert (H : In (d, ev) (upcoming strptime today s))
      by (apply In_upcoming; auto).
    rewrite Eu in H. exact H.
  - set (pref := default "nearest"%string (minimal_future_choice s)).
    assert (Hfirst : forall y, In y (first :: rest) -> fst first <= fst y).
    { intros y [<-|Hy]; [lia | apply (proj1 Ho), Hy]. }
    assert (Htitled : forall x, titled pref x = true <-> title (snd x) = Some pref).
    { intros x. unfold titled. destruct (title (snd x)) as [t|]; [|split; discriminate].
      rewrite String.eqb_eq. split; congruence. }
    assert (Hmem : forall x, In x (first :: rest) ->
              In (snd x) (default [] (future_events s))
              /\ strptime (default EmptyString (date (snd x))) = Returned (fst x)
              /\ today <= fst x).
    { intros [d' ev'] Hx. rewrite <- Eu in Hx. apply In_upcoming in Hx. exact Hx. }
    destruct (negb (String.eqb pref "") && negb (String.eqb pref "nearest")) eqn:Ep.
    + apply andb_prop in Ep as [Ep1 Ep2].
      apply negb_true_iff in Ep1, Ep2. apply String.eqb_neq in Ep1, Ep2.
      destruct (List.find (titled pref) (first :: rest)) as [c|] eqn:Ef.
      * destruct (find_ordered _ _ _ Ho Ef) as (Hp & Hin & Hmin).
        destruct c as [d ev]. destruct (Hmem _ Hin) as (H1 & H2 & H3).
        cbn [fst snd] in *. repeat (split; [assumption|]). cbv zeta. split.
        -- intros _. split; [apply (proj1 (Htitled (d, ev))), Hp|].
           intros d' ev' Hin' Ht. apply (Hmin (d', ev') Hin').
           apply Htitled. exact Ht.
        -- intros Hn. exfalso. apply Hn. repeat (split; [assumption|]).
           exists (d, ev). split; [exact Hin|]. apply (proj1 (Htitled (d, ev))), Hp.
      * destruct first as [d ev]. destruct (Hmem (d, ev) (or_introl eq_refl)) as (H1 & H2 & H3).
        cbn [fst snd] in *. repeat (split; [assumption|]). cbv zeta. split.
        -- intros (_ & _ & x & Hx & Ht). exfalso.
           pose proof (find_none _ _ Ef x Hx) as Hno.
           apply Htitled in Ht. congruence.
        -- intros _ d' ev' Hin'. apply (Hfirst (d', ev') Hin').
    + destruct first as [d ev]. destruct (Hmem (d, ev) (or_introl eq_refl)) as (H1 & H2 & H3).
      cbn [fst snd] in *. repeat (split; [assumption|]). cbv zeta. split.
      * intros (N1 & N2 & _). exfalso.
        apply andb_false_iff in Ep as [Ep|Ep]; apply negb_false_iff in Ep;
          apply String.eqb_eq in Ep; contradiction.
      * intros _ d' ev' Hin'. apply (Hfirst (d', ev') Hin').
Qed.

Lemma upcoming_nil (s : settings) :
  upcoming strptime today s = []
  <-> forall ev d, In ev (default [] (future_events s)) ->
                   strptime (default EmptyString (date ev)) = Returned d ->
                   d < today.
Proof.
  split.
  - intros Eu ev d Hin Hp. destruct (Z.lt_ge_cases d today) as [|Hge]; [assumption|].
    exfalso. assert (H : In (d, ev) (upcoming strptime today s))
      by (apply In_upcoming; auto).
    rewrite Eu in H. exact H.
  - intros Hpast. destruct (upcoming strptime today s) as [|[d ev] r] eqn:Eu; [reflexivity|].
    exfalso. assert (H : In (d, ev) (upcoming strptime today s))
      by (rewrite Eu; left; reflexivity).
    apply In_upcoming in H as (H1 & H2 & H3). specialize (Hpast ev d H1 H2). lia.
Qed.

Lemma append_nonempty (a b : string) :
  b <> EmptyString -> (a ++ b)%string <> EmptyString.
Proof.
  intros Hb. destruct a as [|c a]; [exact Hb|].
  change (String c a ++ b)%string with (String c (a ++ b)%string). discriminate.
Qed.

Lemma append_nonempty_l (a b : string) :
  a <> EmptyString -> (a ++ b)%string <> EmptyString.
Proof.
  intros Ha. destruct a as [|c a]; [contradiction|].
  change (String c a ++ b)%string with (String c (a ++ b)%string). discriminate.
Qed.

(** X25: with an info label, the line is blank exactly when no stored event
    has a readable date from today on; without a label nothing is
    written. *)
Theorem event_line_blank_iff_nothing_ahead (seconds_until : Z -> Z) (s : settings)
    (minimal_info : option string) :
  match minimal_info with
  | None =>
      _update_minimal_nearest_future strptime today seconds_until s minimal_info = None
  | Some _ =>
      exists text,
        _update_minimal_nearest_future strptime today seconds_until s minimal_info
        = Some text
        /\ (text = EmptyString
            <-> forall ev d, In ev (default [] (future_events s)) ->
                             strptime (default EmptyString (date ev)) = Returned d ->
                             d < today)
  end.
Proof.
  destruct minimal_info as [l|]; [|reflexivity].
  cbn [_update_minimal_nearest_future]. pose proof (upcoming_nil s) as Hn.
  unfold chosen. destruct (upcoming strptime today s) as [|first rest].
  - exists EmptyString. split; [reflexivity|].
    split; [intros _; apply Hn; reflexivity | reflexivity].
  - cbv zeta.
    destruct (if negb (String.eqb (default "nearest"%string (minimal_future_choice s)) "")
                 && negb (String.eqb (default "nearest"%string (minimal_future_choice s))
                            "nearest")
              then List.find (titled (default "nearest"%string (minimal_future_choice s)))
                     (first :: rest)
              else None) as [[d ev]|]; [|destruct first as [d ev]].
    all: cbv beta iota.
    all: eexists; (split; [reflexivity|]).
    all: (split; [|intros Hp; apply Hn in Hp; discriminate]).
    all: intros H; exfalso; revert H; cbn [app fstring fold_right].
    all: apply append_nonempty, append_nonempty_l; vm_compute; discriminate.
Qed.

End ClockFacts.


(** A stored list with a past event, an undated one, and three ahead of
    day 20090, two of them titled alike. *)
Definition demo_strptime (s : string) : outcome Z :=
  if String.eqb s "2025-01-01" then Returned 20089
  else if String.eqb s "2025-01-10" then Returned 20098
  else if String.eqb s "2025-03-01" then Returned 20148
  else if String.eqb s "2025-06-01" then Returned 20240
  else Raised ValueError.

Definition demo_settings : settings := {|
  future_events := Some [
    {| title := Some "exam"%string; date := Some "2025-06-01"%string |};
    {| title := Some "party"%string; date := Some "2025-01-01"%string |};
    {| title := Some "trip"%string; date := Some "2025-01-10"%string |};
    {| title := Some "exam"%string; date := Some "2025-03-01"%string |};
    {| title := None; date := Some "soon"%string |}];
  future_unit := None;
  minimal_future_choice := Some "exam"%string
|}.

Lemma event_line_shows_earliest_match_witness :
  chosen demo_strptime 20090 demo_settings
  = Some (20148, {| title := Some "exam"%string; date := Some "2025-03-01"%string |})
  /\ 20090 <= 20148.
Proof.
  split; [reflexivity|].
  pose proof (event_line_shows_earliest_match demo_strptime 20090 demo_settings) as H.
  change (chosen demo_strptime 20090 demo_settings)
    with (Some (20148, {| title := Some "exam"%string; date := Some "2025-03-01"%string |}))
    in H.
  exact (proj1 (proj2 (proj2 H))).
Defined.

Lemma event_line_blank_iff_nothing_ahead_witness :
  exists text,
    _update_minimal_nearest_future demo_strptime 20300 (fun d => (d - 20300) * 86400)
      demo_settings (Some "old"%string) = Some text
    /\ (text = EmptyString
        <-> forall ev d, In ev (default [] (future_events demo_settings)) ->
                         demo_strptime (default EmptyString (date ev)) = Returned d ->
                         d < 20300).
Proof.
  exact (event_line_blank_iff_nothing_ahead demo_strptime 20300
           (fun d => (d - 20300) * 86400) demo_settings (Some "old"%string)).
Defined.

End FutureFacts.

